(** * Keyboard Informer (kbd-informer): a shallow embedding of extension.js and prefs.js

    The extension polls the keyboard modifier bitmask every 200 ms, compares
    it with the previously recorded one, shows an OSD notification when a
    lock key toggles and redraws the panel indicator.  The preferences
    window edits the eight symbol strings.

    Numbers are modelled as [Z] (the modifier state is an integer flag
    word), JavaScript's [&] with its ToInt32 wrap-around written out,
    arrays as lists (with JavaScript's growth on out-of-range writes),
    objects used as dictionaries as [gmap string], and the host (GNOME
    Shell, Clutter, Gio) as an explicit [Host] record the code reads. *)

From Stdlib Require Import ZArith Lia Bool.
From stdpp Require Import base numbers list strings gmap.

Local Open Scope Z_scope.

(** ** JavaScript integer operations *)

Module JS.

(** ToInt32 of an integer-valued number: reduction modulo 2^32 into
    the signed range. *)
Definition ToInt32 (x : Z) : Z :=
  let m := x mod 2 ^ 32 in
  if 2 ^ 31 <=? m then m - 2 ^ 32 else m.

(** [a & b]: both operands go through ToInt32, the result is a signed
    32-bit integer. *)
Definition band (a b : Z) : Z := Z.land (ToInt32 a) (ToInt32 b).

(** [x !== 0] on numbers. *)
Definition nonzero (x : Z) : bool := negb (x =? 0).

(** [Array.prototype.join(sep)] on an array of strings. *)
Fixpoint join (sep : string) (l : list string) : string :=
  match l with
  | [] => ""
  | [x] => x
  | x :: rest => x +:+ sep +:+ join sep rest
  end.

(** [arr[i] = v]: in range it overwrites, out of range the array grows
    and the skipped slots are holes. *)
Definition array_set {A} (l : list (option A)) (i : nat) (v : option A)
  : list (option A) :=
  if decide (i < length l)%nat then <[i := v]> l
  else l ++ replicate (i - length l) None ++ [v].

(** [arr.length = n]: truncates, or pads with holes. *)
Definition array_set_length {A} (l : list (option A)) (n : nat)
  : list (option A) :=
  take n l ++ replicate (n - length l) None.

End JS.

(** ** Clutter.ModifierType flag values (host enumeration, [1 << n]) *)

Module Clutter.
Definition SHIFT_MASK : Z := 1.
Definition LOCK_MASK : Z := 2.
Definition CONTROL_MASK : Z := 4.
Definition MOD1_MASK : Z := 8.
Definition MOD2_MASK : Z := 16.
Definition MOD3_MASK : Z := 32.
Definition MOD4_MASK : Z := 64.
Definition MOD5_MASK : Z := 128.
End Clutter.

(** [MODIFIER_MASKS] of extension.js. *)
Module MODIFIER_MASKS.
Definition SHIFT : Z := Clutter.SHIFT_MASK.
Definition LOCK : Z := Clutter.LOCK_MASK.
Definition CONTROL : Z := Clutter.CONTROL_MASK.
Definition MOD1 : Z := Clutter.MOD1_MASK.
Definition MOD2 : Z := Clutter.MOD2_MASK.
Definition MOD3 : Z := Clutter.MOD3_MASK.
Definition MOD4 : Z := Clutter.MOD4_MASK.
Definition MOD5 : Z := Clutter.MOD5_MASK.
End MODIFIER_MASKS.

(** ** class ModifierStateTracker *)

Module ModifierStateTracker.

(** [previousState] is [null] until the first update. *)
Record t := mk {
  currentState : Z;
  previousState : option Z;
}.

(** What [getModifierChangeInfo] returns when it is not [null]. *)
Record ChangeInfo := mkInfo {
  wasActive : bool;
  isActive : bool;
}.

Definition reset (_ : t) : t :=
  {| currentState := 0; previousState := None |}.

(** [constructor() { this.reset(); }] *)
Definition new : t := {| currentState := 0; previousState := None |}.

Definition updateState (newState : Z) (this : t) : t :=
  {| currentState := newState; previousState := Some (currentState this) |}.

(** [this.currentState !== this.previousState]; a number is never
    strictly equal to [null]. *)
Definition hasStateChanged (this : t) : bool :=
  match previousState this with
  | None => true
  | Some p => negb (currentState this =? p)
  end.

Definition isModifierActive (mask : Z) (this : t) : bool :=
  JS.nonzero (JS.band (currentState this) mask).

Definition getModifierChangeInfo (mask : Z) (this : t) : option ChangeInfo :=
  match previousState this with
  | None => None
  | Some p =>
      let wasActive := JS.nonzero (JS.band p mask) in
      let isActive := JS.nonzero (JS.band (currentState this) mask) in
      if negb (Bool.eqb wasActive isActive)
      then Some {| wasActive := wasActive; isActive := isActive |}
      else None
  end.

End ModifierStateTracker.

(** ** The host: what the code reads from GNOME Shell, Clutter and Gio *)

(** The [Gio.Settings] object returned by [extension.getSettings()]; the
    values live in the host's store and are read through it. *)
Inductive GioSettings := ExtensionSettings.

(** An exception thrown by a host toolkit call. *)
Inductive Exn := HostError.

(** The statement of [ModifiersOSD.show] (with [_showWithAnimation] and
    [_scheduleHide] inlined) whose toolkit call throws, when one does. *)
Inductive ShowStage :=
| SettingTitle      (* this._titleLabel.text = title *)
| SettingStatus     (* this._statusLabel.text = status *)
| ShowingActor      (* disable_unredirect() or super.show() *)
| Animating         (* this.opacity = 0, set_child_above_sibling or ease *)
| ClearingTimeout   (* GLib.source_remove in _clearHideTimeout *)
| ArmingTimeout     (* GLib.timeout_add *)
| NamingTimeout.    (* GLib.Source.set_name_by_id *)

Record Host := mkHost {
  (** [Main.layoutManager.monitors.length] *)
  monitors_length : nat;
  (** third component of [global.get_pointer()]; [None] is [undefined] *)
  pointer_modifiers : option Z;
  (** [settings.get_string(key)] *)
  settings_store : string -> string;
  (** whether a toolkit call inside [ModifiersOSD.show] throws for the
      OSD of the given monitor *)
  osd_show_throws : nat -> bool;
  (** the statement of [ModifiersOSD.show] at which it then throws *)
  osd_show_throws_at : nat -> ShowStage;
}.

Definition get_string (h : Host) (_ : GioSettings) (key : string) : string :=
  settings_store h key.

(** Calls made on the host that the properties below speak about.  [console.debug]
    and [console.warn] calls are not recorded. *)
Inductive Effect :=
| OsdCreated (id monitor : nat)            (* new ModifiersOSD(monitor) *)
| OsdDestroyed (id : nat)                  (* osd.destroy() *)
| NotificationRequested (title status : string) (* _osdManager.show(title, status) *)
| OsdShown (id : nat) (title status : string)   (* osd.show(title, status) completed *)
| PanelTextSet (text : string)             (* this._label.text = text *)
| ConsoleError (e : Exn).                  (* console.error in _showNotification *)

(** Value returned by a GLib timeout callback. *)
Inductive GLibSource := SOURCE_CONTINUE | SOURCE_REMOVE.

(** How a statement list ends: normally with a value, or by a throw. *)
Inductive completion (A : Type) :=
| Normal (a : A)
| Throw (e : Exn).
Arguments Normal {A} a.
Arguments Throw {A} e.

(** ** class ModifiersOSD (one overlay actor on one monitor) *)

Module ModifiersOSD.

Record t := mk {
  (** identity of the JavaScript object *)
  osd_id : nat;
  _monitorIndex : nat;
  titleText : string;
  statusText : string;
  visible : bool;
  (** [_hideTimeoutId !== 0] *)
  hide_scheduled : bool;
}.

(** [_init(monitorIndex)]: [_setupUI] builds the labels, [_reset] hides
    the actor and clears both labels. *)
Definition _init (id monitorIndex : nat) : t :=
  {| osd_id := id; _monitorIndex := monitorIndex;
     titleText := ""; statusText := "";
     visible := false; hide_scheduled := false |}.

(** The object as a throw inside [show(title, status)] leaves it: the
    statements before [stage] have run.  [super.show()] makes a hidden
    actor visible, [_clearHideTimeout] resets [_hideTimeoutId] after
    [GLib.source_remove] returned, and the assignment of the new timeout
    id happens once [GLib.timeout_add] returned.  Where the control flow
    skips the call of [stage] (no [_showWithAnimation] for a visible
    actor, no [source_remove] without a timeout) the exception comes
    from the next call made, which finds the object in the same state. *)
Definition interrupted (stage : ShowStage) (title status : string) (this : t) : t :=
  match stage with
  | SettingTitle => this
  | SettingStatus =>
      {| osd_id := osd_id this; _monitorIndex := _monitorIndex this;
         titleText := title; statusText := statusText this;
         visible := visible this; hide_scheduled := hide_scheduled this |}
  | ShowingActor =>
      {| osd_id := osd_id this; _monitorIndex := _monitorIndex this;
         titleText := title; statusText := status;
         visible := visible this; hide_scheduled := hide_scheduled this |}
  | Animating | ClearingTimeout =>
      {| osd_id := osd_id this; _monitorIndex := _monitorIndex this;
         titleText := title; statusText := status;
         visible := true; hide_scheduled := hide_scheduled this |}
  | ArmingTimeout =>
      {| osd_id := osd_id this; _monitorIndex := _monitorIndex this;
         titleText := title; statusText := status;
         visible := true; hide_scheduled := false |}
  | NamingTimeout =>
      {| osd_id := osd_id this; _monitorIndex := _monitorIndex this;
         titleText := title; statusText := status;
         visible := true; hide_scheduled := true |}
  end.

(** [show(title, status)]: sets both labels, shows the actor when it is
    hidden and (re)arms the hide timeout.  The later expiry of that
    timeout is not modelled.  When a toolkit call throws, the exception
    leaves [show]; [interrupted] gives the object it leaves behind. *)
Definition show (h : Host) (title status : string) (this : t) : completion t :=
  if osd_show_throws h (_monitorIndex this) then Throw HostError
  else Normal {| osd_id := osd_id this; _monitorIndex := _monitorIndex this;
                 titleText := title; statusText := status;
                 visible := true; hide_scheduled := true |}.

End ModifiersOSD.

(** [arr[i]] read as a truthy object: [None] for a hole, [null],
    [undefined] or an index past the end. *)
Definition array_get {A} (l : list (option A)) (i : nat) : option A :=
  match l !! i with
  | Some (Some x) => Some x
  | _ => None
  end.

(** ** class ModifiersOSDManager *)

Module ModifiersOSDManager.

Record t := mk {
  (** a JavaScript array; [None] is a hole or [null] *)
  _osdWindows : list (option ModifiersOSD.t);
}.

(** State threaded through the loops of [_onMonitorsChanged]: the array,
    the number of the next object to create, the calls made so far. *)
Definition loop_state : Type := list (option ModifiersOSD.t) * nat * list Effect.

(** Body of the first loop:
    [if (!this._osdWindows[i]) this._osdWindows[i] = new ModifiersOSD(i);] *)
Definition create_if_missing (st : loop_state) (i : nat) : loop_state :=
  let '(ws, next, out) := st in
  match array_get ws i with
  | Some _ => st
  | None =>
      (JS.array_set ws i (Some (ModifiersOSD._init next i)), S next,
       out ++ [OsdCreated next i])
  end.

(** Body of the second loop:
    [if (this._osdWindows[i]) { this._osdWindows[i].destroy();
                                this._osdWindows[i] = null; }] *)
Definition destroy_if_present (st : loop_state) (i : nat) : loop_state :=
  let '(ws, next, out) := st in
  match array_get ws i with
  | Some osd =>
      (JS.array_set ws i None, next, out ++ [OsdDestroyed (ModifiersOSD.osd_id osd)])
  | None => st
  end.

(** [_onMonitorsChanged()].  The second loop runs [i] from [monitorCount]
    up to the array length, which its body never changes. *)
Definition _onMonitorsChanged (h : Host) (next : nat) (this : t)
  : t * nat * list Effect :=
  let monitorCount := monitors_length h in
  let st1 := fold_left create_if_missing (seq 0 monitorCount)
                       (_osdWindows this, next, []) in
  let st2 := fold_left destroy_if_present
                       (seq monitorCount (length (fst (fst st1)) - monitorCount))
                       st1 in
  let '(ws, next', out) := st2 in
  ({| _osdWindows := JS.array_set_length ws monitorCount |}, next', out).

(** [constructor()]: an empty array, then [_onMonitorsChanged()]. *)
Definition new (h : Host) (next : nat) : t * nat * list Effect :=
  _onMonitorsChanged h next {| _osdWindows := [] |}.

(** [this._osdWindows.forEach(osd => { if (osd) osd.show(title, status); })]:
    every OSD object is updated in place; a throw ends the iteration and
    leaves the OSD whose [show] threw as far as that call got. *)
Fixpoint show_each (h : Host) (title status : string)
    (ws : list (option ModifiersOSD.t))
  : completion unit * list (option ModifiersOSD.t) * list Effect :=
  match ws with
  | [] => (Normal tt, [], [])
  | None :: rest =>
      let '(r, rest', out) := show_each h title status rest in
      (r, None :: rest', out)
  | Some osd :: rest =>
      match ModifiersOSD.show h title status osd with
      | Throw e =>
          (Throw e,
           Some (ModifiersOSD.interrupted
                   (osd_show_throws_at h (ModifiersOSD._monitorIndex osd))
                   title status osd) :: rest,
           [])
      | Normal osd' =>
          let '(r, rest', out) := show_each h title status rest in
          (r, Some osd' :: rest',
           OsdShown (ModifiersOSD.osd_id osd) title status :: out)
      end
  end.

Definition show (h : Host) (title status : string) (this : t)
  : completion unit * t * list Effect :=
  let '(r, ws, out) := show_each h title status (_osdWindows this) in
  (r, {| _osdWindows := ws |}, NotificationRequested title status :: out).

End ModifiersOSDManager.

(** ** class SettingsManager (extension.js) *)

Module SettingsManager.

Record t := mk {
  _settings : option GioSettings;
  (** [symbols.modifiers]: an array of pairs [mask, symbol] *)
  symbols_modifiers : list (Z * string);
}.

Definition new : t := {| _settings := None; symbols_modifiers := [] |}.

Definition loadSettings (h : Host) (this : t) : t :=
  match _settings this with
  | None => this
  | Some s =>
      {| _settings := _settings this;
         symbols_modifiers :=
           [ (MODIFIER_MASKS.SHIFT, get_string h s "shift-symbol");
             (MODIFIER_MASKS.LOCK, get_string h s "caps-symbol");
             (MODIFIER_MASKS.CONTROL, get_string h s "control-symbol");
             (MODIFIER_MASKS.MOD1, get_string h s "alt-symbol");
             (MODIFIER_MASKS.MOD2, get_string h s "num-symbol");
             (MODIFIER_MASKS.MOD3, get_string h s "scroll-symbol");
             (MODIFIER_MASKS.MOD4, get_string h s "super-symbol");
             (MODIFIER_MASKS.MOD5, get_string h s "altgr-symbol") ] |}
  end.

(** [initialize()]: fetch the settings object, load, connect ['changed']. *)
Definition initialize (h : Host) (this : t) : t :=
  loadSettings h {| _settings := Some ExtensionSettings;
                    symbols_modifiers := symbols_modifiers this |}.

Definition destroy (this : t) : t :=
  {| _settings := None; symbols_modifiers := symbols_modifiers this |}.

End SettingsManager.

(** ** class PanelIndicator *)

Module PanelIndicator.

Record t := mk {
  (** text of [_label]; [None] while [_label] is [null] *)
  _label : option string;
}.

Definition new : t := {| _label := None |}.

Definition initialize (_ : t) : t := {| _label := Some "" |}.

Definition updateText (text : string) (this : t) : t * list Effect :=
  match _label this with
  | Some _ => ({| _label := Some text |}, [PanelTextSet text])
  | None => (this, [])
  end.

End PanelIndicator.

(** ** class InputDeviceManager *)

Module InputDeviceManager.

(** [typeof modifiers !== 'undefined' ? modifiers : 0] *)
Definition getCurrentModifierState (h : Host) : Z :=
  match pointer_modifiers h with
  | Some modifiers => modifiers
  | None => 0
  end.

End InputDeviceManager.

(** ** The extension object and the host it runs in *)

Record Extension := mkExtension {
  _stateTracker : ModifierStateTracker.t;
  _settingsManager : SettingsManager.t;
  _osdManager : ModifiersOSDManager.t;
  _panelIndicator : PanelIndicator.t;
}.

(** [next_object] numbers the [ModifiersOSD] objects created so far. *)
Record World := mkWorld {
  host : Host;
  next_object : nat;
  this : Extension;
}.

Definition set_host (h : Host) (w : World) : World :=
  {| host := h; next_object := next_object w; this := this w |}.

Definition set_next_object (n : nat) (w : World) : World :=
  {| host := host w; next_object := n; this := this w |}.

Definition set_this (e : Extension) (w : World) : World :=
  {| host := host w; next_object := next_object w; this := e |}.

Definition set_stateTracker (t : ModifierStateTracker.t) (w : World) : World :=
  set_this {| _stateTracker := t;
              _settingsManager := _settingsManager (this w);
              _osdManager := _osdManager (this w);
              _panelIndicator := _panelIndicator (this w) |} w.

Definition set_settingsManager (s : SettingsManager.t) (w : World) : World :=
  set_this {| _stateTracker := _stateTracker (this w);
              _settingsManager := s;
              _osdManager := _osdManager (this w);
              _panelIndicator := _panelIndicator (this w) |} w.

Definition set_osdManager (m : ModifiersOSDManager.t) (w : World) : World :=
  set_this {| _stateTracker := _stateTracker (this w);
              _settingsManager := _settingsManager (this w);
              _osdManager := m;
              _panelIndicator := _panelIndicator (this w) |} w.

Definition set_panelIndicator (p : PanelIndicator.t) (w : World) : World :=
  set_this {| _stateTracker := _stateTracker (this w);
              _settingsManager := _settingsManager (this w);
              _osdManager := _osdManager (this w);
              _panelIndicator := p |} w.

(** ** A state, exception and output monad for the extension's methods *)

Definition M (A : Type) : Type := World -> completion A * World * list Effect.

#[export] Instance M_ret : MRet M := fun A (a : A) w => (Normal a, w, []).

#[export] Instance M_bind : MBind M := fun A B (k : A -> M B) (m : M A) w =>
  match m w with
  | (Normal a, w1, out1) =>
      match k a w1 with
      | (r, w2, out2) => (r, w2, out1 ++ out2)
      end
  | (Throw e, w1, out1) => (Throw e, w1, out1)
  end.

(** [try { body } catch (error) { handler(error) }] *)
Definition try_catch {A} (body : M A) (handler : Exn -> M A) : M A :=
  fun w =>
    match body w with
    | (Normal a, w1, out1) => (Normal a, w1, out1)
    | (Throw e, w1, out1) =>
        match handler e w1 with
        | (r, w2, out2) => (r, w2, out1 ++ out2)
        end
    end.

Definition gets {A} (f : World -> A) : M A := fun w => (Normal (f w), w, []).
Definition modify (f : World -> World) : M unit := fun w => (Normal tt, f w, []).
Definition emit (e : Effect) : M unit := fun w => (Normal tt, w, [e]).

Definition world_of {A} (r : completion A * World * list Effect) : World := snd (fst r).
Definition output_of {A} (r : completion A * World * list Effect) : list Effect := snd r.
Definition result_of {A} (r : completion A * World * list Effect) : completion A := fst (fst r).

(** ** class KeyboardModifiersStatusExtension *)

Module KeyboardModifiersStatusExtension.

(** [_showNotification(title, message)]: the call on the OSD manager
    inside [try], the [console.error] in [catch]. *)
Definition _showNotification (title message : string) : M unit :=
  try_catch
    (fun w =>
       let '(r, m, out) :=
         ModifiersOSDManager.show (host w) title message (_osdManager (this w)) in
       (r, set_osdManager m w, out))
    (fun error => emit (ConsoleError error)).

(** One of the three blocks of [_handleModifierNotifications]. *)
Definition notify_change (mask : Z) (name : string) : M unit :=
  change ← gets (fun w => ModifierStateTracker.getModifierChangeInfo mask
                            (_stateTracker (this w)));
  match change with
  | Some info =>
      let message := if ModifierStateTracker.isActive info then "On" else "Off" in
      _showNotification message name
  | None => mret tt
  end.

(** The statements of [_handleModifierNotifications] after its guard. *)
Definition notify_lock_changes : M unit :=
  notify_change MODIFIER_MASKS.LOCK "Caps";;
  notify_change MODIFIER_MASKS.MOD2 "Num";;
  notify_change MODIFIER_MASKS.MOD3 "Scroll".

Definition _handleModifierNotifications : M unit :=
  previousState ← gets (fun w => ModifierStateTracker.previousState
                                   (_stateTracker (this w)));
  match previousState with
  | None => mret tt (* Skip notifications on first run *)
  | Some _ => notify_lock_changes
  end.

(** The loop of [_updatePanelIndicator]: push the symbol of every active
    modifier. *)
Definition collect_active (tracker : ModifierStateTracker.t)
    (modifiers : list (Z * string)) : list string :=
  fold_left
    (fun activeModifiers '(mask, symbol) =>
       if ModifierStateTracker.isModifierActive mask tracker
       then activeModifiers ++ [symbol]
       else activeModifiers)
    modifiers [].

Definition _updatePanelIndicator : M unit :=
  fun w =>
    let modifiers := SettingsManager.symbols_modifiers (_settingsManager (this w)) in
    let activeModifiers := collect_active (_stateTracker (this w)) modifiers in
    let indicatorText := JS.join " " activeModifiers in
    let '(p, out) := PanelIndicator.updateText indicatorText (_panelIndicator (this w)) in
    (Normal tt, set_panelIndicator p w, out).

Definition _onUpdate : M GLibSource :=
  currentState ← gets (fun w => InputDeviceManager.getCurrentModifierState (host w));
  modify (fun w => set_stateTracker
                     (ModifierStateTracker.updateState currentState
                        (_stateTracker (this w))) w);;
  changed ← gets (fun w => ModifierStateTracker.hasStateChanged (_stateTracker (this w)));
  if negb changed then mret SOURCE_CONTINUE
  else
    _handleModifierNotifications;;
    _updatePanelIndicator;;
    mret SOURCE_CONTINUE.

(** [_onUpdate] with the guard of [_handleModifierNotifications] removed. *)
Definition _onUpdate_without_guard : M GLibSource :=
  currentState ← gets (fun w => InputDeviceManager.getCurrentModifierState (host w));
  modify (fun w => set_stateTracker
                     (ModifierStateTracker.updateState currentState
                        (_stateTracker (this w))) w);;
  changed ← gets (fun w => ModifierStateTracker.hasStateChanged (_stateTracker (this w)));
  if negb changed then mret SOURCE_CONTINUE
  else
    notify_lock_changes;;
    _updatePanelIndicator;;
    mret SOURCE_CONTINUE.

(** The ['changed'] callback connected by [SettingsManager.initialize],
    with the [onSettingsChanged] closure that [enable] installs:
    [this._stateTracker.previousState = null; // Force refresh]. *)
Definition on_settings_changed : M unit :=
  modify (fun w => set_settingsManager
                     (SettingsManager.loadSettings (host w) (_settingsManager (this w))) w);;
  modify (fun w => set_stateTracker
                     {| ModifierStateTracker.currentState :=
                          ModifierStateTracker.currentState (_stateTracker (this w));
                        ModifierStateTracker.previousState := None |} w).

(** The ['monitors-changed'] callback connected by the OSD manager. *)
Definition on_monitors_changed : M unit :=
  fun w =>
    let '(m, next, out) :=
      ModifiersOSDManager._onMonitorsChanged (host w) (next_object w)
                                             (_osdManager (this w)) in
    (Normal tt, set_next_object next (set_osdManager m w), out).

(** [enable()]: the components are constructed, the settings manager and
    the panel indicator are initialized, the timer is armed. *)
Definition enable (h : Host) : completion unit * World * list Effect :=
  let '(m, next, out) := ModifiersOSDManager.new h 0 in
  (Normal tt,
   {| host := h;
      next_object := next;
      this := {| _stateTracker := ModifierStateTracker.new;
                 _settingsManager := SettingsManager.initialize h SettingsManager.new;
                 _osdManager := m;
                 _panelIndicator := PanelIndicator.initialize PanelIndicator.new |} |},
   out).

End KeyboardModifiersStatusExtension.

(** ** What the host does to an enabled extension *)

Inductive Stimulus :=
| TimerTick (modifiers : option Z)        (* the 200 ms timeout fires *)
| SettingsChanged (store : string -> string) (* a settings value was written *)
| MonitorsChanged (count : nat)           (* the display topology changed *)
| ToolkitFaults (throws : nat -> bool) (stage : nat -> ShowStage).
                                          (* the toolkit starts or stops failing *)

(** The host updates its own state and runs the connected callback. *)
Definition fire (s : Stimulus) (w : World) : completion unit * World * list Effect :=
  match s with
  | TimerTick modifiers =>
      let h := host w in
      (KeyboardModifiersStatusExtension._onUpdate;; mret tt)
        (set_host {| monitors_length := monitors_length h;
                     pointer_modifiers := modifiers;
                     settings_store := settings_store h;
                     osd_show_throws := osd_show_throws h;
                     osd_show_throws_at := osd_show_throws_at h |} w)
  | SettingsChanged store =>
      let h := host w in
      KeyboardModifiersStatusExtension.on_settings_changed
        (set_host {| monitors_length := monitors_length h;
                     pointer_modifiers := pointer_modifiers h;
                     settings_store := store;
                     osd_show_throws := osd_show_throws h;
                     osd_show_throws_at := osd_show_throws_at h |} w)
  | MonitorsChanged count =>
      let h := host w in
      KeyboardModifiersStatusExtension.on_monitors_changed
        (set_host {| monitors_length := count;
                     pointer_modifiers := pointer_modifiers h;
                     settings_store := settings_store h;
                     osd_show_throws := osd_show_throws h;
                     osd_show_throws_at := osd_show_throws_at h |} w)
  | ToolkitFaults throws stage =>
      let h := host w in
      (Normal tt,
       set_host {| monitors_length := monitors_length h;
                   pointer_modifiers := pointer_modifiers h;
                   settings_store := settings_store h;
                   osd_show_throws := throws;
                   osd_show_throws_at := stage |} w,
       [])
  end.

(** Worlds an enabled extension can be in. *)
Inductive reachable : World -> Prop :=
| reachable_enable (h : Host) :
    reachable (world_of (KeyboardModifiersStatusExtension.enable h))
| reachable_fire (s : Stimulus) (w : World) :
    reachable w -> reachable (world_of (fire s w)).

(** ** prefs.js: the preferences window *)

Module Prefs.

Definition CONFIG_KEYS_modifiers : list string :=
  [ "shift-symbol"; "caps-symbol"; "control-symbol"; "alt-symbol";
    "num-symbol"; "scroll-symbol"; "super-symbol"; "altgr-symbol" ].

(** [getSymbolPresets().modifiers.get(_('Symbols'))] *)
Definition SYMBOL_PRESETS_Symbols : list string :=
  [ "⇧"; "Caps"; "^"; "⎇"; "Num"; "⇳"; "❖"; "⎇" ].

(** The compiled GSettings schema, which prefs.js reads through
    [get_default_value] and [settings_schema.get_key]. *)
Record Schema := mkSchema {
  default_value : string -> string;
  has_key : string -> bool;
}.

(** The state behind one preferences window: the stored settings values,
    the prefs-side [SettingsManager], the [EntryManager] (text of the
    entry of each key that has one) and the two header buttons. *)
Record Window := mkWindow {
  stored : string -> string;
  stored_saved_symbols : gmap string string;
  currentSymbols : gmap string string;
  savedSymbols : gmap string string;
  entries : gmap string string;
  resetButton_sensitive : bool;
  saveButton_sensitive : bool;
}.

(** [SimpleManager]: the keys and default values given to [createGroup]. *)
Record SimpleManager := mkSimpleManager {
  keys : list string;
  defaultValues : list string;
}.

(** [SettingsManager.getSchemaDefaults(keys)]; no caller in prefs.js. *)
Definition getSchemaDefaults (schema : Schema) (keys : list string) : list string :=
  map (default_value schema) keys.

(** [SettingsManager._getSymbolsFromSettings(keys)]:
    [Object.fromEntries(keys.map(key => [key, get_string(key)]))]. *)
Definition _getSymbolsFromSettings (get : string -> string) (keys : list string)
  : gmap string string :=
  fold_left (fun obj key => <[key := get key]> obj) keys ∅.

(** [EntryManager.getEntryText(key)]: [''] when the key has no entry. *)
Definition getEntryText (key : string) (w : Window) : string :=
  match entries w !! key with
  | Some text => text
  | None => ""
  end.

(** [keys.every((key, i) => f(key, i))] *)
Fixpoint every_from {A} (i : nat) (f : A -> nat -> bool) (l : list A) : bool :=
  match l with
  | [] => true
  | x :: rest => f x i && every_from (S i) f rest
  end.

(** [entryManager.getEntryText(key) === this.defaultValues[i]]; an index
    past the end of [defaultValues] reads [undefined]. *)
Definition isCurrentEqualToDefault (sm : SimpleManager) (w : Window) : bool :=
  every_from 0
    (fun key i => bool_decide (defaultValues sm !! i = Some (getEntryText key w)))
    (keys sm).

(** [entryManager.getEntryText(key) === this.settingsManager.currentSymbols[key]] *)
Definition isCurrentEqualToSaved (sm : SimpleManager) (w : Window) : bool :=
  every_from 0
    (fun key _ => bool_decide (currentSymbols w !! key = Some (getEntryText key w)))
    (keys sm).

Definition _updateButtonStates (sm : SimpleManager) (w : Window) : Window :=
  let isDefault := isCurrentEqualToDefault sm w in
  let isSaved := isCurrentEqualToSaved sm w in
  {| stored := stored w; stored_saved_symbols := stored_saved_symbols w;
     currentSymbols := currentSymbols w; savedSymbols := savedSymbols w;
     entries := entries w;
     resetButton_sensitive := negb isDefault;
     saveButton_sensitive := negb isSaved |}.

Definition set_entries (e : gmap string string) (w : Window) : Window :=
  {| stored := stored w; stored_saved_symbols := stored_saved_symbols w;
     currentSymbols := currentSymbols w; savedSymbols := savedSymbols w;
     entries := e;
     resetButton_sensitive := resetButton_sensitive w;
     saveButton_sensitive := saveButton_sensitive w |}.

(** [EntryManager.updateEntry(key, value)]: the ['changed'] handler is
    blocked while the text is written. *)
Definition updateEntry (key value : string) (w : Window) : Window :=
  match entries w !! key with
  | None => w
  | Some text =>
      if bool_decide (text = value) then w
      else set_entries (<[key := value]> (entries w)) w
  end.

(** [SimpleManager.applyDefaults]: [updateEntry(key, defaultValues[i])]
    for every key (both arrays have eight elements in [createGroup]'s
    only call, so no index is past the end). *)
Fixpoint applyDefaults_from (i : nat) (defaults keys : list string) (w : Window)
  : Window :=
  match keys with
  | [] => w
  | key :: rest =>
      let w' := match defaults !! i with
                | Some value => updateEntry key value w
                | None => w
                end in
      applyDefaults_from (S i) defaults rest w'
  end.

Definition applyDefaults (sm : SimpleManager) (w : Window) : Window :=
  applyDefaults_from 0 (defaultValues sm) (keys sm) w.

(** [SettingsManager.setString(key, value)] followed by
    [savedSymbols[key] = value]. *)
Definition save_key (texts : string -> string) (w : Window) (key : string) : Window :=
  let value := texts key in
  {| stored := fun k => if bool_decide (k = key) then value else stored w k;
     stored_saved_symbols := stored_saved_symbols w;
     currentSymbols := <[key := value]> (currentSymbols w);
     savedSymbols := <[key := value]> (savedSymbols w);
     entries := entries w;
     resetButton_sensitive := resetButton_sensitive w;
     saveButton_sensitive := saveButton_sensitive w |}.

(** [SimpleManager.saveCurrentAsPreset]: the entry texts are read first,
    then written key by key, then ['saved-symbols'] is stored. *)
Definition saveCurrentAsPreset (sm : SimpleManager) (w : Window) : Window :=
  let entryTexts := fun key => getEntryText key w in
  let w1 := fold_left (save_key entryTexts) (keys sm) w in
  {| stored := stored w1; stored_saved_symbols := savedSymbols w1;
     currentSymbols := currentSymbols w1; savedSymbols := savedSymbols w1;
     entries := entries w1;
     resetButton_sensitive := resetButton_sensitive w1;
     saveButton_sensitive := saveButton_sensitive w1 |}.

(** What can happen to an open window.  A click or an outside write runs
    its handler to the end; the handler of [changed::key] exists for the
    keys that got an entry row. *)
Inductive Event :=
| EntryEdited (key text : string)        (* the user changes the text of an entry *)
| ResetClicked
| SaveClicked
| ExternalChange (key newValue : string). (* [changed::key] after an outside write *)

Definition handle (sm : SimpleManager) (ev : Event) (w : Window) : Window :=
  match ev with
  | EntryEdited key text =>
      match entries w !! key with
      | None => w
      | Some old =>
          if bool_decide (old = text) then w
          else _updateButtonStates sm (set_entries (<[key := text]> (entries w)) w)
      end
  | ResetClicked => _updateButtonStates sm (applyDefaults sm w)
  | SaveClicked => _updateButtonStates sm (saveCurrentAsPreset sm w)
  | ExternalChange key newValue =>
      let w0 :=
        {| stored := fun k => if bool_decide (k = key) then newValue else stored w k;
           stored_saved_symbols := stored_saved_symbols w;
           currentSymbols := currentSymbols w; savedSymbols := savedSymbols w;
           entries := entries w;
           resetButton_sensitive := resetButton_sensitive w;
           saveButton_sensitive := saveButton_sensitive w |} in
      match entries w !! key with
      | None => w0 (* no row for the key, so no handler is connected *)
      | Some _ =>
          if bool_decide (currentSymbols w !! key = Some newValue) then w0
          else
            let w1 :=
              {| stored := stored w0; stored_saved_symbols := stored_saved_symbols w0;
                 currentSymbols := <[key := newValue]> (currentSymbols w0);
                 savedSymbols := savedSymbols w0;
                 entries := entries w0;
                 resetButton_sensitive := resetButton_sensitive w0;
                 saveButton_sensitive := saveButton_sensitive w0 |} in
            _updateButtonStates sm (updateEntry key newValue w1)
      end
  end.

(** [_createEntryRows]: an entry for every key the schema contains, with
    text [currentSymbols[key] || '']. *)
Definition create_entry (schema : Schema) (w : Window) (key : string) : Window :=
  if has_key schema key then
    set_entries (<[key := default "" (currentSymbols w !! key)]> (entries w)) w
  else w.

(** [fillPreferencesWindow]: [SettingsManager.initialize], then
    [createGroup], whose [_setupButtonLogic] (with its initial button
    update) runs before [_createEntryRows]. *)
Definition fillPreferencesWindow (schema : Schema) (get : string -> string)
    (saved : gmap string string) (sm : SimpleManager) : Window :=
  let w0 := {| stored := get; stored_saved_symbols := saved;
               currentSymbols := _getSymbolsFromSettings get CONFIG_KEYS_modifiers;
               savedSymbols := saved;
               entries := ∅;
               resetButton_sensitive := true;
               saveButton_sensitive := true |} in
  fold_left (create_entry schema) (keys sm) (_updateButtonStates sm w0).

(** The manager [_createPreferenceGroups] builds. *)
Definition modifiers_manager : SimpleManager :=
  {| keys := CONFIG_KEYS_modifiers; defaultValues := SYMBOL_PRESETS_Symbols |}.

End Prefs.

(** * Reference definitions used in the statements *)

(** The masks of [symbols.modifiers], in the order of the array literal. *)
Definition fixed_masks : list Z :=
  [ MODIFIER_MASKS.SHIFT; MODIFIER_MASKS.LOCK; MODIFIER_MASKS.CONTROL;
    MODIFIER_MASKS.MOD1; MODIFIER_MASKS.MOD2; MODIFIER_MASKS.MOD3;
    MODIFIER_MASKS.MOD4; MODIFIER_MASKS.MOD5 ].

(** The lock keys that get a notification: bit index and status text. *)
Definition lock_keys : list (Z * string) :=
  [ (1, "Caps"); (4, "Num"); (5, "Scroll") ].

(** The notifications a poll owes: for every lock key whose bit differs
    between the old and the new bitmask, title ['On'] or ['Off'] after
    the new bit, and the key's status text. *)
Definition expected_notifications (old new : Z) : list (string * string) :=
  flat_map
    (fun '(i, name) =>
       if Bool.eqb (Z.testbit old i) (Z.testbit new i) then []
       else [ (if Z.testbit new i then "On" else "Off", name) ])
    lock_keys.

(** The [title, status] pairs passed to [_osdManager.show] in an output. *)
Definition requested (out : list Effect) : list (string * string) :=
  omap (fun e => match e with
                 | NotificationRequested title status => Some (title, status)
                 | _ => None
                 end) out.

(** The [title, status] pairs shown on OSD windows in an output. *)
Definition shown (out : list Effect) : list (string * string) :=
  omap (fun e => match e with
                 | OsdShown _ title status => Some (title, status)
                 | _ => None
                 end) out.

(** The panel label assignments in an output. *)
Definition panel_writes (out : list Effect) : list string :=
  omap (fun e => match e with
                 | PanelTextSet text => Some text
                 | _ => None
                 end) out.

(** The errors logged in an output. *)
Definition logged (out : list Effect) : list Exn :=
  omap (fun e => match e with
                 | ConsoleError e => Some e
                 | _ => None
                 end) out.

(** Everything but the OSD windows is the same in both worlds. *)
Definition same_but_osd (w w' : World) : Prop :=
  host w' = host w /\ next_object w' = next_object w /\
  _stateTracker (this w') = _stateTracker (this w) /\
  _settingsManager (this w') = _settingsManager (this w) /\
  _panelIndicator (this w') = _panelIndicator (this w).

(** The world a poll continues in once the tracker has been updated. *)
Definition polled (w : World) : World :=
  set_stateTracker
    (ModifierStateTracker.updateState
       (InputDeviceManager.getCurrentModifierState (host w))
       (_stateTracker (this w))) w.

(** A host with two monitors, no modifier held, every symbol stored as
    the name of its key, and a toolkit that does not fail. *)
Definition two_monitor_host : Host :=
  {| monitors_length := 2;
     pointer_modifiers := Some 0;
     settings_store := fun key => key;
     osd_show_throws := fun _ => false;
     osd_show_throws_at := fun _ => SettingTitle |}.

(** The extension right after [enable()] on that host. *)
Definition enabled_world : World :=
  world_of (KeyboardModifiersStatusExtension.enable two_monitor_host).

(** The symbol mapping: bit index of the mask and settings key, in the
    order Shift, Lock, Control, Mod1, Mod2, Mod3, Mod4, Mod5. *)
Definition symbol_mapping : list (Z * string) :=
  [ (0, "shift-symbol"); (1, "caps-symbol"); (2, "control-symbol");
    (3, "alt-symbol"); (4, "num-symbol"); (5, "scroll-symbol");
    (6, "super-symbol"); (7, "altgr-symbol") ].

(** The stored symbols of the entries whose bit is set in [state], in
    mapping order, joined with single spaces. *)
Definition expected_indicator_text (store : string -> string) (state : Z) : string :=
  JS.join " "
    (map (fun '(_, key) => store key)
       (List.filter (fun '(i, _) => Z.testbit state i) symbol_mapping)).

(** The components are set up as [enable] leaves them: the panel label
    exists and [symbols.modifiers] holds what [loadSettings] reads from
    the host's current settings. *)
Definition set_up (w : World) : Prop :=
  is_Some (PanelIndicator._label (_panelIndicator (this w)))
  /\ _settingsManager (this w)
     = SettingsManager.initialize (host w) SettingsManager.new.

(** The host with another number of monitors. *)
Definition with_monitors (count : nat) (h : Host) : Host :=
  {| monitors_length := count;
     pointer_modifiers := pointer_modifiers h;
     settings_store := settings_store h;
     osd_show_throws := osd_show_throws h;
     osd_show_throws_at := osd_show_throws_at h |}.

(** The OSD manager after its construction on [h] and after handling a
    ['monitors-changed'] event for every count of [counts] in turn. *)
Definition after_monitor_changes (h : Host) (counts : list nat)
  : ModifiersOSDManager.t * nat * list Effect :=
  fold_left
    (fun '(m, next, out) count =>
       let '(m', next', out') :=
         ModifiersOSDManager._onMonitorsChanged (with_monitors count h) next m in
       (m', next', out ++ out'))
    counts (ModifiersOSDManager.new h 0).

(** The array has one slot per monitor and every slot holds an OSD made
    for the monitor of that index. *)
Definition one_per_monitor (count : nat) (ws : list (option ModifiersOSD.t)) : Prop :=
  length ws = count
  /\ forall i, (i < count)%nat ->
       exists osd, ws !! i = Some (Some osd) /\ ModifiersOSD._monitorIndex osd = i.

(** Every OSD in the array was made for the monitor of its slot. *)
Definition indexed (ws : list (option ModifiersOSD.t)) : Prop :=
  forall i osd, array_get ws i = Some osd -> ModifiersOSD._monitorIndex osd = i.

(** The reading of "destroyed and recreated on display topology change"
    for one ['monitors-changed'] event: every OSD the manager holds is
    destroyed and an OSD is created for every monitor. *)
Definition recreates_every_osd (h : Host) (next : nat) (m : ModifiersOSDManager.t)
  : Prop :=
  let out := snd (ModifiersOSDManager._onMonitorsChanged h next m) in
  (forall i osd, array_get (ModifiersOSDManager._osdWindows m) i = Some osd ->
                 OsdDestroyed (ModifiersOSD.osd_id osd) ∈ out)
  /\ (forall i, (i < monitors_length h)%nat -> exists id, OsdCreated id i ∈ out).

(** A host with a single monitor. *)
Definition one_monitor_host : Host := with_monitors 1 two_monitor_host.

(** Different slots hold different objects. *)
Definition distinct_ids (ws : list (option ModifiersOSD.t)) : Prop :=
  forall i j osd1 osd2,
    array_get ws i = Some osd1 -> array_get ws j = Some osd2 ->
    ModifiersOSD.osd_id osd1 = ModifiersOSD.osd_id osd2 -> i = j.

(** The OSD manager as constructed on the single-monitor host. *)
Definition one_monitor_manager : ModifiersOSDManager.t :=
  fst (fst (ModifiersOSDManager.new one_monitor_host 0)).

(** The schema file is not among the sources; [Prefs.Schema] stands for
    it.  This instance holds the default symbols the README documents
    ("Default Symbols (PC Style)") for the eight keys. *)
Definition documented_defaults : gmap string string :=
  list_to_map
    [ ("shift-symbol", "⇧"); ("caps-symbol", "Caps Lock ");
      ("control-symbol", "⌃"); ("alt-symbol", "⎇");
      ("num-symbol", "Num Lock"); ("scroll-symbol", "⇳");
      ("super-symbol", "❖"); ("altgr-symbol", "⎈") ].

Definition documented_schema : Prefs.Schema :=
  {| Prefs.default_value := fun key => default "" (documented_defaults !! key);
     Prefs.has_key := fun key => bool_decide (is_Some (documented_defaults !! key)) |}.

(** Stored symbols: the 'Symbols' preset, except ["S"] for Shift. *)
Definition preset_but_shift : gmap string string :=
  list_to_map
    [ ("shift-symbol", "S"); ("caps-symbol", "Caps");
      ("control-symbol", "^"); ("alt-symbol", "⎇");
      ("num-symbol", "Num"); ("scroll-symbol", "⇳");
      ("super-symbol", "❖"); ("altgr-symbol", "⎇") ].

(** The preferences window opened on those stored symbols. *)
Definition opened_window : Prefs.Window :=
  Prefs.fillPreferencesWindow documented_schema
    (fun key => default "" (preset_but_shift !! key)) ∅ Prefs.modifiers_manager.

(** The buttons as the three-way comparison against the schema reads:
    Reset is sensitive exactly when some key's entry text differs from
    the schema default of the key, Save exactly when some key's entry
    text differs from the stored symbol of the key. *)
Definition buttons_follow_schema (schema : Prefs.Schema) (sm : Prefs.SimpleManager)
    (w : Prefs.Window) : Prop :=
  (Prefs.resetButton_sensitive w = true <->
     exists key, key ∈ Prefs.keys sm
                 /\ Prefs.getEntryText key w <> Prefs.default_value schema key)
  /\ (Prefs.saveButton_sensitive w = true <->
        exists key, key ∈ Prefs.keys sm
                    /\ Prefs.currentSymbols w !! key <> Some (Prefs.getEntryText key w)).

(** The buttons as the code sets them: Reset is sensitive exactly when
    some key's entry text differs from the default value given to
    [createGroup] at the key's position, Save exactly when some key's
    entry text differs from the stored symbol of the key. *)
Definition buttons_follow_entries (sm : Prefs.SimpleManager) (w : Prefs.Window) : Prop :=
  (Prefs.resetButton_sensitive w = true <->
     exists i key, Prefs.keys sm !! i = Some key
                   /\ Prefs.defaultValues sm !! i <> Some (Prefs.getEntryText key w))
  /\ (Prefs.saveButton_sensitive w = true <->
        exists key, key ∈ Prefs.keys sm
                    /\ Prefs.currentSymbols w !! key <> Some (Prefs.getEntryText key w)).

(** Every OSD in the array was created before object number [next]. *)
Definition older_than (next : nat) (ws : list (option ModifiersOSD.t)) : Prop :=
  forall i osd, array_get ws i = Some osd -> (ModifiersOSD.osd_id osd < next)%nat.

(** The number of OSD objects the extension holds. *)
Definition osd_count (w : World) : nat :=
  length (omap id (ModifiersOSDManager._osdWindows (_osdManager (this w)))).

(** The toolkit does not fail. *)
Definition toolkit_healthy (h : Host) : Prop :=
  forall monitor, osd_show_throws h monitor = false.

(** * Further definitions: runs of the extension *)

(** The world after the host has fired the stimuli in turn. *)
Definition run (stimuli : list Stimulus) (w : World) : World :=
  fold_left (fun w s => world_of (fire s w)) stimuli w.

(** Whether a stimulus is a write to the settings. *)
Definition is_settings_change (s : Stimulus) : bool :=
  match s with
  | SettingsChanged _ => true
  | _ => false
  end.

(** The bitmask a timer tick polls. *)
Definition polled_bitmask (modifiers : option Z) : Z :=
  match modifiers with
  | Some m => m
  | None => 0
  end.

(** What [ModifiersOSD.show(title, status)] leaves in an OSD when the
    toolkit does not fail. *)
Definition displaying (title status : string) (osd : ModifiersOSD.t) : ModifiersOSD.t :=
  {| ModifiersOSD.osd_id := ModifiersOSD.osd_id osd;
     ModifiersOSD._monitorIndex := ModifiersOSD._monitorIndex osd;
     ModifiersOSD.titleText := title;
     ModifiersOSD.statusText := status;
     ModifiersOSD.visible := true;
     ModifiersOSD.hide_scheduled := true |}.

(** The panel label shows the current modifier state with the symbols
    currently stored. *)
Definition panel_in_sync (w : World) : Prop :=
  PanelIndicator._label (_panelIndicator (this w))
  = Some (expected_indicator_text (settings_store (host w))
            (ModifierStateTracker.currentState (_stateTracker (this w)))).

(** The OSD windows after the notifications [reqs] have been shown on all
    of them in turn: every OSD displays the last one. *)
Definition display_last (reqs : list (string * string))
    (ws : list (option ModifiersOSD.t)) : list (option ModifiersOSD.t) :=
  match last reqs with
  | Some (title, status) => map (fmap (displaying title status)) ws
  | None => ws
  end.

(** The toolkit calls of [show] succeed for every OSD of the array. *)
Definition none_throws (h : Host) (ws : list (option ModifiersOSD.t)) : Prop :=
  Forall (fun slot => match slot with
                      | Some osd => osd_show_throws h (ModifiersOSD._monitorIndex osd) = false
                      | None => True
                      end) ws.

(** The OSD windows after each of the notifications [reqs] has been
    shown on all of them, one after the other. *)
Definition display_in_turn (reqs : list (string * string))
    (ws : list (option ModifiersOSD.t)) : list (option ModifiersOSD.t) :=
  fold_left (fun ws '(title, status) => map (fmap (displaying title status)) ws)
    reqs ws.

(** The OSD is on screen with [title] over [status]. *)
Definition on_screen (title status : string) (osd : ModifiersOSD.t) : Prop :=
  ModifiersOSD.titleText osd = title
  /\ ModifiersOSD.statusText osd = status
  /\ ModifiersOSD.visible osd = true.

(** The reading of "for each toggled lock key one OSD is shown" when the
    poll returns, which is when the shell can paint again: every
    notification the poll owes is on screen in one of the OSDs the
    extension holds. *)
Definition each_toggled_lock_key_on_screen (w : World) : Prop :=
  let old := ModifierStateTracker.currentState (_stateTracker (this w)) in
  let new := InputDeviceManager.getCurrentModifierState (host w) in
  let ws' :=
    ModifiersOSDManager._osdWindows
      (_osdManager (this (world_of (KeyboardModifiersStatusExtension._onUpdate w)))) in
  forall title status,
    (title, status) ∈ expected_notifications old new ->
    exists i osd, array_get ws' i = Some osd /\ on_screen title status osd.

(** The enabled extension on two monitors when Caps Lock and Num Lock
    have both been switched on since the last poll. *)
Definition caps_and_num_toggled : World :=
  set_host {| monitors_length := 2;
              pointer_modifiers := Some 18;
              settings_store := fun key => key;
              osd_show_throws := fun _ => false;
              osd_show_throws_at := fun _ => SettingTitle |}
           enabled_world.

(** ** Teardown and the objects of a run *)

Module Teardown.

(** [ModifiersOSDManager.destroy()]: the signal is disconnected, every
    OSD of the array is destroyed, the array is replaced by an empty one. *)
Definition ModifiersOSDManager_destroy (this : ModifiersOSDManager.t)
  : ModifiersOSDManager.t * list Effect :=
  ({| ModifiersOSDManager._osdWindows := [] |},
   map (fun osd => OsdDestroyed (ModifiersOSD.osd_id osd))
     (omap id (ModifiersOSDManager._osdWindows this))).

(** [PanelIndicator.destroy()]: the indicator leaves the panel and
    [_label] becomes [null]. *)
Definition PanelIndicator_destroy (_ : PanelIndicator.t) : PanelIndicator.t :=
  {| PanelIndicator._label := None |}.

(** [disable()]: the timer is removed and the components are destroyed
    (input manager, panel indicator, OSD manager, settings manager). *)
Definition disable (w : World) : World * list Effect :=
  let '(m, out) := ModifiersOSDManager_destroy (_osdManager (this w)) in
  ({| host := host w;
      next_object := next_object w;
      this := {| _stateTracker := _stateTracker (this w);
                 _settingsManager := SettingsManager.destroy (_settingsManager (this w));
                 _osdManager := m;
                 _panelIndicator := PanelIndicator_destroy (_panelIndicator (this w)) |} |},
   out).

End Teardown.

(** The world and the collected output after the stimuli. *)
Definition run_output (stimuli : list Stimulus) (w : World) : World * list Effect :=
  fold_left
    (fun '(w, out) s => let r := fire s w in (world_of r, out ++ output_of r))
    stimuli (w, []).

(** Everything output from [enable()] on [h], over the stimuli, to the
    end of [disable()]. *)
Definition lifecycle_output (h : Host) (stimuli : list Stimulus) : list Effect :=
  let e := KeyboardModifiersStatusExtension.enable h in
  let '(w, out) := run_output stimuli (world_of e) in
  output_of e ++ out ++ snd (Teardown.disable w).

(** The objects created and the objects destroyed in an output. *)
Definition created_ids (out : list Effect) : list nat :=
  omap (fun e => match e with
                 | OsdCreated id _ => Some id
                 | _ => None
                 end) out.

Definition destroyed_ids (out : list Effect) : list nat :=
  omap (fun e => match e with
                 | OsdDestroyed id => Some id
                 | _ => None
                 end) out.

(** The objects an array of OSD windows holds. *)
Definition held_ids (ws : list (option ModifiersOSD.t)) : list nat :=
  ModifiersOSD.osd_id <$> omap id ws.

(** The object in slot [i], if any. *)
Definition slot_id (ws : list (option ModifiersOSD.t)) (i : nat) : option nat :=
  ModifiersOSD.osd_id <$> array_get ws i.

(** The array, the object counter and the output so far account for
    every object: objects in the array are distinct and older than the
    counter, every object was created once and destroyed at most once,
    and the created objects are those in the array and those destroyed. *)
Definition accounted (ws : list (option ModifiersOSD.t)) (next : nat)
    (out : list Effect) : Prop :=
  (forall i id, slot_id ws i = Some id -> (id < next)%nat)
  /\ (forall i j id, slot_id ws i = Some id -> slot_id ws j = Some id -> i = j)
  /\ (forall id, id ∈ created_ids out -> (id < next)%nat)
  /\ NoDup (created_ids out)
  /\ NoDup (destroyed_ids out)
  /\ (forall id, id ∈ created_ids out <->
                 (exists i, slot_id ws i = Some id) \/ id ∈ destroyed_ids out)
  /\ (forall id, id ∈ destroyed_ids out -> ~ exists i, slot_id ws i = Some id).

(** The objects of the OSD array and the monitors they were made for,
    slot by slot. *)
Definition id_shape (ws : list (option ModifiersOSD.t)) : list (option (nat * nat)) :=
  (fun slot : option ModifiersOSD.t =>
     (fun osd => (ModifiersOSD.osd_id osd, ModifiersOSD._monitorIndex osd)) <$> slot)
    <$> ws.

(** A method that creates and destroys no OSD and leaves every OSD object
    in its slot. *)
Definition osd_neutral {A} (m : M A) : Prop :=
  forall w,
    created_ids (output_of (m w)) = []
    /\ destroyed_ids (output_of (m w)) = []
    /\ next_object (world_of (m w)) = next_object w
    /\ id_shape (ModifiersOSDManager._osdWindows (_osdManager (this (world_of (m w)))))
       = id_shape (ModifiersOSDManager._osdWindows (_osdManager (this w))).

(** ** class ModifiersOSD in detail: labels, visibility and the hide timeout *)

Module OSDActor.

(** The host side an OSD acts on: the GLib sources it has armed, the next
    source id GLib hands out (ids are positive), the balance of
    [disable_unredirect] over [enable_unredirect] calls, and whether the
    compositor has these two functions. *)
Record Shell := mkShell {
  sources : gset nat;
  next_source : nat;
  unredirect_disabled : Z;
  has_unredirect : bool;
}.

(** The OSD: both label texts, the actor's visibility, [_hideTimeoutId]
    ([0] when none), the fade-outs started by [_hide] whose [onComplete]
    has not run yet, and whether [destroy] has run. *)
Record t := mk {
  titleText : string;
  statusText : string;
  visible : bool;
  _hideTimeoutId : nat;
  fades_out : nat;
  destroyed : bool;
}.

Definition State : Type := t * Shell.

(** [GLib.timeout_add]: a fresh source id, now armed. *)
Definition timeout_add (sh : Shell) : nat * Shell :=
  (next_source sh,
   {| sources := {[ next_source sh ]} ∪ sources sh;
      next_source := S (next_source sh);
      unredirect_disabled := unredirect_disabled sh;
      has_unredirect := has_unredirect sh |}).

(** [GLib.source_remove(id)] *)
Definition source_remove (id : nat) (sh : Shell) : Shell :=
  {| sources := sources sh ∖ {[ id ]};
     next_source := next_source sh;
     unredirect_disabled := unredirect_disabled sh;
     has_unredirect := has_unredirect sh |}.

(** [global.compositor.disable_unredirect()] / [enable_unredirect()],
    called when the compositor has the function. *)
Definition unredirect (delta : Z) (sh : Shell) : Shell :=
  if has_unredirect sh then
    {| sources := sources sh;
       next_source := next_source sh;
       unredirect_disabled := unredirect_disabled sh + delta;
       has_unredirect := has_unredirect sh |}
  else sh.

Definition with_timeout (id : nat) (osd : t) : t :=
  {| titleText := titleText osd; statusText := statusText osd;
     visible := visible osd; _hideTimeoutId := id;
     fades_out := fades_out osd; destroyed := destroyed osd |}.

(** [_reset()]: [super.hide()] and both labels cleared. *)
Definition _reset (osd : t) : t :=
  {| titleText := ""; statusText := "";
     visible := false; _hideTimeoutId := _hideTimeoutId osd;
     fades_out := fades_out osd; destroyed := destroyed osd |}.

(** [_init(monitorIndex)]: no timeout, the UI built, then [_reset()]. *)
Definition _init : t :=
  _reset {| titleText := ""; statusText := ""; visible := true;
            _hideTimeoutId := 0; fades_out := 0; destroyed := false |}.

Definition _clearHideTimeout (st : State) : State :=
  let '(osd, sh) := st in
  if decide (_hideTimeoutId osd = 0%nat) then st
  else (with_timeout 0 osd, source_remove (_hideTimeoutId osd) sh).

Definition _scheduleHide (st : State) : State :=
  let '(osd, sh) := _clearHideTimeout st in
  let '(id, sh') := timeout_add sh in
  (with_timeout id osd, sh').

(** [_showWithAnimation()]: unredirection is disabled, the actor is
    shown and fades in. *)
Definition _showWithAnimation (st : State) : State :=
  let '(osd, sh) := st in
  ({| titleText := titleText osd; statusText := statusText osd;
      visible := true; _hideTimeoutId := _hideTimeoutId osd;
      fades_out := fades_out osd; destroyed := destroyed osd |},
   unredirect 1 sh).

Definition show (title status : string) (st : State) : State :=
  let '(osd, sh) := st in
  let osd1 := {| titleText := title; statusText := status;
                 visible := visible osd; _hideTimeoutId := _hideTimeoutId osd;
                 fades_out := fades_out osd; destroyed := destroyed osd |} in
  let st2 := if visible osd1 then (osd1, sh) else _showWithAnimation (osd1, sh) in
  _scheduleHide st2.

(** [_hide()]: the timeout id is forgotten and a fade-out is started
    whose [onComplete] runs later; it returns [GLib.SOURCE_REMOVE]. *)
Definition _hide (st : State) : State :=
  let '(osd, sh) := st in
  ({| titleText := titleText osd; statusText := statusText osd;
      visible := visible osd; _hideTimeoutId := 0;
      fades_out := S (fades_out osd); destroyed := destroyed osd |}, sh).

Definition cancel (st : State) : State :=
  if decide (_hideTimeoutId (fst st) = 0%nat) then st
  else _hide (_clearHideTimeout st).

(** [destroy()]: [_clearHideTimeout()], then [super.destroy()]. *)
Definition destroy (st : State) : State :=
  let '(osd, sh) := _clearHideTimeout st in
  ({| titleText := titleText osd; statusText := statusText osd;
      visible := visible osd; _hideTimeoutId := _hideTimeoutId osd;
      fades_out := fades_out osd; destroyed := true |}, sh).

(** The [onComplete] closure of [_hide]: [_reset()], then unredirection
    is enabled again. *)
Definition fade_out_complete (st : State) : State :=
  let '(osd, sh) := st in
  match fades_out osd with
  | O => st
  | S n =>
      (_reset {| titleText := titleText osd; statusText := statusText osd;
                 visible := visible osd; _hideTimeoutId := _hideTimeoutId osd;
                 fades_out := n; destroyed := destroyed osd |},
       unredirect (-1) sh)
  end.

(** GLib fires an armed source: the callback [_hide] runs and, as it
    returns [SOURCE_REMOVE], the source is gone. *)
Definition timeout_fires (id : nat) (st : State) : State :=
  if decide (id ∈ sources (snd st)) then
    let '(osd, sh) := _hide st in (osd, source_remove id sh)
  else st.

(** What happens to an OSD between its construction and [destroy()]. *)
Inductive Call :=
| Show (title status : string)
| Cancel
| TimeoutFires (id : nat)
| FadeOutComplete.

Definition step (st : State) (c : Call) : State :=
  match c with
  | Show title status => show title status st
  | Cancel => cancel st
  | TimeoutFires id => timeout_fires id st
  | FadeOutComplete => fade_out_complete st
  end.

(** A new OSD on a shell on which it has armed nothing. *)
Definition new (unredirect_api : bool) : State :=
  (_init, {| sources := ∅; next_source := 1; unredirect_disabled := 0;
             has_unredirect := unredirect_api |}).

(** Its hide timeout, if any, is the one armed source. *)
Definition one_timeout (st : State) : Prop :=
  (0 < next_source (snd st))%nat
  /\ (_hideTimeoutId (fst st) < next_source (snd st))%nat
  /\ sources (snd st)
     = if decide (_hideTimeoutId (fst st) = 0%nat) then ∅
       else {[ _hideTimeoutId (fst st) ]}.

(** The OSD as the extension-level model sees it. *)
Definition abstract (id monitorIndex : nat) (osd : t) : ModifiersOSD.t :=
  {| ModifiersOSD.osd_id := id;
     ModifiersOSD._monitorIndex := monitorIndex;
     ModifiersOSD.titleText := titleText osd;
     ModifiersOSD.statusText := statusText osd;
     ModifiersOSD.visible := visible osd;
     ModifiersOSD.hide_scheduled := bool_decide (_hideTimeoutId osd <> 0%nat) |}.

End OSDActor.

(** ** Property reads on the dictionaries of prefs.js *)

(** [currentSymbols] and [savedSymbols] are plain objects: [{}],
    [Object.fromEntries(...)], [{ ...symbols }] and the unpacked
    ['a{ss}'] variant.  A [gmap] holds their own properties; a read of a
    key that is no own property goes on to [Object.prototype]. *)
Module JSObject.

(** The property names every plain object inherits. *)
Definition prototype_members : list string :=
  [ "constructor"; "__proto__"; "hasOwnProperty"; "isPrototypeOf";
    "propertyIsEnumerable"; "toLocaleString"; "toString"; "valueOf";
    "__defineGetter__"; "__defineSetter__"; "__lookupGetter__";
    "__lookupSetter__" ].

(** What [obj[key]] evaluates to. *)
Inductive value :=
| Str (s : string)           (* an own property *)
| Inherited (name : string)  (* the member of Object.prototype of that name *)
| Undefined.

#[global] Instance value_eq_dec : EqDecision value := ltac:(solve_decision).

(** [obj[key]] *)
Definition get (obj : gmap string string) (key : string) : value :=
  match obj !! key with
  | Some s => Str s
  | None =>
      if bool_decide (key ∈ prototype_members) then Inherited key else Undefined
  end.

(** [v ?? ''] *)
Definition or_empty (v : value) : value :=
  match v with
  | Undefined => Str ""
  | _ => v
  end.

(** [a === b]: strings by their content; an inherited member is the same
    object whichever plain object it is read from. *)
Definition strict_equal (a b : value) : bool := bool_decide (a = b).

End JSObject.

(** ** prefs.js: comparisons of the prefs-side SettingsManager *)

Module PrefsSettingsManager.

(** [symbolsEqual(obj1, obj2)]: the same number of own keys, and
    [keys1.every(key => (obj1[key] ?? '') === (obj2[key] ?? ''))]. *)
Definition symbolsEqual (obj1 obj2 : gmap string string) : bool :=
  if bool_decide (size obj1 = size obj2) then
    forallb
      (fun key =>
         JSObject.strict_equal (JSObject.or_empty (JSObject.get obj1 key))
                               (JSObject.or_empty (JSObject.get obj2 key)))
      (map_to_list obj1).*1
  else false.

(** [currentDiffersFromSaved(keys)]:
    [keys.some(key => currentSymbols[key] !== (savedSymbols[key] ?? ''))]. *)
Definition currentDiffersFromSaved (keys : list string) (w : Prefs.Window) : bool :=
  existsb
    (fun key =>
       negb (JSObject.strict_equal
               (JSObject.get (Prefs.currentSymbols w) key)
               (JSObject.or_empty (JSObject.get (Prefs.savedSymbols w) key))))
    keys.

End PrefsSettingsManager.

(** The events by which the user edits entry texts without saving. *)
Definition is_edit (ev : Prefs.Event) : bool :=
  match ev with
  | Prefs.EntryEdited _ _ | Prefs.ResetClicked => true
  | _ => false
  end.

(** The settings values and the manager's dictionaries of two window
    states are the same. *)
Definition same_settings (w w' : Prefs.Window) : Prop :=
  Prefs.stored w' = Prefs.stored w
  /\ Prefs.stored_saved_symbols w' = Prefs.stored_saved_symbols w
  /\ Prefs.currentSymbols w' = Prefs.currentSymbols w
  /\ Prefs.savedSymbols w' = Prefs.savedSymbols w.

(** * Properties *)

(** ** Bit-level facts about [&] on single-bit masks *)

Lemma ToInt32_mod (x : Z) : JS.ToInt32 x mod 2 ^ 32 = x mod 2 ^ 32.
Proof.
  unfold JS.ToInt32. cbv zeta.
  destruct (2 ^ 31 <=? x mod 2 ^ 32).
  - replace (x mod 2 ^ 32 - 2 ^ 32) with (x mod 2 ^ 32 + (-1) * 2 ^ 32) by ring.
    rewrite Z.mod_add by lia. apply Z.mod_mod. lia.
  - apply Z.mod_mod. lia.
Qed.

Lemma ToInt32_testbit (x i : Z) :
  0 <= i < 32 -> Z.testbit (JS.ToInt32 x) i = Z.testbit x i.
Proof.
  intros Hi.
  rewrite <- (Z.mod_pow2_bits_low (JS.ToInt32 x) 32 i) by lia.
  rewrite <- (Z.mod_pow2_bits_low x 32 i) by lia.
  now rewrite ToInt32_mod.
Qed.

Lemma ToInt32_small (x : Z) : 0 <= x < 2 ^ 31 -> JS.ToInt32 x = x.
Proof.
  intros Hx. unfold JS.ToInt32. cbv zeta.
  rewrite Z.mod_small by lia.
  destruct (Z.leb_spec (2 ^ 31) x); lia.
Qed.

Lemma land_pow2 (x i : Z) :
  0 <= i -> Z.land x (2 ^ i) = if Z.testbit x i then 2 ^ i else 0.
Proof.
  intros Hi. apply Z.bits_inj'. intros n Hn.
  rewrite Z.land_spec, Z.pow2_bits_eqb by lia.
  destruct (Z.eqb_spec i n) as [->|Hne].
  - destruct (Z.testbit x n) eqn:E; cbn.
    + rewrite Z.pow2_bits_eqb by lia. now rewrite Z.eqb_refl.
    + now rewrite Z.bits_0.
  - rewrite andb_false_r.
    destruct (Z.testbit x i).
    + rewrite Z.pow2_bits_eqb by lia. symmetry. now apply Z.eqb_neq.
    + now rewrite Z.bits_0.
Qed.

(** [(s & (1 << i)) !== 0] reads bit [i] of [s], for every integer [s]. *)
Lemma band_bit (s i : Z) :
  0 <= i < 31 -> JS.nonzero (JS.band s (2 ^ i)) = Z.testbit s i.
Proof.
  intros Hi. unfold JS.nonzero, JS.band.
  rewrite (ToInt32_small (2 ^ i)).
  2:{ split; [apply Z.pow_nonneg; lia | apply Z.pow_lt_mono_r; lia]. }
  rewrite land_pow2 by lia.
  rewrite ToInt32_testbit by lia.
  destruct (Z.testbit s i); [|reflexivity].
  assert (0 < 2 ^ i) by (apply Z.pow_pos_nonneg; lia).
  destruct (Z.eqb_spec (2 ^ i) 0); [lia | reflexivity].
Qed.

(** The eight masks of [MODIFIER_MASKS] are the bits 0 to 7. *)
Lemma isModifierActive_bit (i : Z) (t : ModifierStateTracker.t) :
  0 <= i < 31 ->
  ModifierStateTracker.isModifierActive (2 ^ i) t
  = Z.testbit (ModifierStateTracker.currentState t) i.
Proof. intros Hi. unfold ModifierStateTracker.isModifierActive. now apply band_bit. Qed.

Lemma eqb_false_neq (a b : bool) : negb (Bool.eqb a b) = true <-> a <> b.
Proof. destruct a, b; cbn; split; intros; congruence. Qed.

(** ** The state tracker *)

(** C2: for a single-bit mask [m = 1 << i], [getModifierChangeInfo(m)] is
    non-null exactly when [previousState] is non-null and bit [i] differs
    between [previousState] and [currentState]; its [wasActive] and
    [isActive] fields are bit [i] of [previousState] and of
    [currentState]; [hasStateChanged()] is true exactly when
    [previousState] and [currentState] differ.  This holds in every
    tracker state, in particular after [updateState]. *)
Theorem C2_change_info (i : Z) (t : ModifierStateTracker.t) :
  0 <= i < 31 ->
  (is_Some (ModifierStateTracker.getModifierChangeInfo (2 ^ i) t) <->
     exists p, ModifierStateTracker.previousState t = Some p /\
               Z.testbit p i <> Z.testbit (ModifierStateTracker.currentState t) i)
  /\ (forall info p,
        ModifierStateTracker.getModifierChangeInfo (2 ^ i) t = Some info ->
        ModifierStateTracker.previousState t = Some p ->
        ModifierStateTracker.wasActive info = Z.testbit p i /\
        ModifierStateTracker.isActive info
        = Z.testbit (ModifierStateTracker.currentState t) i)
  /\ (ModifierStateTracker.hasStateChanged t = true <->
        ModifierStateTracker.previousState t
        <> Some (ModifierStateTracker.currentState t)).
Proof.
  intros Hi. destruct t as [cur prev].
  unfold ModifierStateTracker.getModifierChangeInfo,
    ModifierStateTracker.hasStateChanged. cbn.
  destruct prev as [p|].
  - rewrite !band_bit by assumption.
    destruct (negb (Bool.eqb (Z.testbit p i) (Z.testbit cur i))) eqn:E.
    + apply eqb_false_neq in E. repeat split.
      * intros _. exists p. split; [reflexivity | assumption].
      * intros _. eexists; reflexivity.
      * inversion H. inversion H0. now subst.
      * inversion H. reflexivity.
      * intros Hc Heq. inversion Heq. subst.
        rewrite Z.eqb_refl in Hc. discriminate.
      * intros Hne. destruct (Z.eqb_spec cur p); [subst; congruence | reflexivity].
    + assert (Heq : Z.testbit p i = Z.testbit cur i).
      { destruct (Z.testbit p i), (Z.testbit cur i); cbn in E; congruence. }
      repeat split.
      * intros [x Hx]. discriminate.
      * intros (q & Hq & Hne). inversion Hq. subst. contradiction.
      * discriminate.
      * discriminate.
      * intros Hc Hp. inversion Hp. subst.
        rewrite Z.eqb_refl in Hc. discriminate.
      * intros Hne. destruct (Z.eqb_spec cur p); [subst; congruence | reflexivity].
  - repeat split.
    + intros [x Hx]. discriminate.
    + intros (q & Hq & _). discriminate.
    + discriminate.
    + discriminate.
    + discriminate.
Qed.

(** The Caps Lock bit after a poll that turned it on. *)
Lemma C2_change_info_witness :
  ModifierStateTracker.getModifierChangeInfo MODIFIER_MASKS.LOCK
    (ModifierStateTracker.updateState 2 ModifierStateTracker.new)
  = Some {| ModifierStateTracker.wasActive := false;
            ModifierStateTracker.isActive := true |}
  /\ (is_Some (ModifierStateTracker.getModifierChangeInfo (2 ^ 1)
                (ModifierStateTracker.updateState 2 ModifierStateTracker.new)) <->
      exists p, ModifierStateTracker.previousState
                  (ModifierStateTracker.updateState 2 ModifierStateTracker.new) = Some p /\
                Z.testbit p 1 <> Z.testbit 2 1).
Proof.
  split; [reflexivity |].
  exact (proj1 (C2_change_info 1
                  (ModifierStateTracker.updateState 2 ModifierStateTracker.new)
                  ltac:(lia))).
Defined.

(** ** The settings manager *)

(** Without a settings object [loadSettings] returns at its guard. *)
Lemma loadSettings_null (h : Host) (sm : SettingsManager.t) :
  SettingsManager._settings sm = None -> SettingsManager.loadSettings h sm = sm.
Proof. intros H. unfold SettingsManager.loadSettings. now rewrite H. Qed.

(** C5: after [loadSettings] has read the settings object, whatever
    strings it holds, [symbols.modifiers] has exactly eight entries,
    whose masks are SHIFT, LOCK, CONTROL, MOD1, MOD2, MOD3, MOD4, MOD5 in
    that order. *)
Theorem C5_loadSettings_keys_fixed (h : Host) (sm : SettingsManager.t) :
  is_Some (SettingsManager._settings sm) ->
  map fst (SettingsManager.symbols_modifiers (SettingsManager.loadSettings h sm))
  = fixed_masks
  /\ length (SettingsManager.symbols_modifiers (SettingsManager.loadSettings h sm))
     = 8%nat.
Proof.
  intros [s Hs]. unfold SettingsManager.loadSettings. rewrite Hs. cbn.
  split; reflexivity.
Qed.

Lemma C5_loadSettings_keys_fixed_witness :
  map fst (SettingsManager.symbols_modifiers
             (SettingsManager.loadSettings
                {| monitors_length := 1; pointer_modifiers := None;
                   settings_store := fun key => key;
                   osd_show_throws := fun _ => false;
                   osd_show_throws_at := fun _ => SettingTitle |}
                (SettingsManager.initialize
                   {| monitors_length := 1; pointer_modifiers := None;
                      settings_store := fun _ => "";
                      osd_show_throws := fun _ => false;
                      osd_show_throws_at := fun _ => SettingTitle |}
                   SettingsManager.new)))
  = [1; 2; 4; 8; 16; 32; 64; 128].
Proof.
  refine (proj1 (C5_loadSettings_keys_fixed _ _ _)).
  cbn. eexists; reflexivity.
Defined.

(** ** The periodic update *)

Lemma same_but_osd_refl (w : World) : same_but_osd w w.
Proof. repeat split. Qed.

Lemma same_but_osd_trans (w1 w2 w3 : World) :
  same_but_osd w1 w2 -> same_but_osd w2 w3 -> same_but_osd w1 w3.
Proof.
  intros (a1 & a2 & a3 & a4 & a5) (b1 & b2 & b3 & b4 & b5).
  repeat split; congruence.
Qed.

Lemma requested_app (a b : list Effect) : requested (a ++ b) = requested a ++ requested b.
Proof. apply omap_app. Qed.

Lemma shown_app (a b : list Effect) : shown (a ++ b) = shown a ++ shown b.
Proof. apply omap_app. Qed.

Lemma panel_writes_app (a b : list Effect) :
  panel_writes (a ++ b) = panel_writes a ++ panel_writes b.
Proof. apply omap_app. Qed.

Lemma logged_app (a b : list Effect) : logged (a ++ b) = logged a ++ logged b.
Proof. apply omap_app. Qed.

(** What one pass over the OSD windows can output. *)
Lemma show_each_output (h : Host) (title status : string)
    (ws : list (option ModifiersOSD.t)) :
  let out := snd (ModifiersOSDManager.show_each h title status ws) in
  requested out = [] /\ panel_writes out = [] /\ logged out = [] /\
  Forall (fun p => p = (title, status)) (shown out).
Proof.
  induction ws as [|[osd|] rest IH]; cbn.
  - repeat split; constructor.
  - unfold ModifiersOSD.show.
    destruct (osd_show_throws h (ModifiersOSD._monitorIndex osd)); cbn.
    + repeat split; constructor.
    + destruct (ModifiersOSDManager.show_each h title status rest) as [[r rest'] out].
      cbn in *. destruct IH as (H1 & H2 & H3 & H4).
      repeat split; try assumption. constructor; [reflexivity | assumption].
  - destruct (ModifiersOSDManager.show_each h title status rest) as [[r rest'] out].
    cbn in *. exact IH.
Qed.

(** [_showNotification] always completes normally: it requests exactly
    one notification, touches only the OSD windows, and logs exactly the
    exception the OSD manager threw, if any. *)
Lemma showNotification_spec (title message : string) (w : World) :
  exists w' out,
    KeyboardModifiersStatusExtension._showNotification title message w
    = (Normal tt, w', out)
    /\ same_but_osd w w'
    /\ requested out = [(title, message)]
    /\ panel_writes out = []
    /\ Forall (fun p => p = (title, message)) (shown out)
    /\ logged out
       = match fst (fst (ModifiersOSDManager.show (host w) title message
                           (_osdManager (this w)))) with
         | Normal _ => []
         | Throw e => [e]
         end.
Proof.
  unfold KeyboardModifiersStatusExtension._showNotification, try_catch,
    ModifiersOSDManager.show.
  pose proof (show_each_output (host w) title message
                (ModifiersOSDManager._osdWindows (_osdManager (this w)))) as Hout.
  destruct (ModifiersOSDManager.show_each (host w) title message
              (ModifiersOSDManager._osdWindows (_osdManager (this w))))
    as [[r ws] out].
  cbn in Hout. destruct Hout as (H1 & H2 & H3 & H4).
  destruct r as [[]|e]; cbn; (eexists _, _; split; [reflexivity |]).
  all: unfold requested, shown, panel_writes, logged in *.
  all: repeat split; cbn; rewrite ?omap_app; cbn; rewrite ?H1, ?H2, ?H3, ?app_nil_r;
    try reflexivity; try assumption.
Qed.

Lemma bind_normal {A B} (m : M A) (k : A -> M B) (w w1 w2 : World)
    (a : A) (r : completion B) (o1 o2 : list Effect) :
  m w = (Normal a, w1, o1) -> k a w1 = (r, w2, o2) ->
  (m ≫= k) w = (r, w2, o1 ++ o2).
Proof.
  intros Hm Hk. unfold mbind, M_bind. now rewrite Hm, Hk.
Qed.

Lemma bind_gets {A B} (f : World -> A) (k : A -> M B) (w : World) :
  (gets f ≫= k) w = k (f w) w.
Proof.
  unfold mbind, M_bind, gets. destruct (k (f w) w) as [[r w2] o2]. reflexivity.
Qed.

Lemma bind_modify {B} (f : World -> World) (k : unit -> M B) (w : World) :
  (modify f ≫= k) w = k tt (f w).
Proof.
  unfold mbind, M_bind, modify. destruct (k tt (f w)) as [[r w2] o2]. reflexivity.
Qed.

Lemma bind_cong_l {A B} (m1 m2 : M A) (k : A -> M B) (w : World) :
  m1 w = m2 w -> (m1 ≫= k) w = (m2 ≫= k) w.
Proof. intros H. unfold mbind, M_bind. now rewrite H. Qed.

Lemma onUpdate_unchanged (w : World) :
  InputDeviceManager.getCurrentModifierState (host w)
  = ModifierStateTracker.currentState (_stateTracker (this w)) ->
  KeyboardModifiersStatusExtension._onUpdate w = (Normal SOURCE_CONTINUE, polled w, []).
Proof.
  intros Heq.
  unfold KeyboardModifiersStatusExtension._onUpdate.
  rewrite bind_gets, bind_modify, bind_gets.
  unfold ModifierStateTracker.hasStateChanged, polled. cbn.
  rewrite Heq, Z.eqb_refl. reflexivity.
Qed.

Lemma onUpdate_changed (w : World) :
  InputDeviceManager.getCurrentModifierState (host w)
  <> ModifierStateTracker.currentState (_stateTracker (this w)) ->
  KeyboardModifiersStatusExtension._onUpdate w
  = (KeyboardModifiersStatusExtension.notify_lock_changes;;
     KeyboardModifiersStatusExtension._updatePanelIndicator;;
     mret SOURCE_CONTINUE) (polled w)
  /\ KeyboardModifiersStatusExtension._onUpdate_without_guard w
     = KeyboardModifiersStatusExtension._onUpdate w.
Proof.
  intros Hne.
  unfold KeyboardModifiersStatusExtension._onUpdate,
    KeyboardModifiersStatusExtension._onUpdate_without_guard.
  rewrite !bind_gets, !bind_modify, !bind_gets.
  unfold ModifierStateTracker.hasStateChanged. cbn.
  destruct (Z.eqb_spec (InputDeviceManager.getCurrentModifierState (host w))
              (ModifierStateTracker.currentState (_stateTracker (this w))));
    [contradiction |].
  cbn.
  unfold KeyboardModifiersStatusExtension._handleModifierNotifications.
  fold (polled w).
  assert (Hguard :
    (gets (fun w0 => ModifierStateTracker.previousState (_stateTracker (this w0)))
     ≫= (fun previousState : option Z =>
           match previousState with
           | Some _ => KeyboardModifiersStatusExtension.notify_lock_changes
           | None => mret ()
           end)) (polled w)
    = KeyboardModifiersStatusExtension.notify_lock_changes (polled w)).
  { rewrite bind_gets. reflexivity. }
  split; [| symmetry]; apply bind_cong_l; exact Hguard.
Qed.

Lemma onUpdate_without_guard_eq (w : World) :
  KeyboardModifiersStatusExtension._onUpdate_without_guard w
  = KeyboardModifiersStatusExtension._onUpdate w.
Proof.
  destruct (Z.eq_dec (InputDeviceManager.getCurrentModifierState (host w))
              (ModifierStateTracker.currentState (_stateTracker (this w))))
    as [Heq|Hne].
  - rewrite onUpdate_unchanged by assumption.
    unfold KeyboardModifiersStatusExtension._onUpdate_without_guard.
    rewrite bind_gets, bind_modify, bind_gets.
    unfold ModifierStateTracker.hasStateChanged, polled. cbn.
    rewrite Heq, Z.eqb_refl. reflexivity.
  - now apply onUpdate_changed.
Qed.

(** One block of [_handleModifierNotifications], for the mask [1 << i]. *)
Lemma notify_change_spec (i : Z) (name : string) (w : World) (p : Z) :
  0 <= i < 31 ->
  ModifierStateTracker.previousState (_stateTracker (this w)) = Some p ->
  exists w' out,
    KeyboardModifiersStatusExtension.notify_change (2 ^ i) name w = (Normal tt, w', out)
    /\ same_but_osd w w'
    /\ requested out
       = (if Bool.eqb (Z.testbit p i)
               (Z.testbit (ModifierStateTracker.currentState (_stateTracker (this w))) i)
          then []
          else [ (if Z.testbit (ModifierStateTracker.currentState
                                  (_stateTracker (this w))) i
                  then "On" else "Off", name) ])
    /\ panel_writes out = []
    /\ Forall (fun q => q ∈ requested out) (shown out).
Proof.
  intros Hi Hp.
  unfold KeyboardModifiersStatusExtension.notify_change.
  rewrite bind_gets.
  unfold ModifierStateTracker.getModifierChangeInfo. rewrite Hp. cbv zeta.
  rewrite !band_bit by assumption.
  destruct (Bool.eqb (Z.testbit p i) _) eqn:E; cbn.
  - exists w, []. repeat split. constructor.
  - destruct (showNotification_spec
                (if Z.testbit (ModifierStateTracker.currentState
                                 (_stateTracker (this w))) i then "On" else "Off")
                name w) as (w' & out & Hrun & Hsame & Hreq & Hpan & Hshown & _).
    exists w', out. rewrite Hrun, Hreq. repeat split; try assumption; try apply Hsame.
    eapply Forall_impl; [exact Hshown |]. intros q ->. apply list_elem_of_here.
Qed.

Lemma notify_lock_changes_spec (w : World) (p : Z) :
  ModifierStateTracker.previousState (_stateTracker (this w)) = Some p ->
  exists w' out,
    KeyboardModifiersStatusExtension.notify_lock_changes w = (Normal tt, w', out)
    /\ same_but_osd w w'
    /\ requested out
       = expected_notifications p
           (ModifierStateTracker.currentState (_stateTracker (this w)))
    /\ panel_writes out = []
    /\ Forall (fun q => q ∈ requested out) (shown out).
Proof.
  intros Hp.
  unfold KeyboardModifiersStatusExtension.notify_lock_changes.
  change MODIFIER_MASKS.LOCK with (2 ^ 1).
  change MODIFIER_MASKS.MOD2 with (2 ^ 4).
  change MODIFIER_MASKS.MOD3 with (2 ^ 5).
  destruct (notify_change_spec 1 "Caps" w p ltac:(lia) Hp)
    as (w1 & o1 & R1 & S1 & Q1 & P1 & F1).
  assert (Hp1 : ModifierStateTracker.previousState (_stateTracker (this w1)) = Some p).
  { destruct S1 as (_ & _ & -> & _). exact Hp. }
  destruct (notify_change_spec 4 "Num" w1 p ltac:(lia) Hp1)
    as (w2 & o2 & R2 & S2 & Q2 & P2 & F2).
  assert (Hp2 : ModifierStateTracker.previousState (_stateTracker (this w2)) = Some p).
  { destruct S2 as (_ & _ & -> & _). exact Hp1. }
  destruct (notify_change_spec 5 "Scroll" w2 p ltac:(lia) Hp2)
    as (w3 & o3 & R3 & S3 & Q3 & P3 & F3).
  exists w3, (o1 ++ o2 ++ o3). split.
  - eapply bind_normal; [exact R1 |]. cbv beta.
    eapply bind_normal; [exact R2 | exact R3].
  - assert (T1 : _stateTracker (this w1) = _stateTracker (this w)) by apply S1.
    assert (T2 : _stateTracker (this w2) = _stateTracker (this w)).
    { transitivity (_stateTracker (this w1)); [apply S2 | exact T1]. }
    rewrite T2 in Q3. rewrite T1 in Q2.
    split; [eauto using same_but_osd_trans |].
    split.
    { rewrite !requested_app, Q1, Q2, Q3. unfold expected_notifications. cbn.
      now rewrite app_nil_r. }
    split.
    { now rewrite !panel_writes_app, P1, P2, P3. }
    rewrite !shown_app, !requested_app.
    rewrite !Forall_app. repeat split.
    + eapply Forall_impl; [exact F1 |]. intros q Hq. set_solver.
    + eapply Forall_impl; [exact F2 |]. intros q Hq. set_solver.
    + eapply Forall_impl; [exact F3 |]. intros q Hq. set_solver.
Qed.

Lemma updatePanelIndicator_spec (w : World) :
  exists w' out,
    KeyboardModifiersStatusExtension._updatePanelIndicator w = (Normal tt, w', out)
    /\ requested out = [] /\ shown out = [] /\ logged out = []
    /\ _stateTracker (this w') = _stateTracker (this w)
    /\ _osdManager (this w') = _osdManager (this w)
    /\ host w' = host w.
Proof.
  unfold KeyboardModifiersStatusExtension._updatePanelIndicator,
    PanelIndicator.updateText.
  destruct (PanelIndicator._label (_panelIndicator (this w)));
    eexists _, _; (split; [reflexivity |]); repeat split.
Qed.

Lemma expected_notifications_same (s : Z) : expected_notifications s s = [].
Proof.
  unfold expected_notifications. cbn. now rewrite !Bool.eqb_reflx.
Qed.

(** The reference list is non-empty exactly when a lock bit differs. *)
Lemma expected_notifications_nonempty (old new : Z) :
  expected_notifications old new <> [] <->
  exists i name, (i, name) ∈ lock_keys /\ Z.testbit old i <> Z.testbit new i.
Proof.
  unfold expected_notifications, lock_keys. cbn [flat_map app]. split.
  - intros Hne.
    destruct (Bool.eqb (Z.testbit old 1) (Z.testbit new 1)) eqn:E1;
      [| exists 1, "Caps"; split; [set_solver | now apply eqb_false_neq; rewrite E1]].
    destruct (Bool.eqb (Z.testbit old 4) (Z.testbit new 4)) eqn:E4;
      [| exists 4, "Num"; split; [set_solver | now apply eqb_false_neq; rewrite E4]].
    destruct (Bool.eqb (Z.testbit old 5) (Z.testbit new 5)) eqn:E5;
      [| exists 5, "Scroll"; split; [set_solver | now apply eqb_false_neq; rewrite E5]].
    now cbn in Hne.
  - intros (i & name & Hin & Hbit).
    apply eqb_false_neq in Hbit. apply negb_true_iff in Hbit.
    rewrite !elem_of_cons in Hin.
    destruct Hin as [Hin|[Hin|[Hin|Hin]]]; [| | | now apply elem_of_nil in Hin];
      inversion Hin; subst; rewrite Hbit.
    + discriminate.
    + destruct (Bool.eqb (Z.testbit old 1) (Z.testbit new 1)); discriminate.
    + destruct (Bool.eqb (Z.testbit old 1) (Z.testbit new 1)),
        (Bool.eqb (Z.testbit old 4) (Z.testbit new 4)); discriminate.
Qed.

(** Every poll completes normally with [SOURCE_CONTINUE]; it requests
    the notifications owed for the lock bits and shows nothing else. *)
Lemma onUpdate_spec (w : World) :
  exists w' out,
    KeyboardModifiersStatusExtension._onUpdate w = (Normal SOURCE_CONTINUE, w', out)
    /\ requested out
       = expected_notifications
           (ModifierStateTracker.currentState (_stateTracker (this w)))
           (InputDeviceManager.getCurrentModifierState (host w))
    /\ Forall (fun q => q ∈ requested out) (shown out).
Proof.
  destruct (Z.eq_dec (InputDeviceManager.getCurrentModifierState (host w))
              (ModifierStateTracker.currentState (_stateTracker (this w))))
    as [Heq|Hne].
  - rewrite onUpdate_unchanged by assumption.
    exists (polled w), []. rewrite Heq, expected_notifications_same.
    repeat split. constructor.
  - destruct (onUpdate_changed w Hne) as [-> _].
    destruct (notify_lock_changes_spec (polled w)
                (ModifierStateTracker.currentState (_stateTracker (this w)))
                eq_refl) as (w1 & o1 & R1 & S1 & Q1 & P1 & F1).
    destruct (updatePanelIndicator_spec w1) as (w2 & o2 & R2 & Q2 & H2 & _).
    exists w2, (o1 ++ o2 ++ []). split.
    + eapply bind_normal; [exact R1 |]. cbv beta.
      eapply bind_normal; [exact R2 | reflexivity].
    + rewrite app_nil_r, requested_app, shown_app, Q2, H2, !app_nil_r.
      split; [exact Q1 | exact F1].
Qed.

(** ** Notifications on a healthy toolkit *)

Lemma shown_map_OsdShown (title status : string) (l : list ModifiersOSD.t) :
  shown (map (fun osd => OsdShown (ModifiersOSD.osd_id osd) title status) l)
  = replicate (length l) (title, status).
Proof. induction l as [|osd l IH]; cbn; [reflexivity | now rewrite <- IH]. Qed.

Lemma logged_map_OsdShown (title status : string) (l : list ModifiersOSD.t) :
  logged (map (fun osd => OsdShown (ModifiersOSD.osd_id osd) title status) l) = [].
Proof. induction l as [|osd l IH]; cbn; [reflexivity | exact IH]. Qed.

(** When no toolkit call throws, one pass shows the notification on every
    OSD the array holds and keeps them all. *)
Lemma show_each_healthy (h : Host) (title status : string)
    (ws : list (option ModifiersOSD.t)) :
  toolkit_healthy h ->
  exists ws',
    ModifiersOSDManager.show_each h title status ws
    = (Normal tt, ws',
       map (fun osd => OsdShown (ModifiersOSD.osd_id osd) title status) (omap id ws))
    /\ length (omap id ws') = length (omap id ws).
Proof.
  intros Hh. induction ws as [|[osd|] rest (rest' & IH & Hlen)]; cbn.
  - exists []. split; reflexivity.
  - unfold ModifiersOSD.show. rewrite Hh, IH.
    eexists. split; [reflexivity |]. cbn. now rewrite Hlen.
  - rewrite IH. eexists. split; [reflexivity |]. cbn. exact Hlen.
Qed.

Lemma showNotification_healthy (title message : string) (w : World) :
  toolkit_healthy (host w) ->
  exists w' out,
    KeyboardModifiersStatusExtension._showNotification title message w
    = (Normal tt, w', out)
    /\ osd_count w' = osd_count w
    /\ shown out = replicate (osd_count w) (title, message)
    /\ logged out = [].
Proof.
  intros Hh.
  destruct (show_each_healthy (host w) title message
              (ModifiersOSDManager._osdWindows (_osdManager (this w))) Hh)
    as (ws' & Hrun & Hlen).
  unfold KeyboardModifiersStatusExtension._showNotification, try_catch,
    ModifiersOSDManager.show.
  rewrite Hrun. eexists _, _. split; [reflexivity |].
  split; [exact Hlen |]. split.
  - change (shown (map (fun osd => OsdShown (ModifiersOSD.osd_id osd) title message)
                     (omap id (ModifiersOSDManager._osdWindows (_osdManager (this w)))))
            = replicate (osd_count w) (title, message)).
    apply shown_map_OsdShown.
  - change (logged (map (fun osd => OsdShown (ModifiersOSD.osd_id osd) title message)
                      (omap id (ModifiersOSDManager._osdWindows (_osdManager (this w)))))
            = []).
    apply logged_map_OsdShown.
Qed.

Lemma notify_change_healthy (mask : Z) (name : string) (w : World) :
  toolkit_healthy (host w) ->
  exists w' out,
    KeyboardModifiersStatusExtension.notify_change mask name w = (Normal tt, w', out)
    /\ osd_count w' = osd_count w
    /\ shown out = flat_map (replicate (osd_count w)) (requested out)
    /\ logged out = [].
Proof.
  intros Hh. unfold KeyboardModifiersStatusExtension.notify_change.
  rewrite bind_gets.
  destruct (ModifierStateTracker.getModifierChangeInfo mask (_stateTracker (this w)))
    as [info|].
  - set (title := if ModifierStateTracker.isActive info then "On" else "Off").
    destruct (showNotification_healthy title name w Hh)
      as (w' & out & Hrun & Hcount & Hshown & Hlog).
    destruct (showNotification_spec title name w)
      as (w'' & out' & Hrun' & _ & Hreq & _).
    rewrite Hrun in Hrun'. inversion Hrun'; subst w'' out'.
    exists w', out. rewrite Hreq. cbn [flat_map]. rewrite app_nil_r.
    repeat split; assumption.
  - exists w, []. repeat split.
Qed.

Lemma notify_lock_changes_healthy (w : World) :
  toolkit_healthy (host w) ->
  ModifierStateTracker.previousState (_stateTracker (this w)) <> None ->
  let r := KeyboardModifiersStatusExtension.notify_lock_changes w in
  shown (output_of r) = flat_map (replicate (osd_count w)) (requested (output_of r))
  /\ logged (output_of r) = [].
Proof.
  intros Hh Hprev. cbv zeta.
  destruct (ModifierStateTracker.previousState (_stateTracker (this w))) as [p|] eqn:Hp;
    [| contradiction].
  unfold KeyboardModifiersStatusExtension.notify_lock_changes.
  destruct (notify_change_healthy MODIFIER_MASKS.LOCK "Caps" w Hh)
    as (w1 & o1 & R1 & C1 & S1 & L1).
  destruct (notify_change_spec 1 "Caps" w p ltac:(lia) Hp)
    as (w1' & o1' & R1' & F1 & _).
  change (2 ^ 1) with MODIFIER_MASKS.LOCK in R1'.
  rewrite R1 in R1'. inversion R1'; subst w1' o1'.
  assert (Hh1 : toolkit_healthy (host w1)).
  { destruct F1 as (-> & _). exact Hh. }
  assert (Hp1 : ModifierStateTracker.previousState (_stateTracker (this w1)) = Some p).
  { destruct F1 as (_ & _ & -> & _). exact Hp. }
  destruct (notify_change_healthy MODIFIER_MASKS.MOD2 "Num" w1 Hh1)
    as (w2 & o2 & R2 & C2 & S2 & L2).
  destruct (notify_change_spec 4 "Num" w1 p ltac:(lia) Hp1)
    as (w2' & o2' & R2' & F2 & _).
  change (2 ^ 4) with MODIFIER_MASKS.MOD2 in R2'.
  rewrite R2 in R2'. inversion R2'; subst w2' o2'.
  assert (Hh2 : toolkit_healthy (host w2)).
  { destruct F2 as (-> & _). exact Hh1. }
  destruct (notify_change_healthy MODIFIER_MASKS.MOD3 "Scroll" w2 Hh2)
    as (w3 & o3 & R3 & C3 & S3 & L3).
  assert (Hrun :
    (KeyboardModifiersStatusExtension.notify_change MODIFIER_MASKS.LOCK "Caps";;
     KeyboardModifiersStatusExtension.notify_change MODIFIER_MASKS.MOD2 "Num";;
     KeyboardModifiersStatusExtension.notify_change MODIFIER_MASKS.MOD3 "Scroll") w
    = (Normal tt, w3, o1 ++ o2 ++ o3)).
  { eapply bind_normal; [exact R1 |]. cbv beta.
    eapply bind_normal; [exact R2 | exact R3]. }
  rewrite Hrun. unfold output_of. cbn [snd].
  rewrite !shown_app, !requested_app, !logged_app, !flat_map_app.
  rewrite S1, S2, S3, L1, L2, L3, C2, C1. split; reflexivity.
Qed.

(** On a healthy toolkit a poll shows every notification it requests on
    every OSD the extension holds, and logs no error. *)
Lemma onUpdate_healthy (w : World) :
  toolkit_healthy (host w) ->
  let r := KeyboardModifiersStatusExtension._onUpdate w in
  shown (output_of r) = flat_map (replicate (osd_count w)) (requested (output_of r))
  /\ logged (output_of r) = [].
Proof.
  intros Hh. cbv zeta.
  destruct (Z.eq_dec (InputDeviceManager.getCurrentModifierState (host w))
              (ModifierStateTracker.currentState (_stateTracker (this w))))
    as [Heq|Hne].
  - rewrite onUpdate_unchanged by assumption. split; reflexivity.
  - destruct (onUpdate_changed w Hne) as [-> _].
    destruct (notify_lock_changes_healthy (polled w) Hh ltac:(discriminate))
      as [Hs Hl].
    destruct (notify_lock_changes_spec (polled w)
                (ModifierStateTracker.currentState (_stateTracker (this w)))
                eq_refl) as (w1 & o1 & R1 & _).
    rewrite R1 in Hs, Hl. unfold output_of in Hs, Hl. cbn [snd] in Hs, Hl.
    destruct (updatePanelIndicator_spec w1) as (w2 & o2 & R2 & Q2 & H2 & G2 & _).
    assert (Hrun :
      (KeyboardModifiersStatusExtension.notify_lock_changes;;
       KeyboardModifiersStatusExtension._updatePanelIndicator;;
       mret SOURCE_CONTINUE) (polled w)
      = (Normal SOURCE_CONTINUE, w2, o1 ++ o2 ++ [])).
    { eapply bind_normal; [exact R1 |]. cbv beta.
      eapply bind_normal; [exact R2 | reflexivity]. }
    rewrite Hrun. unfold output_of. cbn [snd].
    rewrite app_nil_r, shown_app, requested_app, logged_app, flat_map_app.
    rewrite Hs, Hl, Q2, H2, G2. cbn [flat_map]. rewrite !app_nil_r.
    split; reflexivity.
Qed.

(** ** What the OSD windows display after a poll *)

Lemma show_each_none_throws (h : Host) (title status : string)
    (ws : list (option ModifiersOSD.t)) :
  none_throws h ws ->
  ModifiersOSDManager.show_each h title status ws
  = (Normal tt, map (fmap (displaying title status)) ws,
     map (fun osd => OsdShown (ModifiersOSD.osd_id osd) title status) (omap id ws)).
Proof.
  induction 1 as [|[osd|] rest Hhead Hrest IH]; cbn.
  - reflexivity.
  - unfold ModifiersOSD.show. rewrite Hhead, IH. reflexivity.
  - rewrite IH. reflexivity.
Qed.

Lemma healthy_none_throws (h : Host) (ws : list (option ModifiersOSD.t)) :
  toolkit_healthy h -> none_throws h ws.
Proof.
  intros Hh. apply Forall_forall. intros [osd|] _; [apply Hh | exact I].
Qed.

Lemma displaying_twice (t1 s1 t2 s2 : string) (ws : list (option ModifiersOSD.t)) :
  map (fmap (displaying t2 s2)) (map (fmap (displaying t1 s1)) ws)
  = map (fmap (displaying t2 s2)) ws.
Proof.
  rewrite map_map. apply map_ext. intros [osd|]; reflexivity.
Qed.

Lemma display_last_app (a b : list (string * string))
    (ws : list (option ModifiersOSD.t)) :
  display_last (a ++ b) ws = display_last b (display_last a ws).
Proof.
  unfold display_last.
  destruct b as [|q b] using rev_ind.
  - rewrite app_nil_r. cbn. reflexivity.
  - rewrite app_assoc, !last_snoc. destruct q as [t2 s2].
    destruct (last a) as [[t1 s1]|]; [| reflexivity].
    now rewrite displaying_twice.
Qed.

Lemma showNotification_windows (title message : string) (w : World) :
  toolkit_healthy (host w) ->
  ModifiersOSDManager._osdWindows
    (_osdManager (this (world_of
       (KeyboardModifiersStatusExtension._showNotification title message w))))
  = map (fmap (displaying title message))
      (ModifiersOSDManager._osdWindows (_osdManager (this w))).
Proof.
  intros Hh.
  unfold KeyboardModifiersStatusExtension._showNotification, try_catch,
    ModifiersOSDManager.show.
  rewrite (show_each_none_throws _ _ _ _ (healthy_none_throws _ _ Hh)).
  reflexivity.
Qed.

Lemma notify_change_windows (mask : Z) (name : string) (w : World) :
  toolkit_healthy (host w) ->
  let r := KeyboardModifiersStatusExtension.notify_change mask name w in
  ModifiersOSDManager._osdWindows (_osdManager (this (world_of r)))
  = display_last (requested (output_of r))
      (ModifiersOSDManager._osdWindows (_osdManager (this w))).
Proof.
  intros Hh. cbv zeta.
  unfold KeyboardModifiersStatusExtension.notify_change. rewrite bind_gets.
  destruct (ModifierStateTracker.getModifierChangeInfo mask (_stateTracker (this w)))
    as [info|]; [| reflexivity].
  set (title := if ModifierStateTracker.isActive info then "On" else "Off").
  rewrite (showNotification_windows title name w Hh).
  destruct (showNotification_spec title name w) as (w' & out & Hrun & _ & Hreq & _).
  rewrite Hrun. unfold output_of. cbn [snd]. rewrite Hreq. reflexivity.
Qed.

Lemma notify_lock_changes_windows (w : World) (p : Z) :
  toolkit_healthy (host w) ->
  ModifierStateTracker.previousState (_stateTracker (this w)) = Some p ->
  let r := KeyboardModifiersStatusExtension.notify_lock_changes w in
  ModifiersOSDManager._osdWindows (_osdManager (this (world_of r)))
  = display_last (requested (output_of r))
      (ModifiersOSDManager._osdWindows (_osdManager (this w))).
Proof.
  intros Hh Hp. cbv zeta.
  unfold KeyboardModifiersStatusExtension.notify_lock_changes.
  pose proof (notify_change_windows MODIFIER_MASKS.LOCK "Caps" w Hh) as W1.
  destruct (notify_change_spec 1 "Caps" w p ltac:(lia) Hp)
    as (w1 & o1 & R1 & F1 & _).
  change (2 ^ 1) with MODIFIER_MASKS.LOCK in R1.
  cbv zeta in W1. rewrite R1 in W1. unfold world_of, output_of in W1.
  cbn [fst snd] in W1.
  assert (Hh1 : toolkit_healthy (host w1)).
  { destruct F1 as (-> & _). exact Hh. }
  assert (Hp1 : ModifierStateTracker.previousState (_stateTracker (this w1)) = Some p).
  { destruct F1 as (_ & _ & -> & _). exact Hp. }
  pose proof (notify_change_windows MODIFIER_MASKS.MOD2 "Num" w1 Hh1) as W2.
  destruct (notify_change_spec 4 "Num" w1 p ltac:(lia) Hp1)
    as (w2 & o2 & R2 & F2 & _).
  change (2 ^ 4) with MODIFIER_MASKS.MOD2 in R2.
  cbv zeta in W2. rewrite R2 in W2. unfold world_of, output_of in W2.
  cbn [fst snd] in W2.
  assert (Hh2 : toolkit_healthy (host w2)).
  { destruct F2 as (-> & _). exact Hh1. }
  assert (Hp2 : ModifierStateTracker.previousState (_stateTracker (this w2)) = Some p).
  { destruct F2 as (_ & _ & -> & _). exact Hp1. }
  pose proof (notify_change_windows MODIFIER_MASKS.MOD3 "Scroll" w2 Hh2) as W3.
  destruct (notify_change_spec 5 "Scroll" w2 p ltac:(lia) Hp2)
    as (w3 & o3 & R3 & F3 & _).
  change (2 ^ 5) with MODIFIER_MASKS.MOD3 in R3.
  cbv zeta in W3. rewrite R3 in W3. unfold world_of, output_of in W3.
  cbn [fst snd] in W3.
  assert (Hrun :
    (KeyboardModifiersStatusExtension.notify_change MODIFIER_MASKS.LOCK "Caps";;
     KeyboardModifiersStatusExtension.notify_change MODIFIER_MASKS.MOD2 "Num";;
     KeyboardModifiersStatusExtension.notify_change MODIFIER_MASKS.MOD3 "Scroll") w
    = (Normal tt, w3, o1 ++ o2 ++ o3)).
  { eapply bind_normal; [exact R1 |]. cbv beta.
    eapply bind_normal; [exact R2 | exact R3]. }
  rewrite Hrun. unfold world_of, output_of. cbn [fst snd].
  rewrite !requested_app, !display_last_app, <- W1, <- W2. exact W3.
Qed.

Lemma onUpdate_windows (w : World) :
  toolkit_healthy (host w) ->
  ModifiersOSDManager._osdWindows
    (_osdManager (this (world_of (KeyboardModifiersStatusExtension._onUpdate w))))
  = display_last
      (expected_notifications
         (ModifierStateTracker.currentState (_stateTracker (this w)))
         (InputDeviceManager.getCurrentModifierState (host w)))
      (ModifiersOSDManager._osdWindows (_osdManager (this w))).
Proof.
  intros Hh.
  destruct (Z.eq_dec (InputDeviceManager.getCurrentModifierState (host w))
              (ModifierStateTracker.currentState (_stateTracker (this w))))
    as [Heq|Hne].
  - rewrite onUpdate_unchanged by assumption.
    rewrite Heq, expected_notifications_same. reflexivity.
  - destruct (onUpdate_changed w Hne) as [-> _].
    pose proof (notify_lock_changes_windows (polled w)
                  (ModifierStateTracker.currentState (_stateTracker (this w)))
                  Hh eq_refl) as W.
    destruct (notify_lock_changes_spec (polled w)
                (ModifierStateTracker.currentState (_stateTracker (this w)))
                eq_refl) as (w1 & o1 & R1 & _ & Q1 & _).
    cbv zeta in W. rewrite R1 in W. unfold world_of, output_of in W.
    cbn [fst snd] in W. rewrite Q1 in W.
    destruct (updatePanelIndicator_spec w1)
      as (w2 & o2 & R2 & _ & _ & _ & _ & M2 & _).
    assert (Hrun :
      (KeyboardModifiersStatusExtension.notify_lock_changes;;
       KeyboardModifiersStatusExtension._updatePanelIndicator;;
       mret SOURCE_CONTINUE) (polled w)
      = (Normal SOURCE_CONTINUE, w2, o1 ++ o2 ++ [])).
    { eapply bind_normal; [exact R1 |]. cbv beta.
      eapply bind_normal; [exact R2 | reflexivity]. }
    rewrite Hrun. unfold world_of. cbn [fst snd]. rewrite M2. exact W.
Qed.

Lemma display_in_turn_last (reqs : list (string * string))
    (ws : list (option ModifiersOSD.t)) :
  display_in_turn reqs ws = display_last reqs ws.
Proof.
  induction reqs as [|[title status] reqs IH] using rev_ind; [reflexivity |].
  rewrite display_last_app. unfold display_in_turn in *.
  rewrite fold_left_app, IH. reflexivity.
Qed.

Lemma display_last_on_screen (reqs : list (string * string))
    (ws : list (option ModifiersOSD.t)) (title status : string)
    (i : nat) (osd : ModifiersOSD.t) :
  last reqs = Some (title, status) ->
  array_get (display_last reqs ws) i = Some osd ->
  on_screen title status osd /\ ModifiersOSD.hide_scheduled osd = true.
Proof.
  intros Hlast. unfold display_last, array_get. rewrite Hlast, list_lookup_fmap.
  destruct (ws !! i) as [[osd0|]|]; cbn; try discriminate.
  intros [= <-]. repeat split.
Qed.

(** Caps Lock and Num Lock are both switched on between two polls on two
    monitors: when the poll returns no OSD has ['On'] over ['Caps'] on
    screen, both display ['On'] over ['Num'].  So not every toggled lock
    key has an OSD of its own on screen. *)
Lemma C1_counterexample :
  ~ each_toggled_lock_key_on_screen caps_and_num_toggled.
Proof.
  intros Hall. destruct (Hall "On" "Caps") as (i & osd & Hget & _ & Hstatus & _).
  - vm_compute. apply list_elem_of_here.
  - vm_compute in Hget.
    destruct i as [|[|i]]; [| | destruct i; discriminate];
      injection Hget as <-; discriminate.
Qed.

(** C1 (amended): in every poll, [_osdManager.show] is called exactly for
    the lock keys (Caps: LOCK_MASK, Num: MOD2_MASK, Scroll: MOD3_MASK)
    whose bit differs between the recorded bitmask and the polled one,
    in that order, each with title 'On' when the bit is set in the polled
    bitmask and 'Off' otherwise and with status 'Caps', 'Num' or
    'Scroll'; every [show] of an OSD that completes carries one of them;
    a call is made exactly when one of the three bits differs, so none
    is for a change of any other bit.  When no toolkit call throws, each
    call is carried out once on every OSD the extension holds (one per
    monitor): it sets the OSD's title and status, makes it visible and
    arms its hide timeout.  The calls follow each other within the poll,
    so when the poll returns every OSD has the last of these
    notifications on screen; an earlier one has been overwritten, and a
    poll without a toggled lock key leaves every OSD as it was. *)
Theorem C1_lock_toggle_notifications (w : World) :
  let old := ModifierStateTracker.currentState (_stateTracker (this w)) in
  let new := InputDeviceManager.getCurrentModifierState (host w) in
  let r := KeyboardModifiersStatusExtension._onUpdate w in
  let out := output_of r in
  let ws := ModifiersOSDManager._osdWindows (_osdManager (this w)) in
  let ws' := ModifiersOSDManager._osdWindows (_osdManager (this (world_of r))) in
  requested out = expected_notifications old new
  /\ Forall (fun q => q ∈ expected_notifications old new) (shown out)
  /\ (requested out <> [] <->
      exists i name, (i, name) ∈ lock_keys /\ Z.testbit old i <> Z.testbit new i)
  /\ (toolkit_healthy (host w) ->
      shown out
      = flat_map (replicate (osd_count w)) (expected_notifications old new)
      /\ ws' = display_in_turn (expected_notifications old new) ws
      /\ ws' = display_last (expected_notifications old new) ws
      /\ (expected_notifications old new = [] -> ws' = ws)
      /\ (forall title status i osd,
            last (expected_notifications old new) = Some (title, status) ->
            array_get ws' i = Some osd ->
            on_screen title status osd
            /\ ModifiersOSD.hide_scheduled osd = true)).
Proof.
  cbv zeta.
  pose proof (onUpdate_healthy w) as Hhealthy. cbv zeta in Hhealthy.
  pose proof (onUpdate_windows w) as Hwindows.
  destruct (onUpdate_spec w) as (w' & out & Hrun & Hreq & Hshown).
  rewrite Hrun in *. unfold output_of, world_of in *. cbn [fst snd] in *.
  split; [exact Hreq |]. split; [| split].
  - now rewrite <- Hreq.
  - rewrite Hreq. apply expected_notifications_nonempty.
  - intros Hh. specialize (Hwindows Hh).
    split; [rewrite <- Hreq; now apply Hhealthy |].
    split; [now rewrite display_in_turn_last |].
    split; [exact Hwindows |]. split.
    + intros Hnone. rewrite Hwindows, Hnone. reflexivity.
    + intros title status i osd Hlast Hget. rewrite Hwindows in Hget.
      exact (display_last_on_screen _ _ _ _ _ _ Hlast Hget).
Qed.

Lemma C1_lock_toggle_notifications_witness :
  toolkit_healthy (host caps_and_num_toggled)
  /\ ModifiersOSDManager._osdWindows
       (_osdManager
          (this (world_of (KeyboardModifiersStatusExtension._onUpdate
                             caps_and_num_toggled))))
     = display_last [("On", "Caps"); ("On", "Num")]
         (ModifiersOSDManager._osdWindows (_osdManager (this caps_and_num_toggled))).
Proof.
  assert (Hh : toolkit_healthy (host caps_and_num_toggled))
    by (intros monitor; reflexivity).
  split; [exact Hh |].
  exact (proj1 (proj2 (proj2
           (proj2 (proj2 (proj2 (C1_lock_toggle_notifications caps_and_num_toggled)))
              Hh)))).
Defined.

(** Caps Lock and Num Lock turn on between two polls on two monitors. *)
Lemma C1_lock_toggle_notifications_example :
  output_of (fire (TimerTick (Some 18)) enabled_world)
  = [ NotificationRequested "On" "Caps"; OsdShown 0 "On" "Caps";
      OsdShown 1 "On" "Caps";
      NotificationRequested "On" "Num"; OsdShown 0 "On" "Num";
      OsdShown 1 "On" "Num";
      PanelTextSet "caps-symbol num-symbol" ]
  /\ ModifiersOSDManager._osdWindows
       (_osdManager (this (world_of (fire (TimerTick (Some 18)) enabled_world))))
     = [ Some (displaying "On" "Num" (ModifiersOSD._init 0 0));
         Some (displaying "On" "Num" (ModifiersOSD._init 1 1)) ].
Proof. split; reflexivity. Qed.

(** C4: a poll whose bitmask equals the one recorded by the previous poll
    returns at the change check: nothing is output (no OSD request, no
    OSD shown, no panel label assignment) and the panel indicator and the
    OSD windows are left as they were. *)
Theorem C4_unchanged_poll_renders_nothing (w : World) :
  InputDeviceManager.getCurrentModifierState (host w)
  = ModifierStateTracker.currentState (_stateTracker (this w)) ->
  let r := KeyboardModifiersStatusExtension._onUpdate w in
  result_of r = Normal SOURCE_CONTINUE
  /\ output_of r = []
  /\ _panelIndicator (this (world_of r)) = _panelIndicator (this w)
  /\ _osdManager (this (world_of r)) = _osdManager (this w).
Proof.
  intros Heq. cbv zeta. rewrite onUpdate_unchanged by assumption.
  repeat split.
Qed.

(** C10: [_showNotification] never completes by a throw: an exception of
    the OSD manager's [show] is caught and logged with [console.error];
    and [_onUpdate] completes normally with [GLib.SOURCE_CONTINUE] in
    every world, whatever the toolkit does, so the timer stays armed. *)
Theorem C10_notification_failure_contained (w : World) :
  (forall title message,
     let r := KeyboardModifiersStatusExtension._showNotification title message w in
     result_of r = Normal tt
     /\ logged (output_of r)
        = match fst (fst (ModifiersOSDManager.show (host w) title message
                            (_osdManager (this w)))) with
          | Normal _ => []
          | Throw e => [e]
          end)
  /\ result_of (KeyboardModifiersStatusExtension._onUpdate w) = Normal SOURCE_CONTINUE
  /\ (forall modifiers, result_of (fire (TimerTick modifiers) w) = Normal tt).
Proof.
  split; [| split].
  - intros title message. cbv zeta.
    destruct (showNotification_spec title message w)
      as (w' & out & Hrun & _ & _ & _ & _ & Hlog).
    rewrite Hrun. split; [reflexivity | exact Hlog].
  - destruct (onUpdate_spec w) as (w' & out & Hrun & _). now rewrite Hrun.
  - intros modifiers. unfold fire.
    match goal with |- context [ (_ ≫= _) ?w0 ] =>
      destruct (onUpdate_spec w0) as (w' & out & Hrun & _) end.
    erewrite bind_normal; [| exact Hrun | reflexivity]. reflexivity.
Qed.

Lemma C4_unchanged_poll_renders_nothing_witness :
  let r := KeyboardModifiersStatusExtension._onUpdate enabled_world in
  result_of r = Normal SOURCE_CONTINUE
  /\ output_of r = []
  /\ _panelIndicator (this (world_of r)) = _panelIndicator (this enabled_world)
  /\ _osdManager (this (world_of r)) = _osdManager (this enabled_world).
Proof.
  apply (C4_unchanged_poll_renders_nothing enabled_world). reflexivity.
Defined.

(** A timer tick that polls the recorded bitmask. *)
Lemma fire_tick_unchanged (w : World) :
  let r := fire (TimerTick
                   (Some (ModifierStateTracker.currentState (_stateTracker (this w)))))
                w in
  result_of r = Normal tt /\ output_of r = []
  /\ _panelIndicator (this (world_of r)) = _panelIndicator (this w)
  /\ _osdManager (this (world_of r)) = _osdManager (this w).
Proof.
  cbv zeta. unfold fire.
  match goal with |- context [ (_ ≫= _) ?w0 ] => set (w2 := w0) end.
  assert (Hsame : InputDeviceManager.getCurrentModifierState (host w2)
                  = ModifierStateTracker.currentState (_stateTracker (this w2)))
    by reflexivity.
  rewrite (bind_normal _ _ w2 _ _ _ _ _ _ (onUpdate_unchanged w2 Hsame) eq_refl).
  repeat split.
Qed.

Lemma fire_settings_changed (w : World) (store : string -> string) :
  let w1 := world_of (fire (SettingsChanged store) w) in
  _stateTracker (this w1)
  = {| ModifierStateTracker.currentState :=
         ModifierStateTracker.currentState (_stateTracker (this w));
       ModifierStateTracker.previousState := None |}
  /\ _panelIndicator (this w1) = _panelIndicator (this w)
  /\ _osdManager (this w1) = _osdManager (this w).
Proof. repeat split. Qed.

(** C9: the settings-changed handler sets [previousState] to [null], yet
    the next poll with the same bitmask outputs nothing and leaves the
    panel indicator as it was before the settings changed: [updateState]
    has put the old [currentState] into [previousState] before the change
    check.  In every world the tracker that [_handleModifierNotifications]
    sees has a non-null [previousState], and [_onUpdate] behaves exactly
    as it would with that guard removed. *)
Theorem C9_settings_change_forces_no_redraw (w : World) (store : string -> string) :
  let w1 := world_of (fire (SettingsChanged store) w) in
  let r := fire (TimerTick
                   (Some (ModifierStateTracker.currentState (_stateTracker (this w)))))
                w1 in
  ModifierStateTracker.previousState (_stateTracker (this w1)) = None
  /\ result_of r = Normal tt
  /\ output_of r = []
  /\ _panelIndicator (this (world_of r)) = _panelIndicator (this w)
  /\ ModifierStateTracker.previousState (_stateTracker (this (polled w)))
     = Some (ModifierStateTracker.currentState (_stateTracker (this w)))
  /\ KeyboardModifiersStatusExtension._onUpdate_without_guard w
     = KeyboardModifiersStatusExtension._onUpdate w.
Proof.
  cbv zeta.
  destruct (fire_settings_changed w store) as (Ht & Hp & _).
  set (w1 := world_of (fire (SettingsChanged store) w)) in *.
  assert (Hcur : ModifierStateTracker.currentState (_stateTracker (this w))
                 = ModifierStateTracker.currentState (_stateTracker (this w1)))
    by now rewrite Ht.
  rewrite Hcur.
  destruct (fire_tick_unchanged w1) as (Hr & Ho & Hpan & _).
  rewrite Hr, Ho, Hpan, Hp, Ht.
  repeat split. apply onUpdate_without_guard_eq.
Qed.

(** The panel keeps the old symbol after a settings change when the
    polled bitmask stays the same, and picks the new one up at the next
    change of the bitmask. *)
Lemma stale_symbol_after_settings_change :
  let w1 := world_of (fire (TimerTick (Some 1)) enabled_world) in
  let w2 := world_of (fire (SettingsChanged (fun _ => "S")) w1) in
  let w3 := world_of (fire (TimerTick (Some 1)) w2) in
  let w4 := world_of (fire (TimerTick (Some 3)) w3) in
  PanelIndicator._label (_panelIndicator (this w1)) = Some "shift-symbol"
  /\ PanelIndicator._label (_panelIndicator (this w3)) = Some "shift-symbol"
  /\ PanelIndicator._label (_panelIndicator (this w4)) = Some "S S".
Proof. repeat split. Qed.

(** ** The panel indicator *)

Lemma collect_active_acc (t : ModifierStateTracker.t) (modifiers : list (Z * string))
    (acc : list string) :
  fold_left
    (fun activeModifiers '(mask, symbol) =>
       if ModifierStateTracker.isModifierActive mask t
       then activeModifiers ++ [symbol]
       else activeModifiers)
    modifiers acc
  = acc ++ map snd (List.filter
                      (fun '(mask, _) => ModifierStateTracker.isModifierActive mask t)
                      modifiers).
Proof.
  revert acc. induction modifiers as [|[mask symbol] rest IH]; intros acc; cbn.
  - now rewrite app_nil_r.
  - rewrite IH. destruct (ModifierStateTracker.isModifierActive mask t); cbn.
    + now rewrite <- app_assoc.
    + reflexivity.
Qed.

(** The push loop computes a filter followed by a projection. *)
Lemma collect_active_filter (t : ModifierStateTracker.t) (modifiers : list (Z * string)) :
  KeyboardModifiersStatusExtension.collect_active t modifiers
  = map snd (List.filter
               (fun '(mask, _) => ModifierStateTracker.isModifierActive mask t)
               modifiers).
Proof. unfold KeyboardModifiersStatusExtension.collect_active. apply collect_active_acc. Qed.

Lemma filter_map_comm {A B} (g : A -> B) (P : B -> bool) (l : list A) :
  List.filter P (map g l) = map g (List.filter (fun x => P (g x)) l).
Proof.
  induction l as [|x l IH]; cbn; [reflexivity |].
  destruct (P (g x)); cbn; now rewrite IH.
Qed.

(** What [loadSettings] stores is the symbol mapping read through the
    settings. *)
Lemma loaded_is_mapping (h : Host) :
  SettingsManager.symbols_modifiers
    (SettingsManager.initialize h SettingsManager.new)
  = map (fun '(i, key) => (2 ^ i, settings_store h key)) symbol_mapping.
Proof. reflexivity. Qed.

Lemma collect_active_loaded (h : Host) (t : ModifierStateTracker.t) :
  JS.join " "
    (KeyboardModifiersStatusExtension.collect_active t
       (SettingsManager.symbols_modifiers
          (SettingsManager.initialize h SettingsManager.new)))
  = expected_indicator_text (settings_store h) (ModifierStateTracker.currentState t).
Proof.
  rewrite collect_active_filter, loaded_is_mapping, filter_map_comm, map_map.
  unfold expected_indicator_text. f_equal.
  rewrite (List.filter_ext_in
             (fun x : Z * string =>
                let '(mask, _) := (let '(i, key) := x in (2 ^ i, settings_store h key)) in
                ModifierStateTracker.isModifierActive mask t)
             (fun '(i, _) => Z.testbit (ModifierStateTracker.currentState t) i)).
  - apply map_ext. now intros [i key].
  - intros [i key] Hin. apply isModifierActive_bit.
    unfold symbol_mapping in Hin. cbn in Hin.
    repeat (destruct Hin as [Hin|Hin]; [inversion Hin; lia |]). contradiction.
Qed.

Lemma filter_none {A} (P : A -> bool) (l : list A) :
  (forall x, In x l -> P x = false) -> List.filter P l = [].
Proof.
  induction l as [|x l IH]; cbn; intros H; [reflexivity |].
  rewrite (H x) by now left. apply IH. intros y Hy. apply H. now right.
Qed.

Lemma expected_indicator_text_idle (store : string -> string) (state : Z) :
  (forall i, 0 <= i < 8 -> Z.testbit state i = false) ->
  expected_indicator_text store state = "".
Proof.
  intros H. unfold expected_indicator_text.
  rewrite filter_none; [reflexivity |].
  intros [i key] Hin. apply H.
  unfold symbol_mapping in Hin. cbn in Hin.
  repeat (destruct Hin as [Hin|Hin]; [inversion Hin; lia |]). contradiction.
Qed.

Lemma updatePanelIndicator_frame (w : World) :
  let w' := world_of (KeyboardModifiersStatusExtension._updatePanelIndicator w) in
  host w' = host w
  /\ _settingsManager (this w') = _settingsManager (this w)
  /\ (is_Some (PanelIndicator._label (_panelIndicator (this w))) ->
      PanelIndicator._label (_panelIndicator (this w'))
      = Some (JS.join " "
                (KeyboardModifiersStatusExtension.collect_active
                   (_stateTracker (this w))
                   (SettingsManager.symbols_modifiers (_settingsManager (this w)))))).
Proof.
  cbv zeta.
  unfold KeyboardModifiersStatusExtension._updatePanelIndicator,
    PanelIndicator.updateText.
  destruct (PanelIndicator._label (_panelIndicator (this w))) as [text|];
    cbn; repeat split.
  intros [x Hx]. discriminate.
Qed.

(** A poll leaves the host and the settings manager alone and keeps the
    panel label in existence. *)
Lemma onUpdate_frame (w : World) :
  let w' := world_of (KeyboardModifiersStatusExtension._onUpdate w) in
  host w' = host w
  /\ _settingsManager (this w') = _settingsManager (this w)
  /\ (is_Some (PanelIndicator._label (_panelIndicator (this w))) ->
      is_Some (PanelIndicator._label (_panelIndicator (this w')))).
Proof.
  cbv zeta.
  destruct (Z.eq_dec (InputDeviceManager.getCurrentModifierState (host w))
              (ModifierStateTracker.currentState (_stateTracker (this w))))
    as [Heq|Hne].
  - rewrite onUpdate_unchanged by assumption. repeat split. auto.
  - destruct (onUpdate_changed w Hne) as [-> _].
    destruct (notify_lock_changes_spec (polled w)
                (ModifierStateTracker.currentState (_stateTracker (this w)))
                eq_refl) as (w1 & o1 & R1 & S1 & _).
    destruct (updatePanelIndicator_spec w1) as (w2 & o2 & R2 & _).
    pose proof (updatePanelIndicator_frame w1) as F. cbv zeta in F.
    rewrite R2 in F. unfold world_of in F. cbn [fst snd] in F.
    destruct F as (Fh & Fs & Fl).
    destruct S1 as (Sh & _ & _ & Ss & Sp).
    assert (Hrun :
      (KeyboardModifiersStatusExtension.notify_lock_changes;;
       KeyboardModifiersStatusExtension._updatePanelIndicator;;
       mret SOURCE_CONTINUE) (polled w)
      = (Normal SOURCE_CONTINUE, w2, o1 ++ o2 ++ [])).
    { eapply bind_normal; [exact R1 |]. cbv beta.
      eapply bind_normal; [exact R2 | reflexivity]. }
    rewrite Hrun. unfold world_of. cbn [fst snd].
    split; [now rewrite Fh, Sh |].
    split; [now rewrite Fs, Ss |].
    intros Hl. rewrite Fl; [eexists; reflexivity |].
    rewrite Sp. exact Hl.
Qed.

Lemma initialize_host_irrelevant (h h' : Host) :
  settings_store h' = settings_store h ->
  SettingsManager.initialize h' SettingsManager.new
  = SettingsManager.initialize h SettingsManager.new.
Proof.
  intros H. unfold SettingsManager.initialize, SettingsManager.loadSettings,
    get_string. cbn. now rewrite H.
Qed.

Lemma loadSettings_initialized (h h0 : Host) :
  SettingsManager.loadSettings h (SettingsManager.initialize h0 SettingsManager.new)
  = SettingsManager.initialize h SettingsManager.new.
Proof. reflexivity. Qed.

(** Every world an enabled extension reaches is set up. *)
Lemma reachable_set_up (w : World) : reachable w -> set_up w.
Proof.
  induction 1 as [h | s w Hreach [Hlabel Hsettings]].
  - unfold KeyboardModifiersStatusExtension.enable.
    destruct (ModifiersOSDManager.new h 0) as [[m next] out].
    split; [eexists; reflexivity | reflexivity].
  - destruct s as [modifiers | store | count | throws stage]; unfold fire.
    + match goal with |- context [ (_ ≫= _) ?w0 ] => set (w0' := w0) end.
      destruct (onUpdate_spec w0') as (w' & out & Hrun & _).
      pose proof (onUpdate_frame w0') as F. cbv zeta in F.
      rewrite Hrun in F. unfold world_of in F. cbn [fst snd] in F.
      destruct F as (Fh & Fs & Fl).
      rewrite (bind_normal _ _ _ _ _ _ _ _ _ Hrun eq_refl).
      unfold world_of, set_up. cbn [fst snd].
      split; [apply Fl; exact Hlabel |].
      rewrite Fs, Fh. subst w0'. unfold set_host. cbn [host this].
      rewrite Hsettings. symmetry. now apply initialize_host_irrelevant.
    + unfold KeyboardModifiersStatusExtension.on_settings_changed.
      rewrite !bind_modify.
      unfold modify, world_of, set_up, set_stateTracker, set_settingsManager,
        set_this, set_host.
      cbn [fst snd host this _panelIndicator _settingsManager].
      split; [exact Hlabel |].
      rewrite Hsettings. apply loadSettings_initialized.
    + unfold KeyboardModifiersStatusExtension.on_monitors_changed.
      destruct (ModifiersOSDManager._onMonitorsChanged _ _ _) as [[m next] out].
      unfold world_of, set_up, set_next_object, set_osdManager, set_this, set_host.
      cbn [fst snd host this _panelIndicator _settingsManager].
      split; [exact Hlabel |].
      rewrite Hsettings. symmetry. now apply initialize_host_irrelevant.
    + unfold world_of, set_up, set_host.
      cbn [fst snd host this _panelIndicator _settingsManager].
      split; [exact Hlabel |].
      rewrite Hsettings. symmetry. now apply initialize_host_irrelevant.
Qed.

(** The run of [_updatePanelIndicator] inside a poll that saw a change:
    the label ends as the text for the polled bitmask. *)
Lemma onUpdate_changed_label (w : World) :
  set_up w ->
  InputDeviceManager.getCurrentModifierState (host w)
  <> ModifierStateTracker.currentState (_stateTracker (this w)) ->
  PanelIndicator._label
    (_panelIndicator (this (world_of (KeyboardModifiersStatusExtension._onUpdate w))))
  = Some (expected_indicator_text (settings_store (host w))
            (InputDeviceManager.getCurrentModifierState (host w))).
Proof.
  intros [Hlabel Hsettings] Hne.
  destruct (onUpdate_changed w Hne) as [-> _].
  destruct (notify_lock_changes_spec (polled w)
              (ModifierStateTracker.currentState (_stateTracker (this w)))
              eq_refl) as (w1 & o1 & R1 & S1 & _).
  destruct (updatePanelIndicator_spec w1) as (w2 & o2 & R2 & _).
  pose proof (updatePanelIndicator_frame w1) as F. cbv zeta in F.
  rewrite R2 in F. unfold world_of in F. cbn [fst snd] in F.
  destruct F as (_ & _ & Fl).
  destruct S1 as (_ & _ & St & Ss & Sp).
  assert (Hrun :
    (KeyboardModifiersStatusExtension.notify_lock_changes;;
     KeyboardModifiersStatusExtension._updatePanelIndicator;;
     mret SOURCE_CONTINUE) (polled w)
    = (Normal SOURCE_CONTINUE, w2, o1 ++ o2 ++ [])).
  { eapply bind_normal; [exact R1 |]. cbv beta.
    eapply bind_normal; [exact R2 | reflexivity]. }
  rewrite Hrun. unfold world_of. cbn [fst snd].
  rewrite Fl by (rewrite Sp; exact Hlabel).
  rewrite St, Ss. unfold polled, set_stateTracker, set_this.
  cbn [this _stateTracker _settingsManager].
  rewrite Hsettings, collect_active_loaded. reflexivity.
Qed.

(** C3: in every world an enabled extension reaches, after
    [_updatePanelIndicator] the panel label text is the stored symbols of
    exactly those entries of the symbol mapping whose mask bit is set in
    the current modifier state, in the order Shift, Lock, Control, Mod1,
    Mod2, Mod3, Mod4, Mod5, joined with single spaces; it is the empty
    string when none of the eight bits is set.  The same holds for its
    run inside a poll: after a timer tick that polled a changed bitmask
    the label is that text for the polled bitmask. *)
Theorem C3_panel_indicator_text (w : World) :
  reachable w ->
  let w' := world_of (KeyboardModifiersStatusExtension._updatePanelIndicator w) in
  PanelIndicator._label (_panelIndicator (this w'))
  = Some (expected_indicator_text (settings_store (host w))
            (ModifierStateTracker.currentState (_stateTracker (this w))))
  /\ ((forall i, 0 <= i < 8 ->
         Z.testbit (ModifierStateTracker.currentState (_stateTracker (this w))) i
         = false) ->
      PanelIndicator._label (_panelIndicator (this w')) = Some "")
  /\ (forall modifiers : Z,
        modifiers <> ModifierStateTracker.currentState (_stateTracker (this w)) ->
        PanelIndicator._label
          (_panelIndicator (this (world_of (fire (TimerTick (Some modifiers)) w))))
        = Some (expected_indicator_text (settings_store (host w)) modifiers)).
Proof.
  intros Hreach. cbv zeta.
  destruct (reachable_set_up w Hreach) as [Hlabel Hsettings].
  destruct (updatePanelIndicator_frame w) as (_ & _ & Htext).
  rewrite (Htext Hlabel), Hsettings, collect_active_loaded.
  split; [reflexivity |]. split.
  - intros Hidle. now rewrite expected_indicator_text_idle.
  - intros modifiers Hne. unfold fire.
    match goal with |- context [ (_ ≫= _) ?w0 ] => set (w0' := w0) end.
    assert (Hset : set_up w0').
    { split; [exact Hlabel |]. subst w0'. unfold set_host. cbn [host this].
      rewrite Hsettings. symmetry. now apply initialize_host_irrelevant. }
    pose proof (onUpdate_changed_label w0' Hset Hne) as Hl.
    destruct (onUpdate_spec w0') as (w2 & out & Hrun & _).
    rewrite Hrun in Hl. unfold world_of in Hl. cbn [fst snd] in Hl.
    rewrite (bind_normal _ _ _ _ _ _ _ _ _ Hrun eq_refl).
    unfold world_of. cbn [fst snd]. exact Hl.
Qed.

Lemma C3_panel_indicator_text_witness :
  let w := world_of (fire (TimerTick (Some 5)) enabled_world) in
  PanelIndicator._label
    (_panelIndicator
       (this (world_of (KeyboardModifiersStatusExtension._updatePanelIndicator w))))
  = Some "shift-symbol control-symbol".
Proof.
  cbv zeta.
  refine (proj1 (C3_panel_indicator_text
                   (world_of (fire (TimerTick (Some 5)) enabled_world)) _)).
  apply reachable_fire. apply reachable_enable.
Defined.

(** In every reachable world the masks of [symbols.modifiers] are the
    eight fixed ones, in order. *)
Lemma reachable_symbols_fixed (w : World) :
  reachable w ->
  map fst (SettingsManager.symbols_modifiers (_settingsManager (this w)))
  = fixed_masks.
Proof.
  intros Hreach. destruct (reachable_set_up w Hreach) as [_ ->]. reflexivity.
Qed.

(** ** The OSD manager *)

Lemma array_get_Some {A} (l : list (option A)) (i : nat) (x : A) :
  array_get l i = Some x <-> l !! i = Some (Some x).
Proof.
  unfold array_get. destruct (l !! i) as [[y|]|]; split; congruence.
Qed.

Lemma array_get_ge {A} (l : list (option A)) (i : nat) :
  (length l <= i)%nat -> array_get l i = None.
Proof.
  intros H. unfold array_get. now rewrite (lookup_ge_None_2 l i H).
Qed.

Lemma array_get_lt {A} (l : list (option A)) (i : nat) (x : A) :
  array_get l i = Some x -> (i < length l)%nat.
Proof.
  intros H. apply array_get_Some in H. now apply lookup_lt_Some in H.
Qed.

(** Reading after [arr[i] = v]. *)
Lemma array_get_set {A} (l : list (option A)) (i j : nat) (v : option A) :
  array_get (JS.array_set l i v) j = if decide (j = i) then v else array_get l j.
Proof.
  unfold JS.array_set.
  destruct (decide (i < length l)%nat) as [Hlt|Hge].
  - destruct (decide (j = i)) as [->|Hne].
    + unfold array_get. rewrite list_lookup_insert_eq by assumption.
      now destruct v.
    + unfold array_get. now rewrite list_lookup_insert_ne by congruence.
  - destruct (decide (j < length l)%nat) as [Hj|Hj].
    + destruct (decide (j = i)) as [->|_]; [lia |].
      unfold array_get. now rewrite lookup_app_l by assumption.
    + rewrite (array_get_ge l j) by lia.
      unfold array_get. rewrite lookup_app_r by lia.
      destruct (decide (j = i)) as [->|Hne].
      * rewrite lookup_app_r by (rewrite length_replicate; lia).
        rewrite length_replicate, Nat.sub_diag. cbn. now destruct v.
      * destruct (decide (j < i)%nat) as [Hji|Hji].
        -- rewrite lookup_app_l by (rewrite length_replicate; lia).
           rewrite lookup_replicate_2 by lia. reflexivity.
        -- rewrite lookup_app_r by (rewrite length_replicate; lia).
           rewrite length_replicate.
           destruct (j - length l - (i - length l))%nat as [|d] eqn:E; [lia |].
           reflexivity.
Qed.

Lemma length_array_set_length {A} (l : list (option A)) (n : nat) :
  length (JS.array_set_length l n) = n.
Proof.
  unfold JS.array_set_length.
  rewrite length_app, length_take, length_replicate. lia.
Qed.

(** Reading after [arr.length = n]. *)
Lemma array_get_set_length {A} (l : list (option A)) (n j : nat) :
  array_get (JS.array_set_length l n) j
  = if decide (j < n)%nat then array_get l j else None.
Proof.
  destruct (decide (j < n)%nat) as [Hlt|Hge].
  - unfold JS.array_set_length, array_get.
    destruct (decide (j < length l)%nat) as [Hj|Hj].
    + rewrite lookup_app_l by (rewrite length_take; lia).
      now rewrite lookup_take_lt by assumption.
    + rewrite lookup_app_r by (rewrite length_take; lia).
      rewrite length_take, (lookup_ge_None_2 l j) by lia.
      rewrite lookup_replicate_2 by lia. reflexivity.
  - apply array_get_ge. rewrite length_array_set_length. lia.
Qed.

(** The first loop of [_onMonitorsChanged] after [k] rounds: filled slots
    are kept, empty slots below [k] get a new OSD, nothing else happens. *)
Lemma create_loop_spec (ws0 : list (option ModifiersOSD.t)) (next0 k : nat) :
  let '(ws, next, out) :=
    fold_left ModifiersOSDManager.create_if_missing (seq 0 k) (ws0, next0, []) in
  (forall j, (k <= j)%nat -> array_get ws j = array_get ws0 j)
  /\ (forall j osd, (j < k)%nat -> array_get ws0 j = Some osd ->
                    array_get ws j = Some osd)
  /\ (forall j, (j < k)%nat -> array_get ws0 j = None ->
                exists id, array_get ws j = Some (ModifiersOSD._init id j)
                           /\ OsdCreated id j ∈ out)
  /\ (forall e, e ∈ out ->
                exists id j, e = OsdCreated id j /\ (j < k)%nat
                             /\ array_get ws0 j = None).
Proof.
  induction k as [|k IH].
  - cbn. repeat split; try (intros; lia).
    intros e He. now apply elem_of_nil in He.
  - rewrite seq_S, fold_left_app. cbn [fold_left Nat.add].
    destruct (fold_left ModifiersOSDManager.create_if_missing (seq 0 k) (ws0, next0, []))
      as [[ws next] out].
    destruct IH as (I1 & I2 & I3 & I4).
    unfold ModifiersOSDManager.create_if_missing.
    destruct (array_get ws k) as [o|] eqn:Ek.
    + rewrite I1 in Ek by lia. repeat split.
      * intros j Hj. apply I1. lia.
      * intros j osd Hj Hosd. destruct (decide (j = k)) as [->|Hne].
        -- rewrite I1 by lia. exact Hosd.
        -- apply I2; [lia | exact Hosd].
      * intros j Hj Hnone. destruct (decide (j = k)) as [->|Hne]; [congruence |].
        apply I3; [lia | exact Hnone].
      * intros e He. destruct (I4 e He) as (id & j & -> & Hj & Hn).
        exists id, j. repeat split; [lia | exact Hn].
    + rewrite I1 in Ek by lia. repeat split.
      * intros j Hj. rewrite array_get_set.
        destruct (decide (j = k)); [lia |]. apply I1. lia.
      * intros j osd Hj Hosd. rewrite array_get_set.
        destruct (decide (j = k)) as [->|Hne]; [congruence |].
        apply I2; [lia | exact Hosd].
      * intros j Hj Hnone. rewrite array_get_set.
        destruct (decide (j = k)) as [->|Hne].
        -- exists next. split; [reflexivity |]. set_solver.
        -- destruct (I3 j ltac:(lia) Hnone) as (id & Hget & Hin).
           exists id. split; [exact Hget |]. set_solver.
      * intros e He. apply elem_of_app in He. destruct He as [He|He].
        -- destruct (I4 e He) as (id & j & -> & Hj & Hn).
           exists id, j. repeat split; [lia | exact Hn].
        -- apply list_elem_of_singleton in He. subst e.
           exists next, k. repeat split; [lia | exact Ek].
Qed.

(** The second loop after [k] rounds from index [n]: the OSDs found at
    the indices visited are destroyed and their slots set to [null]. *)
Lemma destroy_loop_spec (ws1 : list (option ModifiersOSD.t)) (next1 : nat)
    (out1 : list Effect) (n k : nat) :
  let '(ws, next, out) :=
    fold_left ModifiersOSDManager.destroy_if_present (seq n k) (ws1, next1, out1) in
  next = next1
  /\ (forall j, array_get ws j
                = if decide (n <= j < n + k)%nat then None else array_get ws1 j)
  /\ (forall e, e ∈ out <->
                e ∈ out1 \/
                exists j osd, (n <= j < n + k)%nat /\ array_get ws1 j = Some osd
                              /\ e = OsdDestroyed (ModifiersOSD.osd_id osd)).
Proof.
  induction k as [|k IH].
  - cbn. repeat split.
    + intros j. destruct (decide (n <= j < n + 0)%nat); [lia | reflexivity].
    + intros He. now left.
    + intros [He|(j & osd & Hj & _)]; [exact He | lia].
  - rewrite seq_S, fold_left_app. cbn [fold_left].
    destruct (fold_left ModifiersOSDManager.destroy_if_present (seq n k) (ws1, next1, out1))
      as [[ws next] out].
    destruct IH as (-> & J1 & J2).
    unfold ModifiersOSDManager.destroy_if_present.
    assert (Hk : array_get ws (n + k) = array_get ws1 (n + k)).
    { rewrite J1. destruct (decide (n <= n + k < n + k)%nat); [lia | reflexivity]. }
    destruct (array_get ws (n + k)) as [o|] eqn:Ek.
    + repeat split.
      * intros j. rewrite array_get_set, J1.
        destruct (decide (j = n + k)%nat) as [->|Hne].
        -- destruct (decide (n <= n + k < n + S k)%nat); [reflexivity | lia].
        -- destruct (decide (n <= j < n + k)%nat), (decide (n <= j < n + S k)%nat);
             try reflexivity; lia.
      * intros He. apply elem_of_app in He. destruct He as [He|He].
        -- apply J2 in He. destruct He as [He|(j & osd & Hj & Hosd & ->)];
             [now left | right].
           exists j, osd. repeat split; [lia | lia | exact Hosd].
        -- apply list_elem_of_singleton in He. subst e. right.
           exists (n + k)%nat, o. repeat split; [lia | lia | now symmetry].
      * intros [He|(j & osd & Hj & Hosd & ->)].
        -- apply elem_of_app. left. apply J2. now left.
        -- apply elem_of_app. destruct (decide (j = n + k)%nat) as [->|Hne].
           ++ right. rewrite <- Hk in Hosd. inversion Hosd.
              apply list_elem_of_singleton. reflexivity.
           ++ left. apply J2. right. exists j, osd.
              repeat split; [lia | lia | exact Hosd].
    + repeat split.
      * intros j. rewrite J1.
        destruct (decide (j = n + k)%nat) as [->|Hne].
        -- destruct (decide (n <= n + k < n + k)%nat); [lia |].
           destruct (decide (n <= n + k < n + S k)%nat); [now symmetry | lia].
        -- destruct (decide (n <= j < n + k)%nat), (decide (n <= j < n + S k)%nat);
             try reflexivity; lia.
      * intros He. apply J2 in He. destruct He as [He|(j & osd & Hj & Hosd & ->)];
          [now left | right].
        exists j, osd. repeat split; [lia | lia | exact Hosd].
      * intros [He|(j & osd & Hj & Hosd & ->)].
        -- apply J2. now left.
        -- apply J2. right. exists j, osd.
           destruct (decide (j = n + k)%nat) as [->|Hne]; [congruence |].
           repeat split; [lia | lia | exact Hosd].
Qed.

(** What one run of [_onMonitorsChanged] does, for any array: below the
    monitor count filled slots are kept and empty slots get a new OSD;
    at and above the count every OSD is destroyed; nothing else is
    created or destroyed; the array ends with one slot per monitor. *)
Lemma onMonitorsChanged_spec (h : Host) (next : nat) (m : ModifiersOSDManager.t) :
  let ws0 := ModifiersOSDManager._osdWindows m in
  let n := monitors_length h in
  let r := ModifiersOSDManager._onMonitorsChanged h next m in
  let ws := ModifiersOSDManager._osdWindows (fst (fst r)) in
  let out := snd r in
  length ws = n
  /\ (forall i osd, (i < n)%nat -> array_get ws0 i = Some osd ->
                    array_get ws i = Some osd)
  /\ (forall i, (i < n)%nat -> array_get ws0 i = None ->
                exists id, array_get ws i = Some (ModifiersOSD._init id i)
                           /\ OsdCreated id i ∈ out)
  /\ (forall id i, OsdCreated id i ∈ out -> (i < n)%nat /\ array_get ws0 i = None)
  /\ (forall id, OsdDestroyed id ∈ out <->
                 exists i osd, (n <= i)%nat /\ array_get ws0 i = Some osd
                               /\ ModifiersOSD.osd_id osd = id).
Proof.
  cbv zeta. unfold ModifiersOSDManager._onMonitorsChanged. cbv zeta.
  pose proof (create_loop_spec (ModifiersOSDManager._osdWindows m) next
                (monitors_length h)) as L1.
  destruct (fold_left ModifiersOSDManager.create_if_missing
              (seq 0 (monitors_length h))
              (ModifiersOSDManager._osdWindows m, next, []))
    as [[ws1 next1] out1].
  destruct L1 as (I1 & I2 & I3 & I4).
  cbn [fst snd].
  pose proof (destroy_loop_spec ws1 next1 out1 (monitors_length h)
                (length ws1 - monitors_length h)) as L2.
  destruct (fold_left ModifiersOSDManager.destroy_if_present
              (seq (monitors_length h) (length ws1 - monitors_length h))
              (ws1, next1, out1))
    as [[ws2 next2] out2].
  destruct L2 as (-> & J1 & J2).
  cbn [fst snd ModifiersOSDManager._osdWindows].
  assert (Hlow : forall i, (i < monitors_length h)%nat ->
                           array_get (JS.array_set_length ws2 (monitors_length h)) i
                           = array_get ws1 i).
  { intros i Hi. rewrite array_get_set_length, J1.
    destruct (decide (i < monitors_length h)%nat); [| lia].
    destruct (decide (monitors_length h <= i
                      < monitors_length h + (length ws1 - monitors_length h))%nat);
      [lia | reflexivity]. }
  split; [apply length_array_set_length |].
  split; [intros i osd Hi Hosd; rewrite Hlow by assumption; now apply I2 |].
  split.
  { intros i Hi Hnone. destruct (I3 i Hi Hnone) as (id & Hget & Hin).
    exists id. rewrite Hlow by assumption. split; [exact Hget |].
    apply J2. now left. }
  split.
  { intros id i Hin. apply J2 in Hin.
    destruct Hin as [Hin|(j & osd & _ & _ & Heq)]; [| discriminate].
    destruct (I4 _ Hin) as (id' & j & Heq & Hj & Hnone).
    inversion Heq. subst. now split. }
  intros id. rewrite J2. split.
  - intros [Hin|(j & osd & Hj & Hosd & Heq)].
    + destruct (I4 _ Hin) as (id' & j & Heq & _). discriminate.
    + inversion Heq. subst id. exists j, osd.
      rewrite I1 in Hosd by lia. repeat split; [lia | exact Hosd].
  - intros (i & osd & Hi & Hosd & <-). right. exists i, osd.
    rewrite <- I1 in Hosd by lia.
    pose proof (array_get_lt _ _ _ Hosd). repeat split; [lia | lia | exact Hosd].
Qed.

Lemma one_per_monitor_indexed (n : nat) (ws : list (option ModifiersOSD.t)) :
  one_per_monitor n ws -> indexed ws.
Proof.
  intros [Hlen Hfill] i osd Hget.
  pose proof (array_get_lt _ _ _ Hget) as Hi. rewrite Hlen in Hi.
  destruct (Hfill i Hi) as (osd' & Hlook & Hidx).
  apply array_get_Some in Hget. congruence.
Qed.

(** One run of [_onMonitorsChanged] on an array whose OSDs sit at their
    monitor's index leaves one OSD per monitor. *)
Lemma onMonitorsChanged_one_per_monitor (h : Host) (next : nat)
    (m : ModifiersOSDManager.t) :
  indexed (ModifiersOSDManager._osdWindows m) ->
  one_per_monitor (monitors_length h)
    (ModifiersOSDManager._osdWindows
       (fst (fst (ModifiersOSDManager._onMonitorsChanged h next m)))).
Proof.
  intros Hidx.
  destruct (onMonitorsChanged_spec h next m) as (Hlen & Hkeep & Hnew & _).
  split; [exact Hlen |].
  intros i Hi.
  destruct (array_get (ModifiersOSDManager._osdWindows m) i) as [osd|] eqn:E.
  - exists osd. split; [apply array_get_Some; now apply Hkeep | now apply Hidx].
  - destruct (Hnew i Hi E) as (id & Hget & _).
    exists (ModifiersOSD._init id i). split; [now apply array_get_Some | reflexivity].
Qed.

Lemma create_if_missing_ids (ws : list (option ModifiersOSD.t)) (next : nat)
    (out : list Effect) (i : nat) :
  older_than next ws -> distinct_ids ws ->
  let '(ws', next', _) := ModifiersOSDManager.create_if_missing (ws, next, out) i in
  older_than next' ws' /\ distinct_ids ws'.
Proof.
  intros Hold Hdist. unfold ModifiersOSDManager.create_if_missing.
  destruct (array_get ws i) as [o|] eqn:E; [now split |].
  split.
  - intros j osd. rewrite array_get_set.
    destruct (decide (j = i)) as [->|Hne].
    + intros Hget. inversion Hget. cbn. lia.
    + intros Hget. specialize (Hold j osd Hget). lia.
  - intros j1 j2 o1 o2. rewrite !array_get_set.
    destruct (decide (j1 = i)) as [->|H1], (decide (j2 = i)) as [->|H2];
      intros G1 G2 Hid.
    + reflexivity.
    + inversion G1. subst o1. cbn in Hid. specialize (Hold j2 o2 G2). lia.
    + inversion G2. subst o2. cbn in Hid. specialize (Hold j1 o1 G1). lia.
    + exact (Hdist j1 j2 o1 o2 G1 G2 Hid).
Qed.

Lemma destroy_if_present_ids (ws : list (option ModifiersOSD.t)) (next : nat)
    (out : list Effect) (i : nat) :
  older_than next ws -> distinct_ids ws ->
  let '(ws', next', _) := ModifiersOSDManager.destroy_if_present (ws, next, out) i in
  older_than next' ws' /\ distinct_ids ws'.
Proof.
  intros Hold Hdist. unfold ModifiersOSDManager.destroy_if_present.
  destruct (array_get ws i) as [o|] eqn:E; [| now split].
  split.
  - intros j osd. rewrite array_get_set.
    destruct (decide (j = i)); [discriminate |]. apply Hold.
  - intros j1 j2 o1 o2. rewrite !array_get_set.
    destruct (decide (j1 = i)); [discriminate |].
    destruct (decide (j2 = i)); [discriminate |]. apply Hdist.
Qed.

(** A loop whose body keeps the two identity properties keeps them. *)
Lemma loop_ids (body : ModifiersOSDManager.loop_state -> nat -> ModifiersOSDManager.loop_state)
    (indices : list nat) :
  (forall ws next out i,
      older_than next ws -> distinct_ids ws ->
      let '(ws', next', _) := body (ws, next, out) i in
      older_than next' ws' /\ distinct_ids ws') ->
  forall ws next out,
    older_than next ws -> distinct_ids ws ->
    let '(ws', next', _) := fold_left body indices (ws, next, out) in
    older_than next' ws' /\ distinct_ids ws'.
Proof.
  intros Hbody. induction indices as [|i indices IH]; intros ws next out Hold Hdist.
  - cbn. now split.
  - cbn [fold_left]. specialize (Hbody ws next out i Hold Hdist).
    destruct (body (ws, next, out) i) as [[ws1 next1] out1].
    destruct Hbody as [Hold1 Hdist1]. apply IH; assumption.
Qed.

(** [_onMonitorsChanged] never puts one object into two slots and
    numbers new objects past all existing ones. *)
Lemma onMonitorsChanged_ids (h : Host) (next : nat) (m : ModifiersOSDManager.t) :
  older_than next (ModifiersOSDManager._osdWindows m) ->
  distinct_ids (ModifiersOSDManager._osdWindows m) ->
  let r := ModifiersOSDManager._onMonitorsChanged h next m in
  older_than (snd (fst r)) (ModifiersOSDManager._osdWindows (fst (fst r)))
  /\ distinct_ids (ModifiersOSDManager._osdWindows (fst (fst r))).
Proof.
  intros Hold Hdist. cbv zeta.
  unfold ModifiersOSDManager._onMonitorsChanged. cbv zeta.
  pose proof (loop_ids ModifiersOSDManager.create_if_missing
                (seq 0 (monitors_length h)) create_if_missing_ids
                (ModifiersOSDManager._osdWindows m) next [] Hold Hdist) as L1.
  destruct (fold_left ModifiersOSDManager.create_if_missing
              (seq 0 (monitors_length h))
              (ModifiersOSDManager._osdWindows m, next, []))
    as [[ws1 next1] out1].
  destruct L1 as [Hold1 Hdist1]. cbn [fst snd].
  pose proof (loop_ids ModifiersOSDManager.destroy_if_present
                (seq (monitors_length h) (length ws1 - monitors_length h))
                destroy_if_present_ids ws1 next1 out1 Hold1 Hdist1) as L2.
  destruct (fold_left ModifiersOSDManager.destroy_if_present
              (seq (monitors_length h) (length ws1 - monitors_length h))
              (ws1, next1, out1))
    as [[ws2 next2] out2].
  destruct L2 as [Hold2 Hdist2].
  cbn [fst snd ModifiersOSDManager._osdWindows]. split.
  - intros j osd. rewrite array_get_set_length.
    destruct (decide (j < monitors_length h)%nat); [apply Hold2 | discriminate].
  - intros j1 j2 o1 o2. rewrite !array_get_set_length.
    destruct (decide (j1 < monitors_length h)%nat); [| discriminate].
    destruct (decide (j2 < monitors_length h)%nat); [| discriminate].
    apply Hdist2.
Qed.

(** After the construction and any sequence of monitor changes the slots
    hold pairwise different objects. *)
Lemma after_monitor_changes_distinct (h : Host) (counts : list nat) :
  let r := after_monitor_changes h counts in
  older_than (snd (fst r)) (ModifiersOSDManager._osdWindows (fst (fst r)))
  /\ distinct_ids (ModifiersOSDManager._osdWindows (fst (fst r))).
Proof.
  cbv zeta. unfold after_monitor_changes.
  induction counts as [|count counts IH] using rev_ind.
  - cbn [fold_left]. unfold ModifiersOSDManager.new.
    apply onMonitorsChanged_ids.
    + intros i osd Hget. unfold array_get in Hget. cbn in Hget.
      rewrite lookup_nil in Hget. discriminate.
    + intros i j o1 o2 Hget. unfold array_get in Hget. cbn in Hget.
      rewrite lookup_nil in Hget. discriminate.
  - rewrite fold_left_app. cbn [fold_left].
    destruct (fold_left _ counts (ModifiersOSDManager.new h 0)) as [[m next] out].
    cbn [fst snd] in IH. destruct IH as [Hold Hdist].
    pose proof (onMonitorsChanged_ids (with_monitors count h) next m Hold Hdist)
      as Hstep. cbv zeta in Hstep.
    destruct (ModifiersOSDManager._onMonitorsChanged (with_monitors count h) next m)
      as [[m' next'] out'].
    exact Hstep.
Qed.

(** C6: after the construction of the OSD manager and after every
    ['monitors-changed'] event of any sequence of monitor counts, the
    array of OSD windows has as many slots as there are monitors, every
    slot holds an OSD made for the monitor of its index, and no two slots
    hold the same object. *)
Theorem C6_one_osd_per_monitor (h : Host) (counts : list nat) :
  let ws := ModifiersOSDManager._osdWindows
              (fst (fst (after_monitor_changes h counts))) in
  one_per_monitor (List.last counts (monitors_length h)) ws
  /\ distinct_ids ws.
Proof.
  cbv zeta. split; [| apply after_monitor_changes_distinct].
  unfold after_monitor_changes.
  induction counts as [|count counts IH] using rev_ind.
  - cbn [fold_left List.last]. unfold ModifiersOSDManager.new.
    apply onMonitorsChanged_one_per_monitor.
    intros i osd Hget. cbn in Hget. unfold array_get in Hget.
    rewrite lookup_nil in Hget. discriminate.
  - rewrite fold_left_app, List.last_last. cbn [fold_left].
    destruct (fold_left _ counts (ModifiersOSDManager.new h 0)) as [[m next] out].
    cbn [fst] in IH.
    pose proof (onMonitorsChanged_one_per_monitor (with_monitors count h) next m
                  (one_per_monitor_indexed _ _ IH)) as Hstep.
    destruct (ModifiersOSDManager._onMonitorsChanged (with_monitors count h) next m)
      as [[m' next'] out'].
    exact Hstep.
Qed.

(** When a second monitor is plugged in, the OSD of the first monitor is
    not destroyed and no OSD is created for it: the event is not handled
    by destroying and recreating every OSD. *)
Lemma C7_counterexample :
  ~ recreates_every_osd two_monitor_host 1 one_monitor_manager.
Proof.
  intros [Hdestroyed _].
  specialize (Hdestroyed 0%nat (ModifiersOSD._init 0 0) eq_refl).
  vm_compute in Hdestroyed.
  apply list_elem_of_singleton in Hdestroyed. discriminate.
Qed.

(** C7 (amended): on a ['monitors-changed'] event the OSDs of the
    monitors that remain are kept as they are and are not destroyed; an
    OSD is created exactly for every monitor index from the old count up
    to the new one; exactly the OSDs at indices from the new count up to
    the old one are destroyed. *)
Theorem C7_osds_kept_added_removed (h : Host) (next old : nat)
    (m : ModifiersOSDManager.t) :
  one_per_monitor old (ModifiersOSDManager._osdWindows m) ->
  distinct_ids (ModifiersOSDManager._osdWindows m) ->
  let ws0 := ModifiersOSDManager._osdWindows m in
  let n := monitors_length h in
  let r := ModifiersOSDManager._onMonitorsChanged h next m in
  let ws := ModifiersOSDManager._osdWindows (fst (fst r)) in
  let out := snd r in
  (forall i osd, (i < n)%nat -> ws0 !! i = Some (Some osd) ->
                 ws !! i = Some (Some osd)
                 /\ OsdDestroyed (ModifiersOSD.osd_id osd) ∉ out)
  /\ (forall i, (exists id, OsdCreated id i ∈ out) <-> (old <= i < n)%nat)
  /\ (forall id, OsdDestroyed id ∈ out <->
                 exists i osd, (n <= i < old)%nat /\ ws0 !! i = Some (Some osd)
                               /\ ModifiersOSD.osd_id osd = id).
Proof.
  intros [Hlen Hfill] Hdistinct. cbv zeta.
  destruct (onMonitorsChanged_spec h next m)
    as (_ & Hkeep & Hnew & Hcreated & Hdestroyed).
  assert (Hfilled : forall i, (i < old)%nat <->
                              exists osd, array_get (ModifiersOSDManager._osdWindows m) i
                                          = Some osd).
  { intros i. split.
    - intros Hi. destruct (Hfill i Hi) as (osd & Hlook & _).
      exists osd. now apply array_get_Some.
    - intros [osd Hget]. rewrite <- Hlen. eapply array_get_lt, Hget. }
  split; [| split].
  - intros i osd Hi Hlook. apply array_get_Some in Hlook. split.
    + apply array_get_Some. now apply Hkeep.
    + intros Hin. apply Hdestroyed in Hin.
      destruct Hin as (j & osd' & Hj & Hget & Hid).
      pose proof (Hdistinct j i osd' osd Hget Hlook Hid). lia.
  - intros i. split.
    + intros [id Hin]. destruct (Hcreated id i Hin) as [Hi Hnone].
      split; [| exact Hi].
      destruct (decide (i < old)%nat) as [Hlt|]; [| lia].
      apply Hfilled in Hlt. destruct Hlt as [osd Hget]. congruence.
    + intros [Hold Hi].
      destruct (array_get (ModifiersOSDManager._osdWindows m) i) as [osd|] eqn:E.
      * assert (i < old)%nat by (apply Hfilled; eauto). lia.
      * destruct (Hnew i Hi E) as (id & _ & Hin). now exists id.
  - intros id. rewrite Hdestroyed. split.
    + intros (i & osd & Hi & Hget & Hid). exists i, osd.
      assert (i < old)%nat by (apply Hfilled; eauto).
      repeat split; [lia | lia | now apply array_get_Some | exact Hid].
    + intros (i & osd & Hi & Hlook & Hid). exists i, osd.
      repeat split; [lia | now apply array_get_Some | exact Hid].
Qed.

Lemma one_monitor_manager_shape :
  one_per_monitor 1 (ModifiersOSDManager._osdWindows one_monitor_manager)
  /\ distinct_ids (ModifiersOSDManager._osdWindows one_monitor_manager).
Proof.
  split.
  - split; [reflexivity |]. intros i Hi.
    destruct i as [|i]; [| lia]. eexists. split; reflexivity.
  - intros i j osd1 osd2 H1 H2 _.
    pose proof (array_get_lt _ _ _ H1) as L1.
    pose proof (array_get_lt _ _ _ H2) as L2.
    vm_compute in L1, L2. lia.
Qed.

(** Plugging in a second monitor: the first OSD stays, one is created. *)
Lemma C7_osds_kept_added_removed_witness :
  let r := ModifiersOSDManager._onMonitorsChanged two_monitor_host 1
             one_monitor_manager in
  (forall i osd, (i < 2)%nat ->
     ModifiersOSDManager._osdWindows one_monitor_manager !! i = Some (Some osd) ->
     ModifiersOSDManager._osdWindows (fst (fst r)) !! i = Some (Some osd)
     /\ OsdDestroyed (ModifiersOSD.osd_id osd) ∉ snd r)
  /\ (forall i, (exists id, OsdCreated id i ∈ snd r) <-> (1 <= i < 2)%nat)
  /\ (forall id, OsdDestroyed id ∈ snd r <->
                 exists i osd, (2 <= i < 1)%nat
                   /\ ModifiersOSDManager._osdWindows one_monitor_manager !! i
                      = Some (Some osd)
                   /\ ModifiersOSD.osd_id osd = id).
Proof.
  exact (C7_osds_kept_added_removed two_monitor_host 1 1 one_monitor_manager
           (proj1 one_monitor_manager_shape) (proj2 one_monitor_manager_shape)).
Defined.

(** ** The preferences window *)

Lemma every_from_false {A} (f : A -> nat -> bool) (l : list A) (i : nat) :
  Prefs.every_from i f l = false <->
  exists j x, l !! j = Some x /\ f x (i + j)%nat = false.
Proof.
  revert i. induction l as [|y l IH]; intros i; cbn.
  - split; [discriminate |]. intros (j & x & Hl & _). now rewrite lookup_nil in Hl.
  - rewrite andb_false_iff, IH. split.
    + intros [Hy|(j & x & Hl & Hf)].
      * exists 0%nat, y. split; [reflexivity |]. now rewrite Nat.add_0_r.
      * exists (S j), x. split; [exact Hl |]. now rewrite <- Nat.add_succ_comm.
    + intros (j & x & Hl & Hf). destruct j as [|j].
      * left. inversion Hl. subst. now rewrite Nat.add_0_r in Hf.
      * right. exists j, x. split; [exact Hl |]. now rewrite Nat.add_succ_comm.
Qed.

(** [_updateButtonStates] sets both buttons after the entries. *)
Lemma updateButtonStates_follows (sm : Prefs.SimpleManager) (w : Prefs.Window) :
  buttons_follow_entries sm (Prefs._updateButtonStates sm w).
Proof.
  unfold buttons_follow_entries, Prefs._updateButtonStates,
    Prefs.isCurrentEqualToDefault, Prefs.isCurrentEqualToSaved, Prefs.getEntryText.
  cbn [Prefs.resetButton_sensitive Prefs.saveButton_sensitive Prefs.entries
       Prefs.currentSymbols].
  rewrite !negb_true_iff, !every_from_false. split.
  - split.
    + intros (j & key & Hl & Hf). exists j, key. split; [exact Hl |].
      now apply bool_decide_eq_false in Hf.
    + intros (j & key & Hl & Hf). exists j, key. split; [exact Hl |].
      now apply bool_decide_eq_false.
  - split.
    + intros (j & key & Hl & Hf). exists key.
      split; [eapply list_elem_of_lookup_2, Hl |].
      now apply bool_decide_eq_false in Hf.
    + intros (key & Hin & Hf). apply list_elem_of_lookup_1 in Hin.
      destruct Hin as [j Hl]. exists j, key. split; [exact Hl |].
      now apply bool_decide_eq_false.
Qed.

(** After the user has put the preset symbol back into the Shift entry,
    every entry equals the preset and Reset is insensitive, although the
    Caps Lock entry differs from the documented schema default. *)
Lemma C8_counterexample :
  ~ buttons_follow_schema documented_schema Prefs.modifiers_manager
      (Prefs.handle Prefs.modifiers_manager
         (Prefs.EntryEdited "shift-symbol" "⇧") opened_window).
Proof.
  intros [[_ Hreset] _].
  assert (Hs : Prefs.resetButton_sensitive
                 (Prefs.handle Prefs.modifiers_manager
                    (Prefs.EntryEdited "shift-symbol" "⇧") opened_window) = false)
    by (vm_compute; reflexivity).
  rewrite Hs in Hreset.
  enough (false = true) by discriminate.
  apply Hreset. exists "caps-symbol". split.
  - unfold Prefs.modifiers_manager, Prefs.CONFIG_KEYS_modifiers. cbn. set_solver.
  - vm_compute. discriminate.
Qed.

(** C8 (amended): after every event that changes the text of an entry,
    the Reset-to-defaults button is sensitive exactly when some key's
    entry text differs from the default value given to [createGroup] for
    that key (the built-in 'Symbols' preset, not a value read from the
    schema), and the Save button is sensitive exactly when some key's
    entry text differs from the currently stored symbol of the key; each
    button is insensitive when all entries match its reference values. *)
Theorem C8_buttons_follow_entries (sm : Prefs.SimpleManager) (ev : Prefs.Event)
    (w : Prefs.Window) :
  Prefs.entries (Prefs.handle sm ev w) <> Prefs.entries w ->
  buttons_follow_entries sm (Prefs.handle sm ev w).
Proof.
  intros Hchanged. destruct ev as [key text | | | key newValue];
    cbn [Prefs.handle] in *.
  - destruct (Prefs.entries w !! key) as [old|]; [| contradiction].
    destruct (bool_decide (old = text)); [contradiction |].
    apply updateButtonStates_follows.
  - apply updateButtonStates_follows.
  - apply updateButtonStates_follows.
  - destruct (Prefs.entries w !! key) as [old|]; [| now contradiction Hchanged].
    destruct (bool_decide (Prefs.currentSymbols w !! key = Some newValue)).
    + now contradiction Hchanged.
    + apply updateButtonStates_follows.
Qed.

Lemma C8_buttons_follow_entries_witness :
  buttons_follow_entries Prefs.modifiers_manager
    (Prefs.handle Prefs.modifiers_manager
       (Prefs.EntryEdited "shift-symbol" "⇧") opened_window).
Proof.
  apply C8_buttons_follow_entries.
  vm_compute. discriminate.
Defined.

(** Right after the window opens both buttons are sensitive although
    every entry shows the stored symbol: the initial button update runs
    before the entry rows exist. *)
Lemma buttons_when_window_opens :
  Prefs.resetButton_sensitive opened_window = true
  /\ Prefs.saveButton_sensitive opened_window = true
  /\ Prefs.isCurrentEqualToSaved Prefs.modifiers_manager opened_window = true.
Proof. vm_compute. repeat split. Qed.

(** * Further properties of the extension *)

(** ** The first poll and the panel over a run *)

Lemma fire_tick_requested (modifiers : option Z) (w : World) :
  requested (output_of (fire (TimerTick modifiers) w))
  = expected_notifications
      (ModifierStateTracker.currentState (_stateTracker (this w)))
      (polled_bitmask modifiers).
Proof.
  unfold fire.
  match goal with |- context [ (_ ≫= _) ?w0 ] => set (w0' := w0) end.
  destruct (onUpdate_spec w0') as (w2 & out & Hrun & Hreq & _).
  rewrite (bind_normal _ _ _ _ _ _ _ _ _ Hrun eq_refl).
  unfold output_of. cbn [snd]. rewrite requested_app, Hreq. cbn [requested omap list_omap].
  rewrite app_nil_r. subst w0'. destruct modifiers; reflexivity.
Qed.

(** X1: the tracker starts with [previousState = null], but the first poll
    replaces it before the first-run check of
    [_handleModifierNotifications]: the first poll after [enable()]
    requests a notification for every lock key that is on at that time. *)
Theorem first_poll_notifies_active_locks (h : Host) (modifiers : option Z) :
  let w := world_of (KeyboardModifiersStatusExtension.enable h) in
  ModifierStateTracker.previousState (_stateTracker (this w)) = None
  /\ requested (output_of (fire (TimerTick modifiers) w))
     = flat_map
         (fun '(i, name) =>
            if Z.testbit (polled_bitmask modifiers) i then [("On", name)] else [])
         lock_keys.
Proof.
  cbv zeta. split.
  - unfold KeyboardModifiersStatusExtension.enable.
    destruct (ModifiersOSDManager.new h 0) as [[m next] out]. reflexivity.
  - rewrite fire_tick_requested.
    assert (Hcur : ModifierStateTracker.currentState
                     (_stateTracker (this (world_of
                        (KeyboardModifiersStatusExtension.enable h)))) = 0).
    { unfold KeyboardModifiersStatusExtension.enable.
      destruct (ModifiersOSDManager.new h 0) as [[m next] out]. reflexivity. }
    rewrite Hcur. unfold expected_notifications, lock_keys. cbn [flat_map].
    rewrite !Z.bits_0.
    destruct (Z.testbit (polled_bitmask modifiers) 1),
      (Z.testbit (polled_bitmask modifiers) 4),
      (Z.testbit (polled_bitmask modifiers) 5); reflexivity.
Qed.

(** The tracker after a poll: the polled bitmask over the recorded one. *)
Lemma onUpdate_tracker (w : World) :
  _stateTracker (this (world_of (KeyboardModifiersStatusExtension._onUpdate w)))
  = ModifierStateTracker.updateState
      (InputDeviceManager.getCurrentModifierState (host w))
      (_stateTracker (this w)).
Proof.
  destruct (Z.eq_dec (InputDeviceManager.getCurrentModifierState (host w))
              (ModifierStateTracker.currentState (_stateTracker (this w))))
    as [Heq|Hne].
  - rewrite onUpdate_unchanged by assumption. reflexivity.
  - destruct (onUpdate_changed w Hne) as [-> _].
    destruct (notify_lock_changes_spec (polled w)
                (ModifierStateTracker.currentState (_stateTracker (this w)))
                eq_refl) as (w1 & o1 & R1 & S1 & _).
    destruct (updatePanelIndicator_spec w1) as (w2 & o2 & R2 & _ & _ & _ & T2 & _).
    assert (Hrun :
      (KeyboardModifiersStatusExtension.notify_lock_changes;;
       KeyboardModifiersStatusExtension._updatePanelIndicator;;
       mret SOURCE_CONTINUE) (polled w)
      = (Normal SOURCE_CONTINUE, w2, o1 ++ o2 ++ [])).
    { eapply bind_normal; [exact R1 |]. cbv beta.
      eapply bind_normal; [exact R2 | reflexivity]. }
    rewrite Hrun. unfold world_of. cbn [fst snd].
    rewrite T2. destruct S1 as (_ & _ & -> & _). reflexivity.
Qed.

(** One stimulus other than a settings write keeps the stored symbols,
    the set-up and the agreement of the panel with the tracker. *)
Lemma fire_keeps_panel_in_sync (s : Stimulus) (w : World) :
  is_settings_change s = false ->
  set_up w -> panel_in_sync w ->
  let w' := world_of (fire s w) in
  settings_store (host w') = settings_store (host w)
  /\ set_up w' /\ panel_in_sync w'.
Proof.
  intros Hs Hset Hsync. cbv zeta.
  destruct s as [modifiers | store | count | throws stage]; [| discriminate | |].
  - unfold fire.
    match goal with |- context [ (_ ≫= _) ?w0 ] => set (w0' := w0) end.
    assert (Hset0 : set_up w0').
    { destruct Hset as [Hlabel Hsettings]. split; [exact Hlabel |].
      subst w0'. unfold set_host. cbn [host this].
      rewrite Hsettings. symmetry. now apply initialize_host_irrelevant. }
    destruct (onUpdate_spec w0') as (w2 & out & Hrun & _).
    pose proof (onUpdate_frame w0') as F.
    pose proof (onUpdate_tracker w0') as T.
    cbv zeta in F. rewrite Hrun in F, T. unfold world_of in F, T.
    cbn [fst snd] in F, T. destruct F as (Fh & Fs & Fl).
    rewrite (bind_normal _ _ _ _ _ _ _ _ _ Hrun eq_refl).
    unfold world_of. cbn [fst snd].
    split; [now rewrite Fh |]. split.
    + split; [apply Fl, Hset0 |]. rewrite Fs, Fh. apply Hset0.
    + unfold panel_in_sync. rewrite T, Fh.
      cbn [ModifierStateTracker.updateState ModifierStateTracker.currentState].
      destruct (Z.eq_dec (InputDeviceManager.getCurrentModifierState (host w0'))
                  (ModifierStateTracker.currentState (_stateTracker (this w0'))))
        as [Heq|Hne].
      * pose proof (onUpdate_unchanged w0' Heq) as Hu. rewrite Hrun in Hu.
        inversion Hu; subst w2. rewrite Heq. exact Hsync.
      * pose proof (onUpdate_changed_label w0' Hset0 Hne) as Hl.
        rewrite Hrun in Hl. exact Hl.
  - unfold fire, KeyboardModifiersStatusExtension.on_monitors_changed.
    destruct (ModifiersOSDManager._onMonitorsChanged _ _ _) as [[m next] out].
    split; [reflexivity |]. split; [| exact Hsync].
    destruct Hset as [Hlabel Hsettings]. split; [exact Hlabel |].
    unfold world_of, set_next_object, set_osdManager, set_this, set_host.
    cbn [fst snd host this _settingsManager].
    rewrite Hsettings. symmetry. now apply initialize_host_irrelevant.
  - split; [reflexivity |]. split; [| exact Hsync].
    destruct Hset as [Hlabel Hsettings]. split; [exact Hlabel |].
    unfold fire, world_of, set_host. cbn [fst snd host this _settingsManager].
    rewrite Hsettings. symmetry. now apply initialize_host_irrelevant.
Qed.

Lemma enable_panel_in_sync (h : Host) :
  let w := world_of (KeyboardModifiersStatusExtension.enable h) in
  host w = h /\ set_up w /\ panel_in_sync w.
Proof.
  cbv zeta. unfold KeyboardModifiersStatusExtension.enable.
  destruct (ModifiersOSDManager.new h 0) as [[m next] out].
  split; [reflexivity |]. split.
  - split; [eexists; reflexivity | reflexivity].
  - reflexivity.
Qed.

(** X2: as long as no settings are written, the panel label always shows the
    symbols of the bitmask polled last: after [enable()] and after every
    timer tick, monitor change or toolkit fault that follows. *)
Theorem panel_shows_last_polled_state (h : Host) (stimuli : list Stimulus) :
  forallb (fun s => negb (is_settings_change s)) stimuli = true ->
  let w := run stimuli (world_of (KeyboardModifiersStatusExtension.enable h)) in
  PanelIndicator._label (_panelIndicator (this w))
  = Some (expected_indicator_text (settings_store h)
            (ModifierStateTracker.currentState (_stateTracker (this w)))).
Proof.
  intros Hno. cbv zeta.
  destruct (enable_panel_in_sync h) as (Hhost & Hset & Hsync).
  set (w0 := world_of (KeyboardModifiersStatusExtension.enable h)) in *.
  assert (Hstore : settings_store (host w0) = settings_store h) by now rewrite Hhost.
  clearbody w0. clear Hhost.
  revert w0 Hset Hsync Hstore.
  induction stimuli as [|s stimuli IH]; intros w0 Hset Hsync Hstore.
  - cbn. rewrite <- Hstore. exact Hsync.
  - cbn [forallb] in Hno. apply andb_true_iff in Hno. destruct Hno as [Hs Hrest].
    apply negb_true_iff in Hs.
    destruct (fire_keeps_panel_in_sync s w0 Hs Hset Hsync) as (Hst & Hset' & Hsync').
    cbn [run fold_left]. apply IH; try assumption. now rewrite Hst.
Qed.

Lemma panel_shows_last_polled_state_witness :
  PanelIndicator._label
    (_panelIndicator
       (this (run [TimerTick (Some 5); MonitorsChanged 1; TimerTick (Some 4)]
                (world_of (KeyboardModifiersStatusExtension.enable two_monitor_host)))))
  = Some "control-symbol".
Proof.
  exact (panel_shows_last_polled_state two_monitor_host
           [TimerTick (Some 5); MonitorsChanged 1; TimerTick (Some 4)] eq_refl).
Defined.

(** ** What the OSD windows display *)



(** X3: when the toolkit does not fail, after a poll every OSD displays the
    last notification the poll requested (of Caps, Num, Scroll in that
    order), is visible and has its hide timeout armed; a poll that
    requests none leaves every OSD as it was.  So when several lock keys
    toggle between two polls, only the last of them stays on screen. *)
Theorem osds_display_last_notification (w : World) :
  toolkit_healthy (host w) ->
  ModifiersOSDManager._osdWindows
    (_osdManager (this (world_of (KeyboardModifiersStatusExtension._onUpdate w))))
  = display_last
      (expected_notifications
         (ModifierStateTracker.currentState (_stateTracker (this w)))
         (InputDeviceManager.getCurrentModifierState (host w)))
      (ModifiersOSDManager._osdWindows (_osdManager (this w))).
Proof.
  exact (onUpdate_windows w).
Qed.

Lemma osds_display_last_notification_witness :
  ModifiersOSDManager._osdWindows
    (_osdManager
       (this (world_of (KeyboardModifiersStatusExtension._onUpdate
                          (set_host {| monitors_length := 2;
                                       pointer_modifiers := Some 18;
                                       settings_store := fun key => key;
                                       osd_show_throws := fun _ => false;
                                       osd_show_throws_at := fun _ => SettingTitle |}
                                    enabled_world)))))
  = [ Some (displaying "On" "Num" (ModifiersOSD._init 0 0));
      Some (displaying "On" "Num" (ModifiersOSD._init 1 1)) ].
Proof.
  refine (osds_display_last_notification
            (set_host {| monitors_length := 2;
                         pointer_modifiers := Some 18;
                         settings_store := fun key => key;
                         osd_show_throws := fun _ => false;
                         osd_show_throws_at := fun _ => SettingTitle |}
                      enabled_world) _).
  intros monitor. reflexivity.
Defined.

(** ** Every OSD object is accounted for *)

Lemma created_ids_app (a b : list Effect) :
  created_ids (a ++ b) = created_ids a ++ created_ids b.
Proof. apply omap_app. Qed.

Lemma destroyed_ids_app (a b : list Effect) :
  destroyed_ids (a ++ b) = destroyed_ids a ++ destroyed_ids b.
Proof. apply omap_app. Qed.

Lemma slot_id_set (ws : list (option ModifiersOSD.t)) (i j : nat)
    (v : option ModifiersOSD.t) :
  slot_id (JS.array_set ws i v) j
  = if decide (j = i) then ModifiersOSD.osd_id <$> v else slot_id ws j.
Proof.
  unfold slot_id. rewrite array_get_set. now destruct (decide (j = i)).
Qed.

Lemma create_if_missing_accounted (pre : list Effect)
    (ws : list (option ModifiersOSD.t)) (next : nat) (out : list Effect) (i : nat) :
  accounted ws next (pre ++ out) ->
  let '(ws', next', out') := ModifiersOSDManager.create_if_missing (ws, next, out) i in
  accounted ws' next' (pre ++ out').
Proof.
  intros (Hold & Hdist & Hnew & Hc & Hd & Hiff & Hdis).
  unfold ModifiersOSDManager.create_if_missing.
  destruct (array_get ws i) as [o|] eqn:E; [repeat split; assumption || apply Hiff |].
  assert (Hslot : slot_id ws i = None) by (unfold slot_id; now rewrite E).
  assert (Hc' : created_ids (pre ++ out ++ [OsdCreated next i])
                = created_ids (pre ++ out) ++ [next]).
  { now rewrite app_assoc, created_ids_app. }
  assert (Hd' : destroyed_ids (pre ++ out ++ [OsdCreated next i])
                = destroyed_ids (pre ++ out)).
  { rewrite app_assoc, destroyed_ids_app. cbn. now rewrite app_nil_r. }
  assert (Hfresh : next ∉ created_ids (pre ++ out)).
  { intros Hin. specialize (Hnew _ Hin). lia. }
  unfold accounted. rewrite Hc', Hd'. repeat split.
  - intros j id. rewrite slot_id_set.
    destruct (decide (j = i)).
    + cbn. intros [= <-]. lia.
    + intros Hj. specialize (Hold _ _ Hj). lia.
  - intros j1 j2 id. rewrite !slot_id_set.
    destruct (decide (j1 = i)) as [->|H1], (decide (j2 = i)) as [->|H2]; cbn.
    + reflexivity.
    + intros [= <-] H. specialize (Hold _ _ H). lia.
    + intros H [= <-]. specialize (Hold _ _ H). lia.
    + apply Hdist.
  - intros id Hin. apply elem_of_app in Hin. destruct Hin as [Hin|Hin].
    + specialize (Hnew _ Hin). lia.
    + apply list_elem_of_singleton in Hin. lia.
  - apply NoDup_app. split; [exact Hc |]. split.
    + intros id Hin Hin'. apply list_elem_of_singleton in Hin'. now subst.
    + apply NoDup_singleton.
  - exact Hd.
  - intros Hin. apply elem_of_app in Hin. destruct Hin as [Hin|Hin].
    + apply Hiff in Hin. destruct Hin as [[j Hj]|Hin]; [left | now right].
      exists j. rewrite slot_id_set.
      destruct (decide (j = i)) as [->|]; [congruence | exact Hj].
    + apply list_elem_of_singleton in Hin. subst id. left. exists i.
      rewrite slot_id_set. destruct (decide (i = i)); [reflexivity | congruence].
  - intros [[j Hj]|Hin].
    + rewrite slot_id_set in Hj. destruct (decide (j = i)).
      * cbn in Hj. inversion Hj. apply elem_of_app. right.
        now apply list_elem_of_singleton.
      * apply elem_of_app. left. apply Hiff. left. now exists j.
    + apply elem_of_app. left. apply Hiff. now right.
  - intros id Hin [j Hj]. rewrite slot_id_set in Hj.
    destruct (decide (j = i)).
    + cbn in Hj. inversion Hj. subst id.
      apply Hfresh, Hiff. now right.
    + apply (Hdis id Hin). now exists j.
Qed.

Lemma destroy_if_present_accounted (pre : list Effect)
    (ws : list (option ModifiersOSD.t)) (next : nat) (out : list Effect) (i : nat) :
  accounted ws next (pre ++ out) ->
  let '(ws', next', out') := ModifiersOSDManager.destroy_if_present (ws, next, out) i in
  accounted ws' next' (pre ++ out').
Proof.
  intros (Hold & Hdist & Hnew & Hc & Hd & Hiff & Hdis).
  unfold ModifiersOSDManager.destroy_if_present.
  destruct (array_get ws i) as [o|] eqn:E; [| repeat split; assumption || apply Hiff].
  set (oid := ModifiersOSD.osd_id o).
  assert (Hslot : slot_id ws i = Some oid) by (unfold slot_id; now rewrite E).
  assert (Hc' : created_ids (pre ++ out ++ [OsdDestroyed oid])
                = created_ids (pre ++ out)).
  { rewrite app_assoc, created_ids_app. cbn. now rewrite app_nil_r. }
  assert (Hd' : destroyed_ids (pre ++ out ++ [OsdDestroyed oid])
                = destroyed_ids (pre ++ out) ++ [oid]).
  { now rewrite app_assoc, destroyed_ids_app. }
  assert (Hlive : oid ∉ destroyed_ids (pre ++ out)).
  { intros Hin. apply (Hdis _ Hin). now exists i. }
  unfold accounted. rewrite Hc', Hd'. repeat split.
  - intros j id. rewrite slot_id_set.
    destruct (decide (j = i)); [discriminate | apply Hold].
  - intros j1 j2 id. rewrite !slot_id_set.
    destruct (decide (j1 = i)); [discriminate |].
    destruct (decide (j2 = i)); [discriminate | apply Hdist].
  - exact Hnew.
  - exact Hc.
  - apply NoDup_app. split; [exact Hd |]. split.
    + intros id Hin Hin'. apply list_elem_of_singleton in Hin'. now subst.
    + apply NoDup_singleton.
  - intros Hin. apply Hiff in Hin. destruct Hin as [[j Hj]|Hin].
    + destruct (decide (j = i)) as [->|Hne].
      * right. apply elem_of_app. right. apply list_elem_of_singleton. congruence.
      * left. exists j. rewrite slot_id_set.
        destruct (decide (j = i)); [contradiction | exact Hj].
    + right. apply elem_of_app. now left.
  - intros [[j Hj]|Hin].
    + rewrite slot_id_set in Hj. destruct (decide (j = i)); [discriminate |].
      apply Hiff. left. now exists j.
    + apply elem_of_app in Hin. destruct Hin as [Hin|Hin].
      * apply Hiff. now right.
      * apply list_elem_of_singleton in Hin. subst id. apply Hiff. left. now exists i.
  - intros id Hin [j Hj]. rewrite slot_id_set in Hj.
    destruct (decide (j = i)); [discriminate |].
    apply elem_of_app in Hin. destruct Hin as [Hin|Hin].
    + apply (Hdis id Hin). now exists j.
    + apply list_elem_of_singleton in Hin. subst id.
      assert (j = i) by (eapply Hdist; eassumption). contradiction.
Qed.

Lemma loop_accounted (pre : list Effect)
    (body : ModifiersOSDManager.loop_state -> nat -> ModifiersOSDManager.loop_state)
    (indices : list nat) :
  (forall ws next out i,
      accounted ws next (pre ++ out) ->
      let '(ws', next', out') := body (ws, next, out) i in
      accounted ws' next' (pre ++ out')) ->
  forall ws next out,
    accounted ws next (pre ++ out) ->
    let '(ws', next', out') := fold_left body indices (ws, next, out) in
    accounted ws' next' (pre ++ out').
Proof.
  intros Hbody. induction indices as [|i indices IH]; intros ws next out Hacc.
  - exact Hacc.
  - cbn [fold_left]. specialize (Hbody ws next out i Hacc).
    destruct (body (ws, next, out) i) as [[ws1 next1] out1]. now apply IH.
Qed.

Lemma accounted_same_slots (ws ws' : list (option ModifiersOSD.t)) (next : nat)
    (out : list Effect) :
  (forall j, slot_id ws' j = slot_id ws j) ->
  accounted ws next out -> accounted ws' next out.
Proof.
  intros Hsame (Hold & Hdist & Hnew & Hc & Hd & Hiff & Hdis).
  unfold accounted. repeat split; try assumption.
  - intros i id. rewrite Hsame. apply Hold.
  - intros i j id. rewrite !Hsame. apply Hdist.
  - intros Hin. apply Hiff in Hin. destruct Hin as [[j Hj]|Hin]; [left | now right].
    exists j. now rewrite Hsame.
  - intros [[j Hj]|Hin]; apply Hiff; [left | now right].
    exists j. now rewrite <- Hsame.
  - intros id Hin [j Hj]. apply (Hdis id Hin). exists j. now rewrite <- Hsame.
Qed.

(** One run of [_onMonitorsChanged] keeps every object accounted for. *)
Lemma onMonitorsChanged_accounted (pre : list Effect) (h : Host) (next : nat)
    (m : ModifiersOSDManager.t) :
  accounted (ModifiersOSDManager._osdWindows m) next pre ->
  let r := ModifiersOSDManager._onMonitorsChanged h next m in
  accounted (ModifiersOSDManager._osdWindows (fst (fst r))) (snd (fst r))
    (pre ++ snd r).
Proof.
  intros Hacc. cbv zeta.
  unfold ModifiersOSDManager._onMonitorsChanged. cbv zeta.
  rewrite <- (app_nil_r pre) in Hacc.
  pose proof (loop_accounted pre ModifiersOSDManager.create_if_missing
                (seq 0 (monitors_length h)) (create_if_missing_accounted pre)
                _ _ _ Hacc) as L1.
  destruct (fold_left ModifiersOSDManager.create_if_missing
              (seq 0 (monitors_length h))
              (ModifiersOSDManager._osdWindows m, next, []))
    as [[ws1 next1] out1].
  cbn [fst snd].
  pose proof (loop_accounted pre ModifiersOSDManager.destroy_if_present
                (seq (monitors_length h) (length ws1 - monitors_length h))
                (destroy_if_present_accounted pre) _ _ _ L1) as L2.
  pose proof (destroy_loop_spec ws1 next1 out1 (monitors_length h)
                (length ws1 - monitors_length h)) as J.
  destruct (fold_left ModifiersOSDManager.destroy_if_present
              (seq (monitors_length h) (length ws1 - monitors_length h))
              (ws1, next1, out1))
    as [[ws2 next2] out2].
  destruct J as (_ & J1 & _).
  cbn [fst snd ModifiersOSDManager._osdWindows].
  apply (accounted_same_slots ws2); [| exact L2].
  intros j. unfold slot_id. rewrite array_get_set_length.
  destruct (decide (j < monitors_length h)%nat) as [|Hge]; [reflexivity |].
  rewrite J1.
  destruct (decide (monitors_length h <= j
                    < monitors_length h + (length ws1 - monitors_length h))%nat);
    [reflexivity |].
  rewrite (array_get_ge ws1 j) by lia. reflexivity.
Qed.

Lemma slot_id_shape (ws : list (option ModifiersOSD.t)) (j : nat) :
  slot_id ws j = fst <$> mjoin (id_shape ws !! j).
Proof.
  unfold slot_id, id_shape, array_get. rewrite list_lookup_fmap.
  destruct (ws !! j) as [[osd|]|]; reflexivity.
Qed.

Lemma same_shape_same_slots (ws ws' : list (option ModifiersOSD.t)) :
  id_shape ws' = id_shape ws -> forall j, slot_id ws' j = slot_id ws j.
Proof. intros H j. now rewrite !slot_id_shape, H. Qed.

(** *** Methods that leave the OSD objects alone *)

Lemma neutral_ret {A} (a : A) : osd_neutral (mret a).
Proof. intros w. repeat split. Qed.

Lemma neutral_gets {A} (f : World -> A) : osd_neutral (gets f).
Proof. intros w. repeat split. Qed.

Lemma neutral_bind {A B} (m : M A) (k : A -> M B) :
  osd_neutral m -> (forall a, osd_neutral (k a)) -> osd_neutral (m ≫= k).
Proof.
  intros Hm Hk w. specialize (Hm w).
  unfold mbind, M_bind.
  destruct (m w) as [[[a|e] w1] o1]; unfold output_of, world_of in *; cbn [fst snd] in *.
  - specialize (Hk a w1).
    destruct (k a w1) as [[r w2] o2]. unfold output_of, world_of in *.
    cbn [fst snd] in *.
    destruct Hm as (C1 & D1 & N1 & S1), Hk as (C2 & D2 & N2 & S2).
    rewrite created_ids_app, destroyed_ids_app, C1, C2, D1, D2.
    repeat split; congruence.
  - exact Hm.
Qed.

Lemma neutral_try_catch {A} (body : M A) (handler : Exn -> M A) :
  osd_neutral body -> (forall e, osd_neutral (handler e)) ->
  osd_neutral (try_catch body handler).
Proof.
  intros Hm Hk w. specialize (Hm w). unfold try_catch.
  destruct (body w) as [[[a|e] w1] o1]; unfold output_of, world_of in *;
    cbn [fst snd] in *.
  - exact Hm.
  - specialize (Hk e w1).
    destruct (handler e w1) as [[r w2] o2]. unfold output_of, world_of in *.
    cbn [fst snd] in *.
    destruct Hm as (C1 & D1 & N1 & S1), Hk as (C2 & D2 & N2 & S2).
    rewrite created_ids_app, destroyed_ids_app, C1, C2, D1, D2.
    repeat split; congruence.
Qed.

Lemma show_each_neutral (h : Host) (title status : string)
    (ws : list (option ModifiersOSD.t)) :
  let r := ModifiersOSDManager.show_each h title status ws in
  created_ids (snd r) = [] /\ destroyed_ids (snd r) = []
  /\ id_shape (snd (fst r)) = id_shape ws.
Proof.
  cbv zeta. induction ws as [|[osd|] rest IH]; cbn.
  - repeat split.
  - unfold ModifiersOSD.show.
    destruct (osd_show_throws h (ModifiersOSD._monitorIndex osd)); cbn.
    + repeat split.
      now destruct (osd_show_throws_at h (ModifiersOSD._monitorIndex osd)).
    + destruct (ModifiersOSDManager.show_each h title status rest) as [[r rest'] out].
      cbn in *. destruct IH as (C & D & S). repeat split; try assumption.
      unfold id_shape in *. cbn. now rewrite S.
  - destruct (ModifiersOSDManager.show_each h title status rest) as [[r rest'] out].
    cbn in *. destruct IH as (C & D & S). repeat split; try assumption.
    unfold id_shape in *. cbn. now rewrite S.
Qed.

Lemma showNotification_neutral (title message : string) :
  osd_neutral (KeyboardModifiersStatusExtension._showNotification title message).
Proof.
  unfold KeyboardModifiersStatusExtension._showNotification.
  apply neutral_try_catch.
  - intros w. unfold ModifiersOSDManager.show.
    pose proof (show_each_neutral (host w) title message
                  (ModifiersOSDManager._osdWindows (_osdManager (this w)))) as H.
    cbv zeta in H.
    destruct (ModifiersOSDManager.show_each (host w) title message
                (ModifiersOSDManager._osdWindows (_osdManager (this w))))
      as [[r ws'] out].
    cbn [fst snd] in H. destruct H as (C & D & S).
    unfold output_of, world_of. cbn. repeat split; assumption.
  - intros e w. repeat split.
Qed.

Lemma notify_change_neutral (mask : Z) (name : string) :
  osd_neutral (KeyboardModifiersStatusExtension.notify_change mask name).
Proof.
  unfold KeyboardModifiersStatusExtension.notify_change.
  apply neutral_bind; [apply neutral_gets |].
  intros [info|]; [apply showNotification_neutral | apply neutral_ret].
Qed.

Lemma onUpdate_neutral : osd_neutral KeyboardModifiersStatusExtension._onUpdate.
Proof.
  unfold KeyboardModifiersStatusExtension._onUpdate.
  apply neutral_bind; [apply neutral_gets | intros currentState].
  apply neutral_bind; [intros w; repeat split | intros _].
  apply neutral_bind; [apply neutral_gets | intros changed].
  destruct (negb changed); [apply neutral_ret |].
  apply neutral_bind.
  - unfold KeyboardModifiersStatusExtension._handleModifierNotifications.
    apply neutral_bind; [apply neutral_gets |].
    intros [p|]; [| apply neutral_ret].
    unfold KeyboardModifiersStatusExtension.notify_lock_changes.
    apply neutral_bind; [apply notify_change_neutral | intros _].
    apply neutral_bind; [apply notify_change_neutral | intros _].
    apply notify_change_neutral.
  - intros _. apply neutral_bind; [| intros _; apply neutral_ret].
    intros w. unfold KeyboardModifiersStatusExtension._updatePanelIndicator,
      PanelIndicator.updateText.
    destruct (PanelIndicator._label (_panelIndicator (this w))); repeat split.
Qed.

Lemma accounted_neutral_step (ws ws' : list (option ModifiersOSD.t)) (next : nat)
    (pre out : list Effect) :
  created_ids out = [] -> destroyed_ids out = [] ->
  id_shape ws' = id_shape ws ->
  accounted ws next pre -> accounted ws' next (pre ++ out).
Proof.
  intros C D S Hacc.
  apply (accounted_same_slots ws); [now apply same_shape_same_slots |].
  destruct Hacc as (Hold & Hdist & Hnew & Hc & Hd & Hiff & Hdis).
  unfold accounted. rewrite created_ids_app, destroyed_ids_app, C, D, !app_nil_r.
  repeat split; assumption || apply Hiff.
Qed.

(** Whatever the host fires, every object stays accounted for. *)
Lemma fire_accounted (pre : list Effect) (s : Stimulus) (w : World) :
  accounted (ModifiersOSDManager._osdWindows (_osdManager (this w)))
    (next_object w) pre ->
  let r := fire s w in
  accounted (ModifiersOSDManager._osdWindows (_osdManager (this (world_of r))))
    (next_object (world_of r)) (pre ++ output_of r).
Proof.
  intros Hacc. cbv zeta.
  destruct s as [modifiers | store | count | throws stage]; unfold fire.
  - match goal with |- context [ (_ ≫= _) ?w0 ] => set (w0' := w0) end.
    destruct (neutral_bind _ (fun _ => mret tt) onUpdate_neutral
                (fun _ => neutral_ret tt) w0') as (C & D & N & S).
    rewrite N. eapply accounted_neutral_step; [exact C | exact D | exact S | exact Hacc].
  - assert (Hn : osd_neutral KeyboardModifiersStatusExtension.on_settings_changed).
    { unfold KeyboardModifiersStatusExtension.on_settings_changed.
      apply neutral_bind; [intros w1; repeat split | intros _].
      intros w1. repeat split. }
    match goal with |- context [ KeyboardModifiersStatusExtension.on_settings_changed ?w0 ] =>
      set (w0' := w0) end.
    destruct (Hn w0') as (C & D & N & S).
    rewrite N. eapply accounted_neutral_step; [exact C | exact D | exact S | exact Hacc].
  - unfold KeyboardModifiersStatusExtension.on_monitors_changed.
    cbn [host set_host next_object this _osdManager].
    pose proof (onMonitorsChanged_accounted pre
                  {| monitors_length := count;
                     pointer_modifiers := pointer_modifiers (host w);
                     settings_store := settings_store (host w);
                     osd_show_throws := osd_show_throws (host w);
                     osd_show_throws_at := osd_show_throws_at (host w) |}
                  (next_object w) (_osdManager (this w)) Hacc) as H.
    cbv zeta in H.
    destruct (ModifiersOSDManager._onMonitorsChanged _ _ _) as [[m next] out].
    exact H.
  - unfold world_of, output_of. cbn. now rewrite app_nil_r.
Qed.

Lemma run_output_accounted (pre : list Effect) (stimuli : list Stimulus) :
  forall (w : World) (out : list Effect),
    accounted (ModifiersOSDManager._osdWindows (_osdManager (this w)))
      (next_object w) (pre ++ out) ->
    let r := fold_left
               (fun '(w, out) s =>
                  let r := fire s w in (world_of r, out ++ output_of r))
               stimuli (w, out) in
    accounted (ModifiersOSDManager._osdWindows (_osdManager (this (fst r))))
      (next_object (fst r)) (pre ++ snd r).
Proof.
  induction stimuli as [|s stimuli IH]; intros w out Hacc; [exact Hacc |].
  cbn [fold_left]. apply IH. rewrite app_assoc. now apply fire_accounted.
Qed.

Lemma enable_accounted (h : Host) :
  let e := KeyboardModifiersStatusExtension.enable h in
  accounted (ModifiersOSDManager._osdWindows (_osdManager (this (world_of e))))
    (next_object (world_of e)) (output_of e).
Proof.
  cbv zeta. unfold KeyboardModifiersStatusExtension.enable, ModifiersOSDManager.new.
  assert (Hnil : forall i, slot_id [] i = None).
  { intros i. unfold slot_id, array_get. now rewrite lookup_nil. }
  assert (Hinit : accounted [] 0 []).
  { unfold accounted. cbn [created_ids destroyed_ids omap list_omap].
    split; [intros i id; rewrite Hnil; discriminate |].
    split; [intros i j id; rewrite Hnil; discriminate |].
    split; [intros id Hin; now apply elem_of_nil in Hin |].
    split; [apply NoDup_nil_2 |].
    split; [apply NoDup_nil_2 |].
    split.
    - intros id. split.
      + intros Hin. now apply elem_of_nil in Hin.
      + intros [[i Hi]|Hin]; [rewrite Hnil in Hi; discriminate
                             | now apply elem_of_nil in Hin].
    - intros id Hin. now apply elem_of_nil in Hin. }
  pose proof (onMonitorsChanged_accounted [] h 0
                {| ModifiersOSDManager._osdWindows := [] |} Hinit) as H.
  cbv zeta in H.
  destruct (ModifiersOSDManager._onMonitorsChanged h 0
              {| ModifiersOSDManager._osdWindows := [] |}) as [[m next] out].
  exact H.
Qed.

Lemma elem_of_held_ids (ws : list (option ModifiersOSD.t)) (id : nat) :
  id ∈ held_ids ws <-> exists i, slot_id ws i = Some id.
Proof.
  unfold held_ids, slot_id. rewrite list_elem_of_fmap. split.
  - intros (osd & -> & Hin). apply list_elem_of_omap in Hin.
    destruct Hin as ([o|] & Hin & Ho); [| discriminate].
    cbn in Ho. inversion Ho. subst o.
    apply list_elem_of_lookup in Hin. destruct Hin as [i Hi].
    exists i. unfold array_get. now rewrite Hi.
  - intros [i Hi]. unfold array_get in Hi.
    destruct (ws !! i) as [[osd|]|] eqn:E; try discriminate.
    cbn in Hi. inversion Hi. exists osd. split; [reflexivity |].
    apply list_elem_of_omap. exists (Some osd). split; [| reflexivity].
    eapply list_elem_of_lookup_2, E.
Qed.

Lemma NoDup_held_ids (ws : list (option ModifiersOSD.t)) :
  (forall i j id, slot_id ws i = Some id -> slot_id ws j = Some id -> i = j) ->
  NoDup (held_ids ws).
Proof.
  induction ws as [|slot rest IH]; intros Hdist; [apply NoDup_nil_2 |].
  assert (Hrest : forall i j id, slot_id rest i = Some id ->
                                 slot_id rest j = Some id -> i = j).
  { intros i j id Hi Hj.
    assert (S i = S j) by (apply (Hdist (S i) (S j) id); assumption). lia. }
  destruct slot as [osd|]; [| exact (IH Hrest)].
  unfold held_ids. cbn. apply NoDup_cons. split; [| exact (IH Hrest)].
  intros Hin. apply elem_of_held_ids in Hin. destruct Hin as [j Hj].
  assert (0%nat = S j) by (apply (Hdist 0%nat (S j) (ModifiersOSD.osd_id osd));
                           [reflexivity | exact Hj]).
  discriminate.
Qed.

Lemma accounted_permutation (ws : list (option ModifiersOSD.t)) (next : nat)
    (out : list Effect) :
  accounted ws next out ->
  NoDup (created_ids out)
  /\ created_ids out ≡ₚ destroyed_ids out ++ held_ids ws.
Proof.
  intros (Hold & Hdist & Hnew & Hc & Hd & Hiff & Hdis).
  split; [exact Hc |].
  apply NoDup_Permutation; [exact Hc | |].
  - apply NoDup_app. split; [exact Hd |]. split; [| now apply NoDup_held_ids].
    intros id Hin Hheld. apply elem_of_held_ids in Hheld. exact (Hdis id Hin Hheld).
  - intros id. rewrite elem_of_app, elem_of_held_ids, Hiff. tauto.
Qed.

Lemma run_accounted (h : Host) (stimuli : list Stimulus) :
  let e := KeyboardModifiersStatusExtension.enable h in
  let r := run_output stimuli (world_of e) in
  accounted (ModifiersOSDManager._osdWindows (_osdManager (this (fst r))))
    (next_object (fst r)) (output_of e ++ snd r).
Proof.
  cbv zeta. unfold run_output. apply run_output_accounted.
  rewrite app_nil_r. apply enable_accounted.
Qed.

Lemma created_ids_destroy_all (l : list ModifiersOSD.t) :
  created_ids (map (fun osd => OsdDestroyed (ModifiersOSD.osd_id osd)) l) = [].
Proof. induction l as [|osd l IH]; [reflexivity | exact IH]. Qed.

Lemma destroyed_ids_destroy_all (l : list ModifiersOSD.t) :
  destroyed_ids (map (fun osd => OsdDestroyed (ModifiersOSD.osd_id osd)) l)
  = ModifiersOSD.osd_id <$> l.
Proof. induction l as [|osd l IH]; [reflexivity |]. cbn. f_equal. exact IH. Qed.

(** X5: at every moment of a run, the OSD objects in the manager's array are
    exactly the objects created so far and not destroyed: no object is
    created twice, none is destroyed twice, none is dropped from the
    array without being destroyed. *)
Theorem osds_held_are_created_minus_destroyed (h : Host) (stimuli : list Stimulus) :
  let e := KeyboardModifiersStatusExtension.enable h in
  let r := run_output stimuli (world_of e) in
  let out := output_of e ++ snd r in
  NoDup (created_ids out)
  /\ NoDup (destroyed_ids out)
  /\ created_ids out
     ≡ₚ destroyed_ids out
        ++ held_ids (ModifiersOSDManager._osdWindows (_osdManager (this (fst r)))).
Proof.
  cbv zeta. pose proof (run_accounted h stimuli) as Hacc. cbv zeta in Hacc.
  destruct (accounted_permutation _ _ _ Hacc) as [Hc Hperm].
  split; [exact Hc |]. split; [apply Hacc | exact Hperm].
Qed.

(** X6: from [enable()] over any stimuli to the end of [disable()], every
    OSD object that was created is destroyed exactly once, and nothing
    else is destroyed; the OSD manager ends with an empty array. *)
Theorem disable_destroys_every_osd_once (h : Host) (stimuli : list Stimulus) :
  let out := lifecycle_output h stimuli in
  let w := fst (run_output stimuli
                  (world_of (KeyboardModifiersStatusExtension.enable h))) in
  NoDup (created_ids out)
  /\ destroyed_ids out ≡ₚ created_ids out
  /\ ModifiersOSDManager._osdWindows (_osdManager (this (fst (Teardown.disable w))))
     = [].
Proof.
  cbv zeta. pose proof (run_accounted h stimuli) as Hacc. cbv zeta in Hacc.
  destruct (accounted_permutation _ _ _ Hacc) as [Hnd Hperm].
  unfold lifecycle_output.
  destruct (run_output stimuli (world_of (KeyboardModifiersStatusExtension.enable h)))
    as [w out].
  cbn [fst snd] in *.
  unfold Teardown.disable, Teardown.ModifiersOSDManager_destroy. cbn [fst snd].
  rewrite !app_assoc, created_ids_app, destroyed_ids_app.
  rewrite created_ids_destroy_all, destroyed_ids_destroy_all, app_nil_r.
  split; [exact Hnd |]. split; [now symmetry | reflexivity].
Qed.

(** * The hide timeout of an OSD *)

Lemma clearHideTimeout_clears (st : OSDActor.State) :
  OSDActor.one_timeout st ->
  let st' := OSDActor._clearHideTimeout st in
  OSDActor._hideTimeoutId (fst st') = 0%nat
  /\ OSDActor.sources (snd st') = ∅
  /\ OSDActor.next_source (snd st') = OSDActor.next_source (snd st)
  /\ OSDActor.unredirect_disabled (snd st') = OSDActor.unredirect_disabled (snd st)
  /\ OSDActor.has_unredirect (snd st') = OSDActor.has_unredirect (snd st)
  /\ OSDActor.with_timeout 0 (fst st') = OSDActor.with_timeout 0 (fst st).
Proof.
  destruct st as [osd sh]. intros (Hpos & Hlt & Hsrc). cbn [fst snd] in *.
  unfold OSDActor._clearHideTimeout.
  destruct (decide (OSDActor._hideTimeoutId osd = 0%nat)) as [Hz|Hnz]; cbn.
  - repeat split; [exact Hz | exact Hsrc].
  - repeat split. rewrite Hsrc.
    destruct (decide (OSDActor._hideTimeoutId osd = 0%nat)); [contradiction |].
    apply difference_diag_L.
Qed.

Lemma scheduleHide_one_timeout (st : OSDActor.State) :
  OSDActor.one_timeout st ->
  let st' := OSDActor._scheduleHide st in
  OSDActor.one_timeout st'
  /\ OSDActor._hideTimeoutId (fst st') = OSDActor.next_source (snd st)
  /\ OSDActor.sources (snd st') = {[ OSDActor.next_source (snd st) ]}
  /\ OSDActor.unredirect_disabled (snd st') = OSDActor.unredirect_disabled (snd st)
  /\ OSDActor.with_timeout 0 (fst st') = OSDActor.with_timeout 0 (fst st).
Proof.
  intros Hinv. pose proof (clearHideTimeout_clears st Hinv) as Hclear.
  destruct Hinv as (Hpos & _). cbv zeta in *.
  unfold OSDActor._scheduleHide.
  destruct (OSDActor._clearHideTimeout st) as [osd1 sh1].
  cbn [fst snd] in *. destruct Hclear as (_ & Hsrc & Hnext & Hun & _ & Hosd).
  unfold OSDActor.timeout_add, OSDActor.one_timeout. cbn [fst snd
    OSDActor.next_source OSDActor.sources OSDActor._hideTimeoutId
    OSDActor.with_timeout OSDActor.unredirect_disabled].
  rewrite Hsrc, Hnext.
  destruct (decide (OSDActor.next_source (snd st) = 0%nat)); [lia |].
  repeat split; try lia; try assumption; apply union_empty_r_L.
Qed.

Lemma unredirect_sources (delta : Z) (sh : OSDActor.Shell) :
  OSDActor.sources (OSDActor.unredirect delta sh) = OSDActor.sources sh
  /\ OSDActor.next_source (OSDActor.unredirect delta sh) = OSDActor.next_source sh.
Proof. unfold OSDActor.unredirect. now destruct (OSDActor.has_unredirect sh). Qed.

(** Every call and every callback keeps the invariant. *)
Lemma step_one_timeout (st : OSDActor.State) (c : OSDActor.Call) :
  OSDActor.one_timeout st -> OSDActor.one_timeout (OSDActor.step st c).
Proof.
  intros Hinv. destruct c as [title status | | id |]; cbn [OSDActor.step].
  - destruct st as [osd sh]. unfold OSDActor.show.
    apply scheduleHide_one_timeout.
    destruct Hinv as (Hpos & Hlt & Hsrc). cbn [fst snd] in *.
    destruct (OSDActor.visible osd); cbn.
    + repeat split; assumption.
    + destruct (unredirect_sources 1 sh) as [Hs Hn].
      unfold OSDActor.one_timeout. cbn [fst snd OSDActor._hideTimeoutId].
      rewrite Hs, Hn. repeat split; assumption.
  - unfold OSDActor.cancel.
    destruct (decide (OSDActor._hideTimeoutId (fst st) = 0%nat)); [exact Hinv |].
    pose proof (clearHideTimeout_clears st Hinv) as Hclear. cbv zeta in Hclear.
    destruct Hinv as (Hpos & _).
    destruct (OSDActor._clearHideTimeout st) as [osd1 sh1].
    cbn [fst snd] in *. destruct Hclear as (_ & Hsrc & Hnext & _).
    unfold OSDActor.one_timeout. cbn. rewrite Hsrc, Hnext.
    repeat split; lia.
  - unfold OSDActor.timeout_fires.
    destruct (decide (id ∈ OSDActor.sources (snd st))) as [Hin|]; [| exact Hinv].
    destruct st as [osd sh]. destruct Hinv as (Hpos & Hlt & Hsrc).
    cbn [fst snd] in *. unfold OSDActor.one_timeout. cbn.
    rewrite Hsrc in *.
    destruct (decide (OSDActor._hideTimeoutId osd = 0%nat));
      [now apply not_elem_of_empty in Hin |].
    apply elem_of_singleton in Hin. subst id.
    repeat split; [lia | lia | apply difference_diag_L].
  - destruct st as [osd sh]. unfold OSDActor.fade_out_complete.
    destruct (OSDActor.fades_out osd) as [|n]; [exact Hinv |].
    destruct Hinv as (Hpos & Hlt & Hsrc). cbn [fst snd] in *.
    destruct (unredirect_sources (-1) sh) as [Hs Hn].
    unfold OSDActor.one_timeout. cbn [fst snd OSDActor._hideTimeoutId OSDActor._reset].
    rewrite Hs, Hn. repeat split; assumption.
Qed.

Lemma run_one_timeout (calls : list OSDActor.Call) (st : OSDActor.State) :
  OSDActor.one_timeout st -> OSDActor.one_timeout (fold_left OSDActor.step calls st).
Proof.
  revert st. induction calls as [|c calls IH]; intros st Hinv; [exact Hinv |].
  cbn [fold_left]. apply IH. now apply step_one_timeout.
Qed.

Lemma new_one_timeout (api : bool) : OSDActor.one_timeout (OSDActor.new api).
Proof. unfold OSDActor.one_timeout. cbn. repeat split; lia. Qed.

(** X9: whatever is called on an OSD and whichever callbacks run, the OSD has
    at most one GLib source armed, and it is the one [_hideTimeoutId]
    names; [destroy()] leaves none armed. *)
Theorem hide_timeout_never_leaks (api : bool) (calls : list OSDActor.Call) :
  let st := fold_left OSDActor.step calls (OSDActor.new api) in
  OSDActor.sources (snd st)
  = (if decide (OSDActor._hideTimeoutId (fst st) = 0%nat) then ∅
     else {[ OSDActor._hideTimeoutId (fst st) ]})
  /\ OSDActor.sources (snd (OSDActor.destroy st)) = ∅.
Proof.
  cbv zeta.
  pose proof (run_one_timeout calls _ (new_one_timeout api)) as Hinv.
  split; [apply Hinv |].
  pose proof (clearHideTimeout_clears _ Hinv) as Hclear. cbv zeta in Hclear.
  unfold OSDActor.destroy.
  destruct (OSDActor._clearHideTimeout _) as [osd1 sh1].
  cbn [fst snd] in *. apply Hclear.
Qed.

(** X10: the extension-level [ModifiersOSD.show] is what the detailed [show]
    does to the labels, the visibility and the presence of a hide
    timeout, and a new OSD starts the same in both. *)
Theorem detailed_show_matches_model (st : OSDActor.State) (h : Host)
    (id monitorIndex : nat) (title status : string) :
  OSDActor.one_timeout st ->
  osd_show_throws h monitorIndex = false ->
  ModifiersOSD.show h title status (OSDActor.abstract id monitorIndex (fst st))
  = Normal (OSDActor.abstract id monitorIndex (fst (OSDActor.show title status st)))
  /\ OSDActor.abstract id monitorIndex (fst (OSDActor.new true))
     = ModifiersOSD._init id monitorIndex.
Proof.
  intros Hinv Hok. split; [| reflexivity].
  unfold ModifiersOSD.show. cbn [OSDActor.abstract ModifiersOSD._monitorIndex].
  rewrite Hok. f_equal.
  destruct st as [osd sh]. unfold OSDActor.show.
  match goal with |- context [ OSDActor._scheduleHide ?s ] => set (st2 := s) end.
  assert (Hinv2 : OSDActor.one_timeout st2).
  { subst st2. destruct Hinv as (Hpos & Hlt & Hsrc). cbn [fst snd] in *.
    destruct (OSDActor.visible osd); cbn.
    - repeat split; assumption.
    - destruct (unredirect_sources 1 sh) as [Hs Hn].
      unfold OSDActor.one_timeout. cbn [fst snd OSDActor._hideTimeoutId].
      rewrite Hs, Hn. repeat split; assumption. }
  assert (Hvis : OSDActor.visible (fst st2) = true
                 /\ OSDActor.titleText (fst st2) = title
                 /\ OSDActor.statusText (fst st2) = status).
  { subst st2. cbn. destruct (OSDActor.visible osd) eqn:E; cbn; auto. }
  destruct (scheduleHide_one_timeout st2 Hinv2) as (_ & Hid & _ & _ & Hosd).
  destruct Hinv2 as (Hpos & _).
  destruct (OSDActor._scheduleHide st2) as [osd3 sh3]. cbn [fst snd] in *.
  destruct Hvis as (Hv & Ht & Hs).
  apply (f_equal OSDActor.titleText) in Hosd as Ht'.
  apply (f_equal OSDActor.statusText) in Hosd as Hs'.
  apply (f_equal OSDActor.visible) in Hosd as Hv'.
  cbn in Ht', Hs', Hv'.
  unfold OSDActor.abstract. cbn [ModifiersOSD.osd_id ModifiersOSD._monitorIndex].
  rewrite Ht', Hs', Hv', Ht, Hs, Hv, Hid.
  rewrite bool_decide_eq_true_2 by lia. reflexivity.
Qed.

Lemma detailed_show_matches_model_witness :
  ModifiersOSD.show two_monitor_host "On" "Caps"
    (OSDActor.abstract 0 0 (fst (OSDActor.new true)))
  = Normal (OSDActor.abstract 0 0
              (fst (OSDActor.show "On" "Caps" (OSDActor.new true)))).
Proof.
  exact (proj1 (detailed_show_matches_model (OSDActor.new true) two_monitor_host
                  0 0 "On" "Caps" (new_one_timeout true) eq_refl)).
Defined.

(** [show] on a hidden OSD: the texts are set, the actor is shown with
    unredirection disabled, and the one armed source is a fresh one. *)
Lemma show_on_hidden (st : OSDActor.State) (title status : string) :
  OSDActor.one_timeout st ->
  OSDActor.visible (fst st) = false ->
  fst (OSDActor.show title status st)
  = {| OSDActor.titleText := title; OSDActor.statusText := status;
       OSDActor.visible := true;
       OSDActor._hideTimeoutId := OSDActor.next_source (snd st);
       OSDActor.fades_out := OSDActor.fades_out (fst st);
       OSDActor.destroyed := OSDActor.destroyed (fst st) |}
  /\ snd (OSDActor.show title status st)
     = {| OSDActor.sources := {[ OSDActor.next_source (snd st) ]};
          OSDActor.next_source := S (OSDActor.next_source (snd st));
          OSDActor.unredirect_disabled :=
            (if OSDActor.has_unredirect (snd st)
             then OSDActor.unredirect_disabled (snd st) + 1
             else OSDActor.unredirect_disabled (snd st));
          OSDActor.has_unredirect := OSDActor.has_unredirect (snd st) |}.
Proof.
  destruct st as [[t0 s0 v0 id0 f0 d0] [src next ud api]].
  intros (Hpos & Hlt & Hsrc) Hvis.
  cbn [fst snd OSDActor.visible OSDActor._hideTimeoutId OSDActor.sources
       OSDActor.next_source OSDActor.fades_out OSDActor.destroyed
       OSDActor.unredirect_disabled OSDActor.has_unredirect] in *.
  subst v0 src.
  unfold OSDActor.show, OSDActor._showWithAnimation, OSDActor._scheduleHide,
    OSDActor._clearHideTimeout, OSDActor.unredirect, OSDActor.timeout_add,
    OSDActor.source_remove, OSDActor.with_timeout.
  cbn [OSDActor.visible OSDActor.has_unredirect].
  destruct api; cbn [OSDActor._hideTimeoutId];
    destruct (decide (id0 = 0%nat));
    cbn [fst snd OSDActor.titleText OSDActor.statusText OSDActor.visible
         OSDActor._hideTimeoutId OSDActor.fades_out OSDActor.destroyed
         OSDActor.sources OSDActor.next_source OSDActor.unredirect_disabled
         OSDActor.has_unredirect];
    rewrite ?difference_diag_L, union_empty_r_L; split; reflexivity.
Qed.

(** X11: an OSD is transient: shown on a hidden OSD, a notification is
    visible with its texts and one hide timeout; once that timeout has
    fired, or [cancel()] was called, and the fade-out has completed, the
    OSD is hidden with empty labels, no source is armed and unredirection
    is back where it was. *)
Theorem osd_hides_again_after_show (st : OSDActor.State) (title status : string) :
  OSDActor.one_timeout st ->
  OSDActor.visible (fst st) = false ->
  OSDActor.fades_out (fst st) = 0%nat ->
  let shown := OSDActor.show title status st in
  let hidden_state (ended : OSDActor.State) :=
    OSDActor.titleText (fst ended) = ""
    /\ OSDActor.statusText (fst ended) = ""
    /\ OSDActor.visible (fst ended) = false
    /\ OSDActor._hideTimeoutId (fst ended) = 0%nat
    /\ OSDActor.fades_out (fst ended) = 0%nat
    /\ OSDActor.sources (snd ended) = ∅
    /\ OSDActor.unredirect_disabled (snd ended)
       = OSDActor.unredirect_disabled (snd st) in
  OSDActor.titleText (fst shown) = title
  /\ OSDActor.statusText (fst shown) = status
  /\ OSDActor.visible (fst shown) = true
  /\ OSDActor.sources (snd shown) = {[ OSDActor._hideTimeoutId (fst shown) ]}
  /\ hidden_state
       (OSDActor.fade_out_complete
          (OSDActor.timeout_fires (OSDActor._hideTimeoutId (fst shown)) shown))
  /\ hidden_state (OSDActor.fade_out_complete (OSDActor.cancel shown)).
Proof.
  intros Hinv Hvis Hfades. cbv zeta.
  destruct (show_on_hidden st title status Hinv Hvis) as (Hosd & Hsh).
  destruct Hinv as (Hpos & _).
  destruct (OSDActor.show title status st) as [osd1 sh1].
  cbn [fst snd] in *. subst osd1 sh1.
  destruct st as [[t0 s0 v0 id0 f0 d0] [src next ud api]].
  cbn [fst snd OSDActor.titleText OSDActor.statusText OSDActor.visible
       OSDActor._hideTimeoutId OSDActor.fades_out OSDActor.destroyed
       OSDActor.sources OSDActor.next_source OSDActor.unredirect_disabled
       OSDActor.has_unredirect] in *.
  subst v0 f0.
  split; [reflexivity |]. split; [reflexivity |]. split; [reflexivity |].
  split; [reflexivity |].
  unfold OSDActor.timeout_fires, OSDActor.cancel, OSDActor._clearHideTimeout.
  cbn [fst snd OSDActor._hideTimeoutId OSDActor.sources].
  rewrite (decide_True (P := next ∈ ({[next]} : gset nat)))
    by (apply elem_of_singleton; reflexivity).
  destruct (decide (next = 0%nat)) as [|_]; [lia |].
  unfold OSDActor._hide, OSDActor.fade_out_complete, OSDActor.source_remove,
    OSDActor.unredirect, OSDActor._reset, OSDActor.with_timeout.
  cbn [fst snd OSDActor.titleText OSDActor.statusText OSDActor.visible
       OSDActor._hideTimeoutId OSDActor.fades_out OSDActor.destroyed
       OSDActor.sources OSDActor.next_source OSDActor.unredirect_disabled
       OSDActor.has_unredirect].
  destruct api;
    cbn [fst snd OSDActor.titleText OSDActor.statusText OSDActor.visible
         OSDActor._hideTimeoutId OSDActor.fades_out OSDActor.destroyed
         OSDActor.sources OSDActor.next_source OSDActor.unredirect_disabled
         OSDActor.has_unredirect];
    repeat split; try apply difference_diag_L; lia.
Qed.

Lemma osd_hides_again_after_show_witness :
  OSDActor.visible (fst (OSDActor.show "On" "Caps" (OSDActor.new true))) = true
  /\ OSDActor.sources
       (snd (OSDActor.fade_out_complete
               (OSDActor.cancel (OSDActor.show "On" "Caps" (OSDActor.new true)))))
     = ∅.
Proof.
  pose proof (osd_hides_again_after_show (OSDActor.new true) "On" "Caps"
                (new_one_timeout true) eq_refl eq_refl) as H.
  cbv zeta in H.
  destruct H as (_ & _ & Hv & _ & _ & (_ & _ & _ & _ & _ & Hs & _)).
  exact (conj Hv Hs).
Defined.

(** X12: a second [show] while the OSD is visible replaces the texts and
    re-arms the hide timeout: the first source is removed and can no
    longer fire, one fresh source is armed, and unredirection is not
    disabled a second time. *)
Theorem second_show_rearms_timeout (st : OSDActor.State)
    (title1 status1 title2 status2 : string) :
  OSDActor.one_timeout st ->
  OSDActor.visible (fst st) = false ->
  let first := OSDActor.show title1 status1 st in
  let second := OSDActor.show title2 status2 first in
  OSDActor.titleText (fst second) = title2
  /\ OSDActor.statusText (fst second) = status2
  /\ OSDActor.visible (fst second) = true
  /\ OSDActor._hideTimeoutId (fst second) <> OSDActor._hideTimeoutId (fst first)
  /\ OSDActor.sources (snd second) = {[ OSDActor._hideTimeoutId (fst second) ]}
  /\ OSDActor.unredirect_disabled (snd second)
     = OSDActor.unredirect_disabled (snd first)
  /\ OSDActor.timeout_fires (OSDActor._hideTimeoutId (fst first)) second = second.
Proof.
  intros Hinv Hvis. cbv zeta.
  destruct (show_on_hidden st title1 status1 Hinv Hvis) as (Hosd & Hsh).
  destruct Hinv as (Hpos & _).
  destruct (OSDActor.show title1 status1 st) as [osd1 sh1].
  cbn [fst snd] in *. subst osd1 sh1.
  destruct st as [[t0 s0 v0 id0 f0 d0] [src next ud api]].
  cbn [fst snd OSDActor.visible OSDActor._hideTimeoutId OSDActor.fades_out
       OSDActor.destroyed OSDActor.sources OSDActor.next_source
       OSDActor.unredirect_disabled OSDActor.has_unredirect] in *.
  unfold OSDActor.show, OSDActor._scheduleHide, OSDActor._clearHideTimeout,
    OSDActor.timeout_add, OSDActor.source_remove, OSDActor.with_timeout.
  cbn [OSDActor.visible OSDActor._hideTimeoutId].
  destruct (decide (next = 0%nat)) as [|_]; [lia |].
  cbn [fst snd OSDActor.titleText OSDActor.statusText OSDActor.visible
       OSDActor._hideTimeoutId OSDActor.fades_out OSDActor.destroyed
       OSDActor.sources OSDActor.next_source OSDActor.unredirect_disabled
       OSDActor.has_unredirect].
  rewrite difference_diag_L, union_empty_r_L.
  repeat split; [lia |].
  unfold OSDActor.timeout_fires. cbn [fst snd OSDActor.sources].
  rewrite decide_False; [reflexivity |].
  intros Hin. apply elem_of_singleton in Hin. lia.
Qed.

Lemma second_show_rearms_timeout_witness :
  OSDActor.titleText
    (fst (OSDActor.show "Off" "Num"
            (OSDActor.show "On" "Caps" (OSDActor.new true)))) = "Off"
  /\ OSDActor.sources
       (snd (OSDActor.show "Off" "Num"
               (OSDActor.show "On" "Caps" (OSDActor.new true))))
     = {[ OSDActor._hideTimeoutId
            (fst (OSDActor.show "Off" "Num"
                    (OSDActor.show "On" "Caps" (OSDActor.new true)))) ]}.
Proof.
  pose proof (second_show_rearms_timeout (OSDActor.new true)
                "On" "Caps" "Off" "Num" (new_one_timeout true) eq_refl) as H.
  cbv zeta in H. destruct H as (Ht & _ & _ & _ & Hs & _).
  exact (conj Ht Hs).
Defined.

(** * Further properties of the preferences window *)

(** ** Comparing symbol dictionaries *)

Lemma symbolsEqual_true (obj1 obj2 : gmap string string) :
  PrefsSettingsManager.symbolsEqual obj1 obj2 = true <->
  size obj1 = size obj2
  /\ forall key v, obj1 !! key = Some v ->
       JSObject.or_empty (JSObject.get obj2 key) = JSObject.Str v.
Proof.
  unfold PrefsSettingsManager.symbolsEqual.
  destruct (bool_decide (size obj1 = size obj2)) eqn:Hsize.
  - apply bool_decide_eq_true in Hsize. rewrite forallb_forall. split.
    + intros Hall. split; [exact Hsize |]. intros key v Hlook.
      assert (Hin : In key (map_to_list obj1).*1).
      { apply list_elem_of_In, list_elem_of_fmap. exists (key, v).
        split; [reflexivity | now apply elem_of_map_to_list]. }
      specialize (Hall key Hin). apply bool_decide_eq_true in Hall.
      unfold JSObject.get at 1 in Hall. rewrite Hlook in Hall.
      cbn [JSObject.or_empty] in Hall. now symmetry.
    + intros [_ Hall] key Hin. apply bool_decide_eq_true.
      apply list_elem_of_In, list_elem_of_fmap in Hin.
      destruct Hin as ([k v] & -> & Hin). apply elem_of_map_to_list in Hin.
      cbn [fst]. unfold JSObject.get at 1. rewrite Hin.
      cbn [JSObject.or_empty]. symmetry. now apply Hall.
  - apply bool_decide_eq_false in Hsize. split; [discriminate |].
    intros [Hs _]. contradiction.
Qed.

Lemma get_own (obj : gmap string string) (key v : string) :
  obj !! key = Some v -> JSObject.or_empty (JSObject.get obj key) = JSObject.Str v.
Proof.
  intros Hlook. unfold JSObject.get. now rewrite Hlook.
Qed.

(** X13: [symbolsEqual] decides equality of two dictionaries when the first
    has no empty value: then it is true exactly when they are equal.  It
    is true of every dictionary and itself. *)
Theorem symbolsEqual_is_equality_without_empty_values (obj1 obj2 : gmap string string) :
  (forall key, obj1 !! key <> Some "") ->
  (PrefsSettingsManager.symbolsEqual obj1 obj2 = true <-> obj1 = obj2)
  /\ PrefsSettingsManager.symbolsEqual obj2 obj2 = true.
Proof.
  intros Hnonempty. split.
  - rewrite symbolsEqual_true. split.
    + intros [Hsize Hall].
      assert (Hsub : obj1 ⊆ obj2).
      { apply map_subseteq_spec. intros key v Hlook.
        specialize (Hall key v Hlook). unfold JSObject.get in Hall.
        destruct (obj2 !! key) as [v2|] eqn:E.
        - cbn in Hall. congruence.
        - destruct (bool_decide (key ∈ JSObject.prototype_members));
            cbn in Hall; [discriminate |].
          injection Hall as <-. now apply Hnonempty in Hlook. }
      apply map_subseteq_size_eq; [exact Hsub | lia].
    + intros <-. split; [reflexivity |]. intros key v. apply get_own.
  - apply symbolsEqual_true. split; [reflexivity |]. intros key v. apply get_own.
Qed.

Lemma symbolsEqual_is_equality_without_empty_values_witness :
  PrefsSettingsManager.symbolsEqual preset_but_shift documented_defaults = true
  <-> preset_but_shift = documented_defaults.
Proof.
  refine (proj1 (symbolsEqual_is_equality_without_empty_values
                   preset_but_shift documented_defaults _)).
  intros key. vm_compute.
  repeat (match goal with
          | |- context [match ?x with _ => _ end] => destruct x
          end); discriminate.
Defined.

(** X14: [symbolsEqual] takes an empty value for a missing key: two
    dictionaries that differ only in which new key carries the empty
    string are reported equal, provided the key the second one lacks is
    not the name of a member of [Object.prototype] (a read of such a key
    finds the inherited member, not [undefined]). *)
Theorem symbolsEqual_confuses_empty_with_missing (obj : gmap string string)
    (k k' : string) :
  obj !! k = None -> obj !! k' = None -> k <> k' ->
  k ∉ JSObject.prototype_members ->
  PrefsSettingsManager.symbolsEqual (<[k := ""]> obj) (<[k' := ""]> obj) = true
  /\ <[k := ""]> obj <> <[k' := ""]> obj.
Proof.
  intros Hk Hk' Hne Hproto. split.
  - apply symbolsEqual_true. split.
    + now rewrite !map_size_insert_None.
    + intros key v. destruct (decide (key = k)) as [->|Hkey].
      * rewrite lookup_insert_eq. intros [= <-]. unfold JSObject.get.
        rewrite lookup_insert_ne by congruence. rewrite Hk.
        now rewrite bool_decide_eq_false_2 by exact Hproto.
      * rewrite lookup_insert_ne by congruence. intros Hlook.
        apply get_own. now rewrite lookup_insert_ne by congruence.
  - intros Heq. apply (f_equal (fun m => m !! k)) in Heq.
    rewrite lookup_insert_eq, lookup_insert_ne in Heq by congruence. congruence.
Qed.

Lemma symbolsEqual_confuses_empty_with_missing_witness :
  PrefsSettingsManager.symbolsEqual
    (<["hyper-symbol" := ""]> documented_defaults)
    (<["meta-symbol" := ""]> documented_defaults) = true.
Proof.
  refine (proj1 (symbolsEqual_confuses_empty_with_missing documented_defaults
                   "hyper-symbol" "meta-symbol" _ _ _ _));
    [reflexivity | reflexivity | discriminate |].
  intros Hin. vm_compute in Hin.
  repeat (apply elem_of_cons in Hin; destruct Hin as [Hin|Hin]; [discriminate |]).
  now apply elem_of_nil in Hin.
Defined.

(** A key named like a member of [Object.prototype] is not taken for
    missing: the inherited member is no string. *)
Lemma symbolsEqual_reads_inherited_members :
  PrefsSettingsManager.symbolsEqual
    (<["toString" := ""]> documented_defaults)
    (<["meta-symbol" := ""]> documented_defaults) = false.
Proof.
  vm_compute. reflexivity.
Qed.

(** ** Save, Reset, typing and outside writes *)

Lemma save_keys_spec (texts : string -> string) (keys : list string) :
  forall w : Prefs.Window,
    let w1 := fold_left (Prefs.save_key texts) keys w in
    Prefs.entries w1 = Prefs.entries w
    /\ Prefs.stored_saved_symbols w1 = Prefs.stored_saved_symbols w
    /\ Prefs.resetButton_sensitive w1 = Prefs.resetButton_sensitive w
    /\ Prefs.saveButton_sensitive w1 = Prefs.saveButton_sensitive w
    /\ forall key,
         (key ∈ keys ->
          Prefs.stored w1 key = texts key
          /\ Prefs.currentSymbols w1 !! key = Some (texts key)
          /\ Prefs.savedSymbols w1 !! key = Some (texts key))
         /\ (key ∉ keys ->
             Prefs.stored w1 key = Prefs.stored w key
             /\ Prefs.currentSymbols w1 !! key = Prefs.currentSymbols w !! key
             /\ Prefs.savedSymbols w1 !! key = Prefs.savedSymbols w !! key).
Proof.
  induction keys as [|k keys IH]; intros w; cbv zeta.
  - cbn [fold_left]. do 4 (split; [reflexivity |]). intros key. split.
    + intros Hin. now apply elem_of_nil in Hin.
    + intros _. repeat split.
  - cbn [fold_left].
    destruct (IH (Prefs.save_key texts w k)) as (He & Hss & Hr & Hs & Hkeys).
    cbv zeta in *. rewrite He, Hss, Hr, Hs.
    do 4 (split; [reflexivity |]). intros key. split.
    + intros Hin. destruct (decide (key ∈ keys)) as [Hrest|Hrest].
      * now apply Hkeys.
      * assert (key = k) as -> by (apply elem_of_cons in Hin; tauto).
        destruct (proj2 (Hkeys k) Hrest) as (H1 & H2 & H3).
        rewrite H1, H2, H3. unfold Prefs.save_key. cbn.
        rewrite bool_decide_eq_true_2 by reflexivity.
        now rewrite !lookup_insert_eq.
    + intros Hnot. apply not_elem_of_cons in Hnot. destruct Hnot as [Hne Hrest].
      destruct (proj2 (Hkeys key) Hrest) as (H1 & H2 & H3).
      rewrite H1, H2, H3. unfold Prefs.save_key. cbn.
      rewrite bool_decide_eq_false_2 by exact Hne.
      now rewrite !lookup_insert_ne by congruence.
Qed.

Lemma every_from_true {A} (f : A -> nat -> bool) (l : list A) (i : nat) :
  Prefs.every_from i f l = true <->
  forall j x, l !! j = Some x -> f x (i + j)%nat = true.
Proof.
  split.
  - intros Ht j x Hl. destruct (f x (i + j)%nat) eqn:E; [reflexivity |].
    assert (Prefs.every_from i f l = false) by (apply every_from_false; eauto).
    congruence.
  - intros Hall. destruct (Prefs.every_from i f l) eqn:E; [reflexivity |].
    apply every_from_false in E. destruct E as (j & x & Hl & Hf).
    rewrite (Hall j x Hl) in Hf. discriminate.
Qed.

(** X15: after a click on Save, every key of the group has the text of its
    entry as its stored value, as its current symbol and as its saved
    symbol, the other keys are untouched, ['saved-symbols'] holds the
    saved symbols, the entries are as they were, the Save button is
    insensitive and [currentDiffersFromSaved] answers false. *)
Theorem save_stores_every_entry (sm : Prefs.SimpleManager) (w : Prefs.Window) :
  let w' := Prefs.handle sm Prefs.SaveClicked w in
  (forall key, key ∈ Prefs.keys sm ->
     Prefs.stored w' key = Prefs.getEntryText key w
     /\ Prefs.currentSymbols w' !! key = Some (Prefs.getEntryText key w)
     /\ Prefs.savedSymbols w' !! key = Some (Prefs.getEntryText key w))
  /\ (forall key, key ∉ Prefs.keys sm ->
        Prefs.stored w' key = Prefs.stored w key
        /\ Prefs.currentSymbols w' !! key = Prefs.currentSymbols w !! key
        /\ Prefs.savedSymbols w' !! key = Prefs.savedSymbols w !! key)
  /\ Prefs.stored_saved_symbols w' = Prefs.savedSymbols w'
  /\ Prefs.entries w' = Prefs.entries w
  /\ Prefs.saveButton_sensitive w' = false
  /\ PrefsSettingsManager.currentDiffersFromSaved (Prefs.keys sm) w' = false.
Proof.
  cbv zeta. cbn [Prefs.handle].
  unfold Prefs._updateButtonStates, Prefs.saveCurrentAsPreset.
  destruct (save_keys_spec (fun key => Prefs.getEntryText key w) (Prefs.keys sm) w)
    as (He & _ & _ & _ & Hkeys).
  cbv zeta in *.
  set (w1 := fold_left (Prefs.save_key (fun key => Prefs.getEntryText key w))
               (Prefs.keys sm) w) in *.
  cbn [Prefs.stored Prefs.currentSymbols Prefs.savedSymbols
       Prefs.stored_saved_symbols Prefs.entries Prefs.saveButton_sensitive].
  split; [intros key Hin; now apply Hkeys |].
  split; [intros key Hin; now apply Hkeys |].
  split; [reflexivity |]. split; [exact He |]. split.
  - apply negb_false_iff. unfold Prefs.isCurrentEqualToSaved.
    apply every_from_true. intros j key Hl. apply bool_decide_eq_true.
    unfold Prefs.getEntryText.
    cbn [Prefs.entries Prefs.currentSymbols]. rewrite He.
    apply (Hkeys key). eapply list_elem_of_lookup_2, Hl.
  - unfold PrefsSettingsManager.currentDiffersFromSaved.
    apply not_true_is_false. intros Hex. apply existsb_exists in Hex.
    destruct Hex as (key & Hin & Hdiff). apply negb_true_iff in Hdiff.
    apply bool_decide_eq_false in Hdiff. apply Hdiff.
    cbn [Prefs.currentSymbols Prefs.savedSymbols].
    apply list_elem_of_In in Hin. unfold JSObject.get.
    destruct (proj1 (Hkeys key) Hin) as (_ & -> & ->). reflexivity.
Qed.

Lemma updateEntry_spec (key value : string) (w : Prefs.Window) :
  same_settings w (Prefs.updateEntry key value w)
  /\ Prefs.entries (Prefs.updateEntry key value w)
     = match Prefs.entries w !! key with
       | Some _ => <[key := value]> (Prefs.entries w)
       | None => Prefs.entries w
       end.
Proof.
  unfold Prefs.updateEntry.
  destruct (Prefs.entries w !! key) as [text|] eqn:E; [| repeat split].
  destruct (bool_decide (text = value)) eqn:D.
  - apply bool_decide_eq_true in D. subst text.
    split; [repeat split |]. symmetry. now apply insert_id.
  - repeat split.
Qed.

Lemma applyDefaults_from_spec (defaults : list string) (keys : list string) :
  forall (i : nat) (w : Prefs.Window),
    NoDup keys ->
    let w' := Prefs.applyDefaults_from i defaults keys w in
    same_settings w w'
    /\ forall key,
         (forall j d, keys !! j = Some key -> defaults !! (i + j)%nat = Some d ->
                      is_Some (Prefs.entries w !! key) ->
                      Prefs.entries w' !! key = Some d)
         /\ (key ∉ keys -> Prefs.entries w' !! key = Prefs.entries w !! key)
         /\ (Prefs.entries w !! key = None -> Prefs.entries w' !! key = None).
Proof.
  induction keys as [|k keys IH]; intros i w Hnd; cbv zeta.
  - cbn. split; [repeat split |]. intros key. split; [| split].
    + intros j d Hj. now rewrite lookup_nil in Hj.
    + reflexivity.
    + auto.
  - apply NoDup_cons in Hnd. destruct Hnd as [Hk Hnd].
    cbn [Prefs.applyDefaults_from].
    set (w1 := match defaults !! i with
               | Some value => Prefs.updateEntry k value w
               | None => w
               end).
    assert (Hw1 : same_settings w w1
                  /\ (forall key, key <> k ->
                                  Prefs.entries w1 !! key = Prefs.entries w !! key)
                  /\ (forall d, defaults !! i = Some d ->
                                is_Some (Prefs.entries w !! k) ->
                                Prefs.entries w1 !! k = Some d)
                  /\ (forall key, Prefs.entries w !! key = None ->
                                  Prefs.entries w1 !! key = None)).
    { subst w1. destruct (defaults !! i) as [value|].
      - destruct (updateEntry_spec k value w) as [Hs He]. rewrite He.
        split; [exact Hs |]. split; [| split].
        + intros key Hne. destruct (Prefs.entries w !! k); [| reflexivity].
          now rewrite lookup_insert_ne by congruence.
        + intros d [= <-] [text Htext]. rewrite Htext. apply lookup_insert_eq.
        + intros key Hnone. destruct (Prefs.entries w !! k) eqn:E; [| exact Hnone].
          rewrite lookup_insert_ne; [exact Hnone | congruence].
      - split; [repeat split |]. split; [reflexivity |].
        split; [discriminate | auto]. }
    destruct Hw1 as (Hs1 & Hother & Hset & Hnone1).
    destruct (IH (S i) w1 Hnd) as (Hs & Hkeys). cbv zeta in Hs, Hkeys.
    split.
    { destruct Hs1 as (a1 & a2 & a3 & a4), Hs as (b1 & b2 & b3 & b4).
      repeat split; congruence. }
    intros key. destruct (Hkeys key) as (Hat & Hout & Hnone). split; [| split].
    + intros j d Hj Hd Hsome. destruct j as [|j].
      * cbn in Hj. inversion Hj. subst key.
        rewrite Nat.add_0_r in Hd. rewrite (Hout Hk). now apply Hset.
      * cbn in Hj. apply (Hat j d Hj).
        -- now rewrite Nat.add_succ_comm.
        -- rewrite Hother; [exact Hsome |].
           intros ->. apply Hk. eapply list_elem_of_lookup_2, Hj.
    + intros Hnot. apply not_elem_of_cons in Hnot. destruct Hnot as [Hne Hrest].
      rewrite (Hout Hrest). now apply Hother.
    + intros Hn. apply Hnone. now apply Hnone1.
Qed.

(** X16: a click on Reset puts the default value of its position into the
    entry of every key, creates no entry and writes no settings value;
    when every key has an entry the Reset button ends insensitive. *)
Theorem reset_fills_entries_with_defaults (sm : Prefs.SimpleManager)
    (w : Prefs.Window) :
  NoDup (Prefs.keys sm) ->
  length (Prefs.defaultValues sm) = length (Prefs.keys sm) ->
  let w' := Prefs.handle sm Prefs.ResetClicked w in
  same_settings w w'
  /\ (forall j key d,
        Prefs.keys sm !! j = Some key -> Prefs.defaultValues sm !! j = Some d ->
        is_Some (Prefs.entries w !! key) ->
        Prefs.entries w' !! key = Some d)
  /\ (forall key, Prefs.entries w !! key = None -> Prefs.entries w' !! key = None)
  /\ ((forall key, key ∈ Prefs.keys sm -> is_Some (Prefs.entries w !! key)) ->
      Prefs.resetButton_sensitive w' = false).
Proof.
  intros Hnd Hlen. cbv zeta. cbn [Prefs.handle].
  destruct (applyDefaults_from_spec (Prefs.defaultValues sm) (Prefs.keys sm) 0 w Hnd)
    as (Hs & Hkeys). cbv zeta in Hs, Hkeys.
  fold (Prefs.applyDefaults sm w) in Hs, Hkeys.
  unfold Prefs._updateButtonStates.
  cbn [Prefs.entries Prefs.resetButton_sensitive].
  split; [exact Hs |]. split; [| split].
  - intros j key d Hj Hd Hsome. now apply (proj1 (Hkeys key) j d).
  - intros key Hnone. now apply (Hkeys key).
  - intros Hall. apply negb_false_iff. unfold Prefs.isCurrentEqualToDefault.
    apply every_from_true. intros j key Hj. apply bool_decide_eq_true.
    cbn [Nat.add].
    destruct (Prefs.defaultValues sm !! j) as [d|] eqn:Hd.
    + unfold Prefs.getEntryText.
      rewrite (proj1 (Hkeys key) j d Hj Hd
                 (Hall key (list_elem_of_lookup_2 _ _ _ Hj))).
      reflexivity.
    + apply lookup_ge_None in Hd. apply lookup_lt_Some in Hj. lia.
Qed.

Lemma config_keys_nodup : NoDup Prefs.CONFIG_KEYS_modifiers.
Proof.
  unfold Prefs.CONFIG_KEYS_modifiers.
  repeat (apply NoDup_cons; split;
          [intros Hin; repeat (apply elem_of_cons in Hin; destruct Hin as [Hin|Hin];
                               [discriminate |]);
           now apply elem_of_nil in Hin |]).
  apply NoDup_nil_2.
Qed.

Lemma opened_window_has_entries (key : string) :
  key ∈ Prefs.CONFIG_KEYS_modifiers -> is_Some (Prefs.entries opened_window !! key).
Proof.
  intros Hin. unfold Prefs.CONFIG_KEYS_modifiers in Hin.
  repeat (apply elem_of_cons in Hin; destruct Hin as [->|Hin];
          [vm_compute; eexists; reflexivity |]).
  now apply elem_of_nil in Hin.
Qed.

Lemma reset_fills_entries_with_defaults_witness :
  Prefs.resetButton_sensitive
    (Prefs.handle Prefs.modifiers_manager Prefs.ResetClicked opened_window) = false.
Proof.
  exact (proj2 (proj2 (proj2
           (reset_fills_entries_with_defaults Prefs.modifiers_manager opened_window
              config_keys_nodup eq_refl)))
           opened_window_has_entries).
Defined.

Lemma applyDefaults_from_same_settings (defaults keys : list string) :
  forall (i : nat) (w : Prefs.Window),
    same_settings w (Prefs.applyDefaults_from i defaults keys w).
Proof.
  induction keys as [|k keys IH]; intros i w; [repeat split |].
  cbn [Prefs.applyDefaults_from].
  set (w1 := match defaults !! i with
             | Some value => Prefs.updateEntry k value w
             | None => w
             end).
  assert (H1 : same_settings w w1).
  { subst w1. destruct (defaults !! i); [apply updateEntry_spec | repeat split]. }
  destruct H1 as (a1 & a2 & a3 & a4), (IH (S i) w1) as (b1 & b2 & b3 & b4).
  repeat split; congruence.
Qed.

(** X17: typing into an entry and clicking Reset change entry texts and
    button states only: no settings value is written, and the current
    and saved symbols the window keeps are untouched.  Only Save (and a
    write from outside) changes them. *)
Theorem editing_writes_no_settings (sm : Prefs.SimpleManager) (ev : Prefs.Event)
    (w : Prefs.Window) :
  is_edit ev = true -> same_settings w (Prefs.handle sm ev w).
Proof.
  intros Hedit. destruct ev as [key text | | | key newValue]; try discriminate;
    cbn [Prefs.handle].
  - destruct (Prefs.entries w !! key) as [old|]; [| repeat split].
    destruct (bool_decide (old = text)); repeat split.
  - destruct (applyDefaults_from_same_settings (Prefs.defaultValues sm)
                (Prefs.keys sm) 0 w) as (a1 & a2 & a3 & a4).
    unfold Prefs._updateButtonStates, Prefs.applyDefaults. repeat split; assumption.
Qed.

Lemma editing_writes_no_settings_witness :
  same_settings opened_window
    (Prefs.handle Prefs.modifiers_manager
       (Prefs.EntryEdited "caps-symbol" "CAPS") opened_window).
Proof.
  exact (editing_writes_no_settings Prefs.modifiers_manager
           (Prefs.EntryEdited "caps-symbol" "CAPS") opened_window eq_refl).
Defined.

Lemma getSymbolsFromSettings_acc (get : string -> string) (keys : list string) :
  forall (obj : gmap string string) (key : string),
    fold_left (fun obj key => <[key := get key]> obj) keys obj !! key
    = if decide (key ∈ keys) then Some (get key) else obj !! key.
Proof.
  induction keys as [|k keys IH]; intros obj key; cbn [fold_left].
  - destruct (decide (key ∈ [])) as [Hin|]; [now apply elem_of_nil in Hin | reflexivity].
  - rewrite IH. destruct (decide (key ∈ keys)) as [Hin|Hnot].
    + rewrite decide_True; [reflexivity | now apply list_elem_of_further].
    + destruct (decide (key = k)) as [->|Hne].
      * rewrite lookup_insert_eq.
        rewrite decide_True; [reflexivity | apply list_elem_of_here].
      * rewrite lookup_insert_ne by congruence.
        rewrite decide_False; [reflexivity |].
        intros Hin. apply elem_of_cons in Hin. tauto.
Qed.

(** [_getSymbolsFromSettings(keys)] holds the stored value of exactly
    the given keys. *)
Lemma getSymbolsFromSettings_lookup (get : string -> string) (keys : list string)
    (key : string) :
  Prefs._getSymbolsFromSettings get keys !! key
  = if decide (key ∈ keys) then Some (get key) else None.
Proof.
  unfold Prefs._getSymbolsFromSettings. rewrite getSymbolsFromSettings_acc.
  destruct (decide (key ∈ keys)); [reflexivity | apply lookup_empty].
Qed.

Lemma create_entries_spec (schema : Prefs.Schema) (keys : list string) :
  forall w : Prefs.Window,
    let w' := fold_left (Prefs.create_entry schema) keys w in
    same_settings w w'
    /\ Prefs.resetButton_sensitive w' = Prefs.resetButton_sensitive w
    /\ Prefs.saveButton_sensitive w' = Prefs.saveButton_sensitive w
    /\ forall key,
         Prefs.entries w' !! key
         = if decide (key ∈ keys /\ Prefs.has_key schema key = true)
           then Some (default "" (Prefs.currentSymbols w !! key))
           else Prefs.entries w !! key.
Proof.
  induction keys as [|k keys IH]; intros w; cbv zeta; cbn [fold_left].
  - split; [repeat split |]. do 2 (split; [reflexivity |]). intros key.
    rewrite decide_False; [reflexivity |].
    intros [Hin _]. now apply elem_of_nil in Hin.
  - destruct (IH (Prefs.create_entry schema w k)) as (Hs & Hr & Hsv & He).
    cbv zeta in *.
    assert (H1 : same_settings w (Prefs.create_entry schema w k)
                 /\ Prefs.resetButton_sensitive (Prefs.create_entry schema w k)
                    = Prefs.resetButton_sensitive w
                 /\ Prefs.saveButton_sensitive (Prefs.create_entry schema w k)
                    = Prefs.saveButton_sensitive w).
    { unfold Prefs.create_entry. destruct (Prefs.has_key schema k); repeat split. }
    destruct H1 as ((a1 & a2 & a3 & a4) & Hr1 & Hsv1).
    destruct Hs as (b1 & b2 & b3 & b4).
    split; [repeat split; congruence |].
    split; [congruence |]. split; [congruence |].
    intros key. rewrite He, a3.
    destruct (decide (key ∈ keys /\ Prefs.has_key schema key = true)) as [[Hin Hk]|Hnot].
    + rewrite decide_True; [reflexivity |].
      split; [now apply list_elem_of_further | exact Hk].
    + unfold Prefs.create_entry.
      destruct (decide (key = k)) as [->|Hne].
      * destruct (Prefs.has_key schema k) eqn:Hk.
        -- cbn [Prefs.entries Prefs.set_entries]. rewrite lookup_insert_eq.
           rewrite decide_True; [reflexivity |].
           split; [apply list_elem_of_here | reflexivity].
        -- rewrite decide_False; [reflexivity |]. intros [_ Hc]. discriminate.
      * assert (Hsame : Prefs.entries
                          (if Prefs.has_key schema k
                           then Prefs.set_entries
                                  (<[k := default "" (Prefs.currentSymbols w !! k)]>
                                     (Prefs.entries w)) w
                           else w) !! key
                        = Prefs.entries w !! key).
        { destruct (Prefs.has_key schema k); [| reflexivity].
          cbn [Prefs.entries Prefs.set_entries].
          now rewrite lookup_insert_ne by congruence. }
        rewrite Hsame. rewrite decide_False; [reflexivity |].
        intros [Hin Hk]. apply Hnot. split; [| exact Hk].
        apply elem_of_cons in Hin. tauto.
Qed.

(** X18: when the preferences window opens, every key the schema contains
    gets an entry showing its stored symbol, but the buttons were set
    before the entries existed: Reset is sensitive whatever is stored,
    and Save is sensitive whenever some stored symbol is not empty,
    although no entry differs from its stored symbol. *)
Theorem window_opens_with_buttons_set_before_entries (schema : Prefs.Schema)
    (get : string -> string) (saved : gmap string string) :
  let w := Prefs.fillPreferencesWindow schema get saved Prefs.modifiers_manager in
  Prefs.resetButton_sensitive w = true
  /\ (Prefs.saveButton_sensitive w = true <->
      exists key, key ∈ Prefs.CONFIG_KEYS_modifiers /\ get key <> "")
  /\ (forall key, key ∈ Prefs.CONFIG_KEYS_modifiers ->
        Prefs.has_key schema key = true ->
        Prefs.entries w !! key = Some (get key)
        /\ Prefs.currentSymbols w !! key = Some (get key))
  /\ (forall key, Prefs.has_key schema key = false -> Prefs.entries w !! key = None).
Proof.
  cbv zeta. unfold Prefs.fillPreferencesWindow.
  match goal with |- context [ fold_left _ _ ?w0 ] => set (w1 := w0) end.
  destruct (create_entries_spec schema (Prefs.keys Prefs.modifiers_manager) w1)
    as (Hs & Hr & Hsv & He). cbv zeta in *.
  rewrite Hr, Hsv.
  assert (Hempty : forall key, Prefs.getEntryText key w1 = "").
  { intros key. unfold Prefs.getEntryText. subst w1. cbn [Prefs.entries
      Prefs._updateButtonStates]. now rewrite lookup_empty. }
  split; [| split; [| split]].
  - subst w1. cbn [Prefs.resetButton_sensitive Prefs._updateButtonStates].
    apply negb_true_iff, every_from_false.
    exists 0%nat, "shift-symbol". split; [reflexivity |].
    apply bool_decide_eq_false. unfold Prefs.getEntryText.
    cbn [Prefs.entries]. rewrite lookup_empty. cbn. discriminate.
  - subst w1. cbn [Prefs.saveButton_sensitive Prefs._updateButtonStates].
    rewrite negb_true_iff. unfold Prefs.isCurrentEqualToSaved.
    rewrite every_from_false. cbn [Prefs.currentSymbols Prefs.keys
      Prefs.modifiers_manager].
    unfold Prefs.getEntryText. cbn [Prefs.entries]. split.
    + intros (j & key & Hj & Hf). apply bool_decide_eq_false in Hf.
      exists key. assert (Hin : key ∈ Prefs.CONFIG_KEYS_modifiers)
        by (eapply list_elem_of_lookup_2, Hj).
      split; [exact Hin |]. intros Hget. apply Hf.
      rewrite getSymbolsFromSettings_lookup, decide_True by exact Hin.
      rewrite lookup_empty. now rewrite Hget.
    + intros (key & Hin & Hget). apply list_elem_of_lookup_1 in Hin as Hj.
      destruct Hj as [j Hj]. exists j, key. split; [exact Hj |].
      apply bool_decide_eq_false.
      rewrite getSymbolsFromSettings_lookup, decide_True by exact Hin.
      rewrite lookup_empty. intros [= Heq]. contradiction.
  - intros key Hin Hk. rewrite He. destruct Hs as (_ & _ & -> & _).
    subst w1. cbn [Prefs.currentSymbols Prefs._updateButtonStates].
    rewrite getSymbolsFromSettings_lookup, !decide_True; try exact Hin;
      [split; reflexivity | split; assumption].
  - intros key Hk. rewrite He. rewrite decide_False.
    + subst w1. cbn [Prefs.entries Prefs._updateButtonStates]. apply lookup_empty.
    + intros [_ Hc]. congruence.
Qed.

(** X19: a write to a key from outside the window reaches the entry of the
    key only when the value differs from the current symbol the window
    keeps for it: then the entry text (also an unsaved one the user
    typed) is replaced by the new value, the current symbol follows and
    the buttons are set anew; otherwise the entry and the buttons are
    left as they are. *)
Theorem outside_write_replaces_entry_text (sm : Prefs.SimpleManager)
    (w : Prefs.Window) (key newValue : string) :
  is_Some (Prefs.entries w !! key) ->
  let w' := Prefs.handle sm (Prefs.ExternalChange key newValue) w in
  Prefs.stored w' key = newValue
  /\ (Prefs.currentSymbols w !! key <> Some newValue ->
      Prefs.getEntryText key w' = newValue
      /\ Prefs.currentSymbols w' !! key = Some newValue
      /\ (forall k, k <> key ->
            Prefs.entries w' !! k = Prefs.entries w !! k
            /\ Prefs.currentSymbols w' !! k = Prefs.currentSymbols w !! k)
      /\ buttons_follow_entries sm w')
  /\ (Prefs.currentSymbols w !! key = Some newValue ->
      Prefs.entries w' = Prefs.entries w
      /\ Prefs.resetButton_sensitive w' = Prefs.resetButton_sensitive w
      /\ Prefs.saveButton_sensitive w' = Prefs.saveButton_sensitive w).
Proof.
  intros [old Hold]. cbv zeta. cbn [Prefs.handle]. rewrite Hold.
  destruct (bool_decide (Prefs.currentSymbols w !! key = Some newValue)) eqn:D.
  - apply bool_decide_eq_true in D. cbn [Prefs.stored].
    rewrite bool_decide_eq_true_2 by reflexivity.
    split; [reflexivity |]. split; [intros Hne; contradiction |].
    intros _. repeat split.
  - apply bool_decide_eq_false in D.
    match goal with |- context [ Prefs.updateEntry key newValue ?x ] =>
      set (w1 := x) end.
    destruct (updateEntry_spec key newValue w1) as ((s1 & s2 & s3 & s4) & He).
    assert (Hw1 : Prefs.entries w1 = Prefs.entries w) by reflexivity.
    assert (Hcur : Prefs.currentSymbols w1
                   = <[key := newValue]> (Prefs.currentSymbols w)) by reflexivity.
    assert (Hst : Prefs.stored w1 key = newValue).
    { subst w1. cbn [Prefs.stored]. now rewrite bool_decide_eq_true_2. }
    rewrite Hw1, Hold in He. clearbody w1.
    unfold Prefs._updateButtonStates at 1 2 3 4 5.
    cbn [Prefs.stored Prefs.entries Prefs.currentSymbols].
    unfold Prefs.getEntryText. cbn [Prefs.entries].
    rewrite s1, s3, He, Hcur, Hst.
    split; [reflexivity |]. split; [| intros Hc; contradiction].
    intros _. split; [| split; [| split]].
    + now rewrite lookup_insert_eq.
    + apply lookup_insert_eq.
    + intros k Hne. now rewrite !lookup_insert_ne by congruence.
    + apply updateButtonStates_follows.
Qed.

Lemma outside_write_replaces_entry_text_witness :
  Prefs.getEntryText "caps-symbol"
    (Prefs.handle Prefs.modifiers_manager (Prefs.ExternalChange "caps-symbol" "⇪")
       (Prefs.handle Prefs.modifiers_manager
          (Prefs.EntryEdited "caps-symbol" "CAPS") opened_window))
  = "⇪".
Proof.
  refine (proj1 (proj1 (proj2 (outside_write_replaces_entry_text
            Prefs.modifiers_manager
            (Prefs.handle Prefs.modifiers_manager
               (Prefs.EntryEdited "caps-symbol" "CAPS") opened_window)
            "caps-symbol" "⇪" _)) _)).
  - vm_compute. eexists; reflexivity.
  - vm_compute. discriminate.
Defined.

(** * The OSD array over a run *)

Lemma one_per_monitor_same_shape (n : nat) (ws ws' : list (option ModifiersOSD.t)) :
  id_shape ws' = id_shape ws -> one_per_monitor n ws -> one_per_monitor n ws'.
Proof.
  intros Hshape [Hlen Hfill]. split.
  - apply (f_equal length) in Hshape. unfold id_shape in Hshape.
    rewrite !length_fmap in Hshape. congruence.
  - intros i Hi. destruct (Hfill i Hi) as (osd & Hlook & Hidx).
    apply (f_equal (fun l => l !! i)) in Hshape. unfold id_shape in Hshape.
    rewrite !list_lookup_fmap, Hlook in Hshape.
    destruct (ws' !! i) as [[osd'|]|]; cbn in Hshape; try discriminate.
    inversion Hshape. exists osd'. split; [reflexivity | congruence].
Qed.

(** X7: in every world an enabled extension reaches, the OSD array has one
    slot per monitor of the host, each holding an OSD made for that
    monitor: monitor changes rebuild it, polls (also failing ones) and
    settings changes leave its objects in place. *)
Theorem reachable_one_osd_per_monitor (w : World) :
  reachable w ->
  one_per_monitor (monitors_length (host w))
    (ModifiersOSDManager._osdWindows (_osdManager (this w)))
  /\ osd_count w = monitors_length (host w).
Proof.
  intros Hreach.
  assert (Hone : one_per_monitor (monitors_length (host w))
                   (ModifiersOSDManager._osdWindows (_osdManager (this w)))).
  { induction Hreach as [h | s w Hreach IH].
    - unfold KeyboardModifiersStatusExtension.enable, ModifiersOSDManager.new.
      pose proof (onMonitorsChanged_one_per_monitor h 0
                    {| ModifiersOSDManager._osdWindows := [] |}) as H.
      destruct (ModifiersOSDManager._onMonitorsChanged h 0
                  {| ModifiersOSDManager._osdWindows := [] |}) as [[m next] out].
      apply H. intros i osd Hget. unfold array_get in Hget. cbn in Hget.
      rewrite lookup_nil in Hget. discriminate.
    - destruct s as [modifiers | store | count | throws stage]; unfold fire.
      + match goal with |- context [ (_ ≫= _) ?w0 ] => set (w0' := w0) end.
        destruct (neutral_bind _ (fun _ => mret tt) onUpdate_neutral
                    (fun _ => neutral_ret tt) w0') as (_ & _ & _ & S).
        destruct (onUpdate_spec w0') as (w2 & out & Hrun & _).
        pose proof (onUpdate_frame w0') as F. cbv zeta in F.
        rewrite Hrun in F. unfold world_of in F. cbn [fst snd] in F.
        destruct F as (Fh & _).
        rewrite (bind_normal _ _ _ _ _ _ _ _ _ Hrun eq_refl) in *.
        unfold world_of in *. cbn [fst snd] in *. rewrite Fh.
        eapply one_per_monitor_same_shape; [exact S | exact IH].
      + exact IH.
      + unfold KeyboardModifiersStatusExtension.on_monitors_changed.
        cbn [host set_host next_object this _osdManager].
        pose proof (onMonitorsChanged_one_per_monitor
                      {| monitors_length := count;
                         pointer_modifiers := pointer_modifiers (host w);
                         settings_store := settings_store (host w);
                         osd_show_throws := osd_show_throws (host w);
                         osd_show_throws_at := osd_show_throws_at (host w) |}
                      (next_object w) (_osdManager (this w))
                      (one_per_monitor_indexed _ _ IH)) as H.
        destruct (ModifiersOSDManager._onMonitorsChanged _ _ _) as [[m next] out].
        exact H.
      + exact IH. }
  split; [exact Hone |].
  destruct Hone as [Hlen Hfill]. unfold osd_count. rewrite <- Hlen.
  set (ws := ModifiersOSDManager._osdWindows (_osdManager (this w))) in *.
  assert (Hall : Forall (fun slot => is_Some slot) ws).
  { apply Forall_lookup. intros i slot Hi.
    assert (i < monitors_length (host w))%nat
      by (rewrite <- Hlen; eapply lookup_lt_Some, Hi).
    destruct (Hfill i H) as (osd & Hlook & _). rewrite Hlook in Hi.
    inversion Hi. eexists; reflexivity. }
  clear -Hall. induction Hall as [|slot rest [osd ->] _ IH]; [reflexivity |].
  cbn. now rewrite IH.
Qed.

Lemma reachable_one_osd_per_monitor_witness :
  osd_count (world_of (fire (MonitorsChanged 3) enabled_world)) = 3%nat.
Proof.
  refine (proj2 (reachable_one_osd_per_monitor
                   (world_of (fire (MonitorsChanged 3) enabled_world)) _)).
  apply reachable_fire, reachable_enable.
Defined.

Lemma create_loop_all_filled (indices : list nat)
    (st : ModifiersOSDManager.loop_state) :
  (forall i, i ∈ indices -> array_get (fst (fst st)) i <> None) ->
  fold_left ModifiersOSDManager.create_if_missing indices st = st.
Proof.
  induction indices as [|i indices IH]; intros Hall; [reflexivity |].
  cbn [fold_left].
  assert (Hi : ModifiersOSDManager.create_if_missing st i = st).
  { destruct st as [[ws next] out]. unfold ModifiersOSDManager.create_if_missing.
    specialize (Hall i (list_elem_of_here _ _)). cbn [fst] in Hall.
    destruct (array_get ws i); [reflexivity | contradiction]. }
  rewrite Hi. apply IH. intros j Hj. apply Hall. now apply list_elem_of_further.
Qed.

(** X8: a ['monitors-changed'] event that leaves the number of monitors as
    it was changes nothing: no OSD is created or destroyed, and every
    OSD stays in its slot with what it displays. *)
Theorem monitors_changed_same_count_changes_nothing (h : Host) (next : nat)
    (m : ModifiersOSDManager.t) :
  one_per_monitor (monitors_length h) (ModifiersOSDManager._osdWindows m) ->
  ModifiersOSDManager._onMonitorsChanged h next m = (m, next, []).
Proof.
  intros [Hlen Hfill]. unfold ModifiersOSDManager._onMonitorsChanged. cbv zeta.
  rewrite create_loop_all_filled.
  - cbn [fst snd]. rewrite Hlen, Nat.sub_diag. cbn [seq fold_left].
    unfold JS.array_set_length. rewrite Hlen, Nat.sub_diag. cbn [replicate].
    rewrite <- Hlen, firstn_all, app_nil_r. now destruct m.
  - intros i Hi. cbn [fst]. apply elem_of_seq in Hi.
    destruct (Hfill i ltac:(lia)) as (osd & Hlook & _).
    unfold array_get. now rewrite Hlook.
Qed.

Lemma monitors_changed_same_count_changes_nothing_witness :
  ModifiersOSDManager._onMonitorsChanged one_monitor_host 1 one_monitor_manager
  = (one_monitor_manager, 1%nat, []).
Proof.
  apply monitors_changed_same_count_changes_nothing.
  apply one_monitor_manager_shape.
Defined.
